(** * P2P bank node: a shallow embedding of [main.py] and its properties

    The development follows the layout of the program:

    - [PyStr]: the string primitives of Python the program relies on
      ([str.strip], [str.split], [str.upper], [int(...)], [str(int)]);
    - [Dec]: the [decimal.Decimal] values the balances are made of, with the
      default context of the interpreter (28 digits, round-half-even,
      exponents within +-999999, traps on InvalidOperation and Overflow);
    - [Exn], [Bank] and the monad [M]: Python exceptions and the mutable
      state of a [Bank] object together with its state file;
    - the methods of [Account] and [Bank], under the names of the source;
    - the theorems.

    Strings are sequences of bytes (the UTF-8 encoding of the Python text);
    integers are unbounded ([Z]) as in Python.  One client is served at a
    time: [self.lock] makes every method atomic, so the methods are
    functions on the state of the object.  Logging and printing are left
    out, they touch nothing the methods read.  The state file is modelled
    as the document [json.dump] is given and [json.load] returns, not as
    text. *)

From Stdlib Require Import ZArith NArith Lia Bool List String Ascii.
From Stdlib Require FinFun.
Import ListNotations.

Local Open Scope string_scope.
Local Open Scope Z_scope.

(* ================================================================== *)
(** ** Python string primitives *)
(* ================================================================== *)

Module PyStr.

(** [str.isspace] on the ASCII range: TAB, LF, VT, FF, CR, the four
    separators 0x1c-0x1f and the blank. *)
Definition is_space (c : ascii) : bool :=
  let n := nat_of_ascii c in
  ((9 <=? n) && (n <=? 13) || (28 <=? n) && (n <=? 32))%nat.

Definition is_digit (c : ascii) : bool :=
  let n := nat_of_ascii c in ((48 <=? n) && (n <=? 57))%nat.

Definition digit_val (c : ascii) : N := N.of_nat (nat_of_ascii c - 48).

Definition digit_char (d : N) : ascii := ascii_of_nat (48 + N.to_nat d).

Fixpoint lstrip (s : string) : string :=
  match s with
  | String c r => if is_space c then lstrip r else s
  | EmptyString => EmptyString
  end.

(** [rstrip] keeps a character when it is not a blank or when something
    is kept after it. *)
Fixpoint rstrip (s : string) : string :=
  match s with
  | EmptyString => EmptyString
  | String c r =>
      match rstrip r with
      | EmptyString => if is_space c then EmptyString else String c EmptyString
      | r' => String c r'
      end
  end.

Definition strip (s : string) : string := rstrip (lstrip s).

(** [s.split()]: the maximal runs of non-blank characters.  [cur] is the
    token being read. *)
Fixpoint split_from (cur : string) (s : string) : list string :=
  match s with
  | EmptyString => match cur with EmptyString => [] | _ => [cur] end
  | String c r =>
      if is_space c
      then match cur with
           | EmptyString => split_from EmptyString r
           | _ => cur :: split_from EmptyString r
           end
      else split_from (cur ++ String c EmptyString) r
  end.

Definition split (s : string) : list string := split_from EmptyString s.

(** [s.split(sep)] for a one-character separator: always at least one
    field, empty fields are kept. *)
Fixpoint split_on_from (sep : ascii) (cur : string) (s : string) : list string :=
  match s with
  | EmptyString => [cur]
  | String c r =>
      if Ascii.eqb c sep
      then cur :: split_on_from sep EmptyString r
      else split_on_from sep (cur ++ String c EmptyString) r
  end.

Definition split_on (sep : ascii) (s : string) : list string :=
  split_on_from sep EmptyString s.

(** [c in s] for a one-character [c]. *)
Fixpoint contains (c : ascii) (s : string) : bool :=
  match s with
  | EmptyString => false
  | String d r => Ascii.eqb d c || contains c r
  end.

Definition upper_char (c : ascii) : ascii :=
  let n := nat_of_ascii c in
  if ((97 <=? n) && (n <=? 122))%nat then ascii_of_nat (n - 32) else c.

(** [s.upper()]; bytes outside a-z are left alone (no character outside
    ASCII has an upper case among the letters of the five opcodes). *)
Fixpoint upper (s : string) : string :=
  match s with
  | EmptyString => EmptyString
  | String c r => String (upper_char c) (upper r)
  end.

(** [s.replace('_', '')] *)
Fixpoint remove_underscores (s : string) : string :=
  match s with
  | EmptyString => EmptyString
  | String c r =>
      if Ascii.eqb c "_" then remove_underscores r
      else String c (remove_underscores r)
  end.

Fixpoint all_digits (s : string) : bool :=
  match s with
  | EmptyString => true
  | String c r => is_digit c && all_digits r
  end.

(** Value of a string of decimal digits, most significant first. *)
Fixpoint value_from (acc : N) (s : string) : N :=
  match s with
  | EmptyString => acc
  | String c r => value_from (acc * 10 + digit_val c)%N r
  end.

Definition value (s : string) : N := value_from 0%N s.

(** Decimal digits of a natural number, without leading zeros. *)
Fixpoint digits_fuel (fuel : nat) (n : N) (acc : string) : string :=
  match fuel with
  | O => acc
  | S f =>
      let acc' := String (digit_char (n mod 10)) acc in
      if (n / 10 =? 0)%N then acc' else digits_fuel f (n / 10)%N acc'
  end.

Definition str_of_N (n : N) : string :=
  digits_fuel (S (N.to_nat (N.log2 n))) n EmptyString.

(** [str(n)] for an [int]. *)
Definition str_of_Z (z : Z) : string :=
  match z with
  | Zneg p => String "-" (str_of_N (Npos p))
  | _ => str_of_N (Z.to_N z)
  end.

(** The longest prefix of digits and what follows it. *)
Fixpoint span_digits (s : string) : string * string :=
  match s with
  | String c r =>
      if is_digit c
      then let (d, t) := span_digits r in (String c d, t)
      else (EmptyString, s)
  | EmptyString => (EmptyString, EmptyString)
  end.

(** The string does not start with a digit. *)
Definition no_digit_head (s : string) : bool :=
  match s with
  | EmptyString => true
  | String c _ => negb (is_digit c)
  end.

(** An optional sign: [true] for minus. *)
Definition take_sign (s : string) : bool * string :=
  match s with
  | String "-" r => (true, r)
  | String "+" r => (false, r)
  | _ => (false, s)
  end.

(** Digits with single underscores between them, as [int] accepts. *)
Fixpoint int_body (after_digit : bool) (s : string) : bool :=
  match s with
  | EmptyString => after_digit
  | String c r =>
      if is_digit c then int_body true r
      else if Ascii.eqb c "_" then after_digit && int_body false r
      else false
  end.

(** The blanks [int] skips around an ASCII literal: those of C's
    [isspace] (the separators 0x1c-0x1f are not among them). *)
Definition is_c_space (c : ascii) : bool :=
  let n := nat_of_ascii c in
  ((9 <=? n) && (n <=? 13) || (n =? 32))%nat.

Fixpoint int_lstrip (s : string) : string :=
  match s with
  | String c r => if is_c_space c then int_lstrip r else s
  | EmptyString => EmptyString
  end.

Fixpoint int_rstrip (s : string) : string :=
  match s with
  | EmptyString => EmptyString
  | String c r =>
      match int_rstrip r with
      | EmptyString => if is_c_space c then EmptyString else String c EmptyString
      | r' => String c r'
      end
  end.

(** [int(s)] in base 10, for a string of ASCII characters: [None] stands
    for [ValueError].  (The interpreter also refuses literals of more
    than 4300 digits; a line of the protocol is at most 1024 bytes.) *)
Definition py_int (s : string) : option Z :=
  let (neg, body) := take_sign (int_rstrip (int_lstrip s)) in
  if int_body false body
  then let v := Z.of_N (value (remove_underscores body)) in
       Some (if neg then - v else v)
  else None.

Fixpoint zeros (n : nat) : string :=
  match n with
  | O => EmptyString
  | S k => String "0" (zeros k)
  end.

Fixpoint take (n : nat) (s : string) : string :=
  match n, s with
  | S k, String c r => String c (take k r)
  | _, _ => EmptyString
  end.

Fixpoint drop (n : nat) (s : string) : string :=
  match n, s with
  | S k, String c r => drop k r
  | _, _ => s
  end.

Fixpoint starts_with (p s : string) : bool :=
  match p, s with
  | EmptyString, _ => true
  | String a p', String b s' => Ascii.eqb a b && starts_with p' s'
  | _, _ => false
  end.

End PyStr.

(* ================================================================== *)
(** ** [decimal.Decimal] under the default context *)
(* ================================================================== *)

(** The part of the standard module [decimal] the program uses: the
    constructor from a string, [str], [+], [-], [<] and [<=], as CPython
    (64-bit) computes them under the default context.  The arithmetic
    follows the reference implementation of the module ([_fix], [_rescale],
    [_normalize], [__add__], [__sub__], [_cmp], [__str__]); a coefficient
    is a number, where the module keeps its digits, so [ndigits] stands for
    the length of the digit string and dropping [k] digits is division by
    [10^k]. *)

Module Dec.
Import PyStr.

(** A decimal is a finite number [(-1)^sign * coeff * 10^exp], an infinity
    or a NaN (quiet or signaling, with a diagnostic payload). *)
Inductive Decimal : Type :=
| Fin (sign : bool) (coeff : N) (exp : Z)
| Inf (sign : bool)
| NaN (sign : bool) (signaling : bool) (payload : N).

(** The conditions the default context traps, i.e. turns into exceptions. *)
Inductive signal : Type := ConversionSyntax | InvalidOperation | Overflow.

Definition result : Type := (signal + Decimal)%type.

Definition prec : Z := 28.
Definition Emax : Z := 999999.
Definition Emin : Z := -999999.
Definition Etiny : Z := Emin - prec + 1.
Definition Etop : Z := Emax - prec + 1.

Definition pow10 (k : Z) : N := (10 ^ Z.to_N k)%N.

(** [len(self._int)] *)
Definition ndigits (c : N) : Z := Z.of_nat (String.length (str_of_N c)).

Definition adjusted (c : N) (e : Z) : Z := e + ndigits c - 1.

(** [Decimal('0')] *)
Definition zero : Decimal := Fin false 0 0.

(** *** Construction from a string *)

Definition parse_exponent (s : string) : option Z :=
  let (neg, ds) := take_sign s in
  match ds with
  | EmptyString => None
  | _ => if all_digits ds
         then Some (if neg then - Z.of_N (value ds) else Z.of_N (value ds))
         else None
  end.

(** The numeric alternative of the grammar: digits with an optional
    fraction, at least one digit in all, and an optional exponent. *)
Definition parse_numeric (s : string) : option (N * Z) :=
  let (ip, r1) := span_digits s in
  let (fp, r2) :=
    match r1 with
    | String "." r => span_digits r
    | _ => (EmptyString, r1)
    end in
  match ip, fp with
  | EmptyString, EmptyString => None
  | _, _ =>
      let c := value (ip ++ fp) in
      let shift := Z.of_nat (String.length fp) in
      match r2 with
      | EmptyString => Some (c, - shift)
      | String x r3 =>
          if Ascii.eqb (upper_char x) "E"
          then match parse_exponent r3 with
               | Some e => Some (c, e - shift)
               | None => None
               end
          else None
      end
  end.

Definition parse_special (sg : bool) (s : string) : option Decimal :=
  let u := upper s in
  if String.eqb u "INF" || String.eqb u "INFINITY" then Some (Inf sg)
  else if starts_with "NAN" u
  then let d := drop 3 u in
       if all_digits d then Some (NaN sg false (value d)) else None
  else if starts_with "SNAN" u
  then let d := drop 4 u in
       if all_digits d then Some (NaN sg true (value d)) else None
  else None.

(** The grammar of a decimal literal, after blanks around it and
    underscores are removed: the triple it denotes. *)
Definition parse_literal (s : string) : option Decimal :=
  let (sg, r) := take_sign (remove_underscores (strip s)) in
  match parse_numeric r with
  | Some (c, e) => Some (Fin sg c e)
  | None => parse_special sg r
  end.

(** The bounds of the interpreter on every decimal (64-bit build):
    [decimal.MAX_EMAX], [decimal.MAX_PREC], [decimal.MIN_ETINY]. *)
Definition MAX_EMAX : Z := 999999999999999999.
Definition MAX_PREC : Z := 999999999999999999.
Definition MIN_ETINY : Z := -1999999999999999997.

(** A decimal the interpreter can hold. *)
Definition representable (d : Decimal) : bool :=
  match d with
  | Fin _ c e =>
      (MIN_ETINY <=? e) && (ndigits c <=? MAX_PREC)
      && (if (c =? 0)%N then e <=? MAX_EMAX else adjusted c e <=? MAX_EMAX)
  | Inf _ => true
  | NaN _ _ p => ndigits p <=? MAX_PREC
  end.

(** [Decimal(s)]: exact, the context plays no part.  [None] stands for
    the exception, whose kind [literal_signal] gives: [ConversionSyntax]
    for a string that is no literal, [InvalidOperation] for a literal
    beyond the bounds. *)
Definition of_string (s : string) : option Decimal :=
  match parse_literal s with
  | Some d => if representable d then Some d else None
  | None => None
  end.

Definition literal_signal (s : string) : signal :=
  match parse_literal s with
  | Some _ => InvalidOperation
  | None => ConversionSyntax
  end.

(** *** Conversion to a string: [str(d)], also what an f-string inserts *)

Definition sign_str (s : bool) : string := if s then "-" else "".

Definition fmt_plus_d (z : Z) : string :=
  if z <? 0 then str_of_Z z else "+" ++ str_of_Z z.

Definition to_string (d : Decimal) : string :=
  match d with
  | Inf s => sign_str s ++ "Infinity"
  | NaN s sig p =>
      sign_str s ++ (if sig then "sNaN" else "NaN")
        ++ (if (p =? 0)%N then "" else str_of_N p)
  | Fin s c e =>
      let ds := str_of_N c in
      let len := Z.of_nat (String.length ds) in
      let leftdigits := e + len in
      let dotplace :=
        if (e <=? 0) && (-6 <? leftdigits) then leftdigits else 1 in
      let (intpart, fracpart) :=
        if dotplace <=? 0
        then ("0", "." ++ zeros (Z.to_nat (- dotplace)) ++ ds)
        else if len <=? dotplace
        then (ds ++ zeros (Z.to_nat (dotplace - len)), "")
        else (take (Z.to_nat dotplace) ds, "." ++ drop (Z.to_nat dotplace) ds) in
      let ex :=
        if leftdigits =? dotplace then ""
        else "E" ++ fmt_plus_d (leftdigits - dotplace) in
      sign_str s ++ intpart ++ fracpart ++ ex
  end.

(** The general form of the text of a finite number without its sign:
    digits, then possibly a point and digits, then possibly an
    exponent. *)
Definition numeral (ip fp : string) (dot : bool) (ex : option Z) : string :=
  ip ++ (if dot then String "." fp else "")
     ++ match ex with
        | Some z => String "E" (fmt_plus_d z)
        | None => ""
        end.

(** *** Rounding to the context *)

(** [_round_half_even] when the last [k] digits of [c] are dropped:
    1 to round up, 0 when nothing is lost, -1 to truncate. *)
Definition changed (c : N) (k : Z) : Z :=
  let q := (c / pow10 k)%N in
  let r := (c mod pow10 k)%N in
  let half := (5 * pow10 (k - 1))%N in
  if (r =? half)%N && N.even q then -1
  else if (half <=? r)%N then 1
  else if (r =? 0)%N then 0
  else -1.

(** [_fix]: bring a finite number within the precision and the exponent
    range of the context. *)
Definition fix_ (s : bool) (c : N) (e : Z) : result :=
  if (c =? 0)%N then inr (Fin s 0 (Z.min (Z.max e Etiny) Emax))
  else
    let exp_min := ndigits c + e - prec in
    if Etop <? exp_min then inl Overflow
    else
      let exp_min := Z.max exp_min Etiny in
      if e <? exp_min then
        let digits := ndigits c + e - exp_min in
        let '(c1, e1) := if digits <? 0 then (1%N, exp_min - 1) else (c, e) in
        let k := exp_min - e1 in
        let q := (c1 / pow10 k)%N in
        let '(coeff, exp') :=
          if 0 <? changed c1 k
          then if prec <? ndigits (q + 1)
               then (((q + 1) / 10)%N, exp_min + 1)
               else ((q + 1)%N, exp_min)
          else (q, exp_min) in
        if Etop <? exp' then inl Overflow else inr (Fin s coeff exp')
      else inr (Fin s c e).

(** [_fix_nan]: the payload keeps at most [prec] digits. *)
Definition fix_nan (s sig : bool) (p : N) : Decimal :=
  NaN s sig (p mod pow10 prec).

Definition fix_dec (d : Decimal) : result :=
  match d with
  | Fin s c e => fix_ s c e
  | Inf s => inr (Inf s)
  | NaN s sig p => inr (fix_nan s sig p)
  end.

(** [_rescale] of a finite number to the exponent [ex]. *)
Definition rescale (s : bool) (c : N) (e : Z) (ex : Z) : Decimal :=
  if (c =? 0)%N then Fin s 0 ex
  else if ex <=? e then Fin s (c * pow10 (e - ex)) ex
  else
    let digits := ndigits c + e - ex in
    let '(c1, e1) := if digits <? 0 then (1%N, ex - 1) else (c, e) in
    let k := ex - e1 in
    let q := (c1 / pow10 k)%N in
    Fin s (if changed c1 k =? 1 then (q + 1)%N else q) ex.

(** [_normalize]: both coefficients at a common exponent; an operand too
    small to matter at the precision is replaced by one unit. *)
Definition norm_pair (tc : N) (te : Z) (oc : N) (oe : Z) : N * N * Z :=
  let ex := te + Z.min (-1) (ndigits tc - prec - 2) in
  let '(oc', oe') :=
    if ndigits oc + oe - 1 <? ex then (1%N, ex) else (oc, oe) in
  ((tc * pow10 (te - oe'))%N, oc', oe').

Definition normalize (c1 : N) (e1 : Z) (c2 : N) (e2 : Z) : N * N * Z :=
  if e1 <? e2
  then let '(t, o, e) := norm_pair c2 e2 c1 e1 in (o, t, e)
  else norm_pair c1 e1 c2 e2.

(** *** Arithmetic *)

Definition check_nans (a b : Decimal) : option result :=
  match a, b with
  | NaN _ true _, _ => Some (inl InvalidOperation)
  | _, NaN _ true _ => Some (inl InvalidOperation)
  | NaN s false p, _ => Some (inr (fix_nan s false p))
  | _, NaN s false p => Some (inr (fix_nan s false p))
  | _, _ => None
  end.

Definition add_fin (s1 : bool) (c1 : N) (e1 : Z) (s2 : bool) (c2 : N) (e2 : Z)
  : result :=
  let ex := Z.min e1 e2 in
  if (c1 =? 0)%N && (c2 =? 0)%N then fix_ (s1 && s2) 0 ex
  else if (c1 =? 0)%N
  then fix_dec (rescale s2 c2 e2 (Z.max ex (e2 - prec - 1)))
  else if (c2 =? 0)%N
  then fix_dec (rescale s1 c1 e1 (Z.max ex (e1 - prec - 1)))
  else
    let '(n1, n2, e) := normalize c1 e1 c2 e2 in
    if xorb s1 s2
    then if (n1 =? n2)%N then fix_ false 0 ex
         else if (n1 <? n2)%N then fix_ s2 (n2 - n1) e
         else fix_ s1 (n1 - n2) e
    else fix_ s1 (n1 + n2) e.

(** [a + b] *)
Definition add (a b : Decimal) : result :=
  match check_nans a b with
  | Some r => r
  | None =>
      match a, b with
      | Inf s1, Inf s2 =>
          if xorb s1 s2 then inl InvalidOperation else inr (Inf s1)
      | Inf s1, _ => inr (Inf s1)
      | _, Inf s2 => inr (Inf s2)
      | Fin s1 c1 e1, Fin s2 c2 e2 => add_fin s1 c1 e1 s2 c2 e2
      | _, _ => inl InvalidOperation
      end
  end.

Definition copy_negate (d : Decimal) : Decimal :=
  match d with
  | Fin s c e => Fin (negb s) c e
  | Inf s => Inf (negb s)
  | NaN s sig p => NaN (negb s) sig p
  end.

(** [a - b] *)
Definition sub (a b : Decimal) : result :=
  match check_nans a b with
  | Some r => r
  | None => add a (copy_negate b)
  end.

(** *** Comparison *)

Definition flip (s : bool) (c : comparison) : comparison :=
  if s then CompOpp c else c.

Definition cmp_fin (s1 : bool) (c1 : N) (e1 : Z) (s2 : bool) (c2 : N) (e2 : Z)
  : comparison :=
  if (c1 =? 0)%N then
    if (c2 =? 0)%N then Eq else flip s2 Lt
  else if (c2 =? 0)%N then flip s1 Gt
  else if s1 && negb s2 then Lt
  else if negb s1 && s2 then Gt
  else
    let a1 := adjusted c1 e1 in
    let a2 := adjusted c2 e2 in
    if a1 =? a2
    then flip s1 ((c1 * pow10 (e1 - e2)) ?= (c2 * pow10 (e2 - e1)))%N
    else if a2 <? a1 then flip s1 Gt else flip s1 Lt.

Definition inf_rank (d : Decimal) : Z :=
  match d with
  | Inf false => 1
  | Inf true => -1
  | _ => 0
  end.

(** [_cmp] behind the NaN check of the ordering operators: comparing a
    NaN signals InvalidOperation. *)
Definition cmp (a b : Decimal) : signal + comparison :=
  match a, b with
  | NaN _ _ _, _ | _, NaN _ _ _ => inl InvalidOperation
  | Fin s1 c1 e1, Fin s2 c2 e2 => inr (cmp_fin s1 c1 e1 s2 c2 e2)
  | _, _ => inr (inf_rank a ?= inf_rank b)
  end.

(** [a < b] *)
Definition lt (a b : Decimal) : signal + bool :=
  match cmp a b with
  | inl sg => inl sg
  | inr Lt => inr true
  | inr _ => inr false
  end.

(** [a <= 0] *)
Definition le_zero (a : Decimal) : signal + bool :=
  match cmp a zero with
  | inl sg => inl sg
  | inr Gt => inr false
  | inr _ => inr true
  end.

(** [a >= 0] *)
Definition ge_zero (a : Decimal) : signal + bool :=
  match cmp a zero with
  | inl sg => inl sg
  | inr Lt => inr false
  | inr _ => inr true
  end.

(** A number the arithmetic of the context can have produced and that is
    not negative: plus infinity, or a finite number with a plus sign, at
    most [prec] digits and an adjusted exponent of at most [Emax]. *)
Definition sound (d : Decimal) : Prop :=
  match d with
  | Fin s c e =>
      s = false /\ (c < pow10 prec)%N /\ (c <> 0%N -> adjusted c e <= Emax)
  | Inf s => s = false
  | NaN _ _ _ => False
  end.

(** [str(e)] for the exception the signal raises. *)
Definition signal_str (sg : signal) : string :=
  match sg with
  | ConversionSyntax => "[<class 'decimal.ConversionSyntax'>]"
  | InvalidOperation => "[<class 'decimal.InvalidOperation'>]"
  | Overflow => "[<class 'decimal.Overflow'>]"
  end.

End Dec.

(* ================================================================== *)
(** ** Exceptions, the state of a [Bank] and the monad of its methods *)
(* ================================================================== *)

(** The exceptions the program meets.  [ValueError] is told apart because
    the methods catch it first; every other kind goes through the clause
    [except Exception as e], which only uses [str(e)]. *)
Inductive Exn : Type :=
| ValueError (msg : string)
| DecimalException (sg : Dec.signal)
| KeyError (key : string)
| OSError (msg : string)
| Exception (msg : string).

(** [str(e)] *)
Definition exn_str (e : Exn) : string :=
  match e with
  | ValueError msg => msg
  | DecimalException sg => Dec.signal_str sg
  | KeyError key => "'" ++ key ++ "'"
  | OSError msg => msg
  | Exception msg => msg
  end.

(** [class Account] *)
Record Account : Type := mkAccount {
  number : Z;
  balance : Dec.Decimal
}.

(** [Account.__init__] *)
Definition Account_init (number : Z) : Account :=
  {| number := number; balance := Dec.zero |}.

(** A Python [dict] keeps its keys in insertion order: an association
    list in which assigning to a present key replaces the value in place
    and assigning to a new key appends. *)
Definition dict (V : Type) : Type := list (Z * V).

Fixpoint dict_get {V} (k : Z) (d : dict V) : option V :=
  match d with
  | [] => None
  | (k', v) :: r => if k' =? k then Some v else dict_get k r
  end.

Fixpoint dict_set {V} (k : Z) (v : V) (d : dict V) : dict V :=
  match d with
  | [] => [(k, v)]
  | (k', v') :: r =>
      if k' =? k then (k', v) :: r else (k', v') :: dict_set k v r
  end.

Definition dict_keys {V} (d : dict V) : list Z := map fst d.
Definition dict_values {V} (d : dict V) : list V := map snd d.

(** The state file.  One account of the persisted record is a JSON object
    whose two fields may be missing; where present they have the types
    [to_dict] writes (an integer, the balance as a string). *)
Record AccRecord : Type := mkAccRecord {
  rec_number : option Z;
  rec_balance : option string
}.

Record Doc : Type := mkDoc {
  doc_next_account_number : option Z;
  doc_accounts : option (list AccRecord)
}.

(** What [bank_data.json] holds: nothing, something [open] or [json.load]
    fails on, or a JSON document. *)
Inductive File : Type :=
| Absent
| Unreadable
| Json (d : Doc).

(** The fields of a [Bank] object the methods read or write, and with
    them the content of the file named by [self.data_file] and whether
    that file can be written. *)
Record Bank : Type := mkBank {
  accounts : dict Account;
  next_account_number : Z;
  ip_address : string;
  running : bool;
  data_file : File;
  writable : bool
}.

Definition set_accounts (a : dict Account) (b : Bank) : Bank :=
  {| accounts := a; next_account_number := next_account_number b;
     ip_address := ip_address b; running := running b;
     data_file := data_file b; writable := writable b |}.

Definition set_next_account_number (n : Z) (b : Bank) : Bank :=
  {| accounts := accounts b; next_account_number := n;
     ip_address := ip_address b; running := running b;
     data_file := data_file b; writable := writable b |}.

Definition set_data_file (f : File) (b : Bank) : Bank :=
  {| accounts := accounts b; next_account_number := next_account_number b;
     ip_address := ip_address b; running := running b;
     data_file := f; writable := writable b |}.

(** A method runs on the object and either returns or raises; in both
    cases the object is left as the method made it. *)
Definition M (A : Type) : Type := Bank -> (Exn + A) * Bank.

Definition ret {A} (a : A) : M A := fun b => (inr a, b).

Definition raise {A} (e : Exn) : M A := fun b => (inl e, b).

Definition bind {A B} (m : M A) (f : A -> M B) : M B :=
  fun b =>
    match m b with
    | (inr a, b') => f a b'
    | (inl e, b') => (inl e, b')
    end.

Definition get : M Bank := fun b => (inr b, b).

Definition modify (f : Bank -> Bank) : M unit := fun b => (inr tt, f b).

(** [try: m  except ...: h e] *)
Definition try_except {A} (m : M A) (h : Exn -> M A) : M A :=
  fun b =>
    match m b with
    | (inr a, b') => (inr a, b')
    | (inl e, b') => h e b'
    end.

Declare Scope py_scope.
Delimit Scope py_scope with py.
Notation "x <- m ;; k" := (bind m (fun x => k))
  (at level 61, m at next level, right associativity) : py_scope.
Notation "m ;; k" := (bind m (fun _ => k))
  (at level 61, right associativity) : py_scope.
Local Open Scope py_scope.

(** A value or the exception that stands for its absence. *)
Definition expect {A} (o : option A) (e : Exn) : M A :=
  match o with
  | Some a => ret a
  | None => raise e
  end.

(** A decimal operation under the traps of the context. *)
Definition trap {A} (r : Dec.signal + A) : M A :=
  match r with
  | inr a => ret a
  | inl sg => raise (DecimalException sg)
  end.

(* ================================================================== *)
(** ** [class Account]: the persisted form *)
(* ================================================================== *)

(** [Account.to_dict] *)
Definition to_dict (a : Account) : AccRecord :=
  {| rec_number := Some (number a);
     rec_balance := Some (Dec.to_string (balance a)) |}.

(** [Account.from_dict] *)
Definition from_dict (data : AccRecord) : M Account :=
  n <- expect (rec_number data) (KeyError "number") ;;
  let acc := Account_init n in
  s <- expect (rec_balance data) (KeyError "balance") ;;
  d <- expect (Dec.of_string s) (DecimalException (Dec.literal_signal s)) ;;
  ret {| number := number acc; balance := d |}.

(* ================================================================== *)
(** ** [class Bank] *)
(* ================================================================== *)

(** The loop of [_load_state] over [data['accounts']]. *)
Fixpoint load_accounts (l : list AccRecord) : M unit :=
  match l with
  | [] => ret tt
  | acc_data :: r =>
      acc <- from_dict acc_data ;;
      modify (fun b => set_accounts (dict_set (number acc) acc (accounts b)) b) ;;
      load_accounts r
  end.

(** The body of the [try] of [_load_state]. *)
Definition load_body : M unit :=
  b <- get ;;
  match data_file b with
  | Json data =>
      n <- expect (doc_next_account_number data) (KeyError "next_account_number") ;;
      modify (set_next_account_number n) ;;
      l <- expect (doc_accounts data) (KeyError "accounts") ;;
      load_accounts l
  | _ => raise (OSError "bank_data.json")
  end.

Definition _load_state : M unit :=
  b <- get ;;
  match data_file b with
  | Absent => ret tt
  | _ => try_except load_body (fun _ => ret tt)
  end.

(** The record [_save_state] builds and hands to [json.dump]. *)
Definition snapshot (b : Bank) : Doc :=
  {| doc_next_account_number := Some (next_account_number b);
     doc_accounts := Some (map to_dict (dict_values (accounts b))) |}.

Definition write_file (d : Doc) : M unit :=
  b <- get ;;
  if writable b then modify (set_data_file (Json d))
  else raise (OSError "bank_data.json").

Definition _save_state : M unit :=
  try_except (b <- get ;; write_file (snapshot b)) (fun _ => ret tt).

(** The object [Bank.__init__] builds before it loads the state: [ip] is
    what [_get_local_ip] returned, [f] and [w] describe the state file. *)
Definition blank (ip : string) (f : File) (w : bool) : Bank :=
  {| accounts := []; next_account_number := 10001; ip_address := ip;
     running := true; data_file := f; writable := w |}.

(** [Bank.__init__] *)
Definition Bank_init (ip : string) (f : File) (w : bool) : (Exn + unit) * Bank :=
  _load_state (blank ip f w).

Definition bank_code : M string :=
  b <- get ;; ret (ip_address b).

Definition account_create : M string :=
  b <- get ;;
  let account_number := next_account_number b in
  modify (set_next_account_number (account_number + 1)) ;;
  let account := Account_init account_number in
  modify (fun b => set_accounts (dict_set account_number account (accounts b)) b) ;;
  _save_state ;;
  b <- get ;;
  ret (PyStr.str_of_Z account_number ++ "/" ++ ip_address b).

(** [account_num_str, ip = account_full.split('/')] *)
Definition unpack2 (l : list string) : M (string * string) :=
  match l with
  | [a; b] => ret (a, b)
  | [_] => raise (ValueError "not enough values to unpack (expected 2, got 1)")
  | _ => raise (ValueError "too many values to unpack (expected 2)")
  end.

(** [int(s)] *)
Definition int (s : string) : M Z :=
  expect (PyStr.py_int s)
    (ValueError ("invalid literal for int() with base 10: '" ++ s ++ "'")).

(** [Decimal(s)] *)
Definition Decimal_of_str (s : string) : M Dec.Decimal :=
  expect (Dec.of_string s) (DecimalException (Dec.literal_signal s)).

Definition msg_format : string := "Neplatný formát účtu (očekáváno: číslo/IP)".
Definition msg_not_local (ip : string) : string :=
  "Účet není v této bance (očekáváno: " ++ ip ++ ")".
Definition msg_not_positive : string := "Částka musí být kladná".
Definition msg_not_found : string := "Účet neexistuje".
Definition msg_value : string := "Neplatný formát čísla nebo částky".
Definition msg_value_balance : string := "Neplatný formát čísla účtu".
Definition msg_insufficient (bal : Dec.Decimal) : string :=
  "Nedostatečný zůstatek (dostupné: " ++ Dec.to_string bal ++ " Kč)".

(** The two [except] clauses that close the three account methods:
    a [ValueError] becomes the message of the method, any other exception
    is raised again as [Exception(str(e))]. *)
Definition reraise {A} (on_value_error : string) (e : Exn) : M A :=
  match e with
  | ValueError _ => raise (Exception on_value_error)
  | _ => raise (Exception (exn_str e))
  end.

(** [account.balance = bal] for the account filed under [account_num]:
    the object in the dictionary changes, its place does not. *)
Definition set_balance (account_num : Z) (account : Account) (bal : Dec.Decimal)
  : M unit :=
  modify (fun b =>
    set_accounts
      (dict_set account_num {| number := number account; balance := bal |}
         (accounts b)) b).

(** The body of the [try] of [account_deposit]. *)
Definition deposit_body (account_full amount_str : string) : M string :=
    (if negb (PyStr.contains "/" account_full)
     then raise (Exception msg_format)
     else
       p <- unpack2 (PyStr.split_on "/" account_full) ;;
       let '(account_num_str, ip) := p in
       account_num <- int account_num_str ;;
       amount <- Decimal_of_str amount_str ;;
       b <- get ;;
       if negb (String.eqb ip (ip_address b))
       then raise (Exception (msg_not_local (ip_address b)))
       else
         nonpos <- trap (Dec.le_zero amount) ;;
         if (nonpos : bool)
         then raise (Exception msg_not_positive)
         else
           b <- get ;;
           match dict_get account_num (accounts b) with
           | None => raise (Exception msg_not_found)
           | Some account =>
               bal <- trap (Dec.add (balance account) amount) ;;
               set_balance account_num account bal ;;
               _save_state ;;
               ret ("OK: Vloženo " ++ Dec.to_string amount ++ " Kč na účet "
                      ++ account_full ++ ", nový zůstatek: "
                      ++ Dec.to_string bal ++ " Kč")
           end).

Definition account_deposit (account_full amount_str : string) : M string :=
  try_except (deposit_body account_full amount_str) (reraise msg_value).

(** The body of the [try] of [account_withdrawal]. *)
Definition withdrawal_body (account_full amount_str : string) : M string :=
    (if negb (PyStr.contains "/" account_full)
     then raise (Exception msg_format)
     else
       p <- unpack2 (PyStr.split_on "/" account_full) ;;
       let '(account_num_str, ip) := p in
       account_num <- int account_num_str ;;
       amount <- Decimal_of_str amount_str ;;
       b <- get ;;
       if negb (String.eqb ip (ip_address b))
       then raise (Exception (msg_not_local (ip_address b)))
       else
         nonpos <- trap (Dec.le_zero amount) ;;
         if (nonpos : bool)
         then raise (Exception msg_not_positive)
         else
           b <- get ;;
           match dict_get account_num (accounts b) with
           | None => raise (Exception msg_not_found)
           | Some account =>
               short <- trap (Dec.lt (balance account) amount) ;;
               if (short : bool)
               then raise (Exception (msg_insufficient (balance account)))
               else
                 bal <- trap (Dec.sub (balance account) amount) ;;
                 set_balance account_num account bal ;;
                 _save_state ;;
                 ret ("OK: Vybráno " ++ Dec.to_string amount ++ " Kč z účtu "
                        ++ account_full ++ ", nový zůstatek: "
                        ++ Dec.to_string bal ++ " Kč")
           end).

Definition account_withdrawal (account_full amount_str : string) : M string :=
  try_except (withdrawal_body account_full amount_str) (reraise msg_value).

(** The body of the [try] of [account_balance]. *)
Definition balance_body (account_full : string) : M string :=
    (if negb (PyStr.contains "/" account_full)
     then raise (Exception msg_format)
     else
       p <- unpack2 (PyStr.split_on "/" account_full) ;;
       let '(account_num_str, ip) := p in
       account_num <- int account_num_str ;;
       b <- get ;;
       if negb (String.eqb ip (ip_address b))
       then raise (Exception (msg_not_local (ip_address b)))
       else
         match dict_get account_num (accounts b) with
         | None => raise (Exception msg_not_found)
         | Some account => ret (Dec.to_string (balance account))
         end).

Definition account_balance (account_full : string) : M string :=
  try_except (balance_body account_full) (reraise msg_value_balance).

(** The body of the [try] of [execute_command]. *)
Definition dispatch (cmd : string) (parts : list string) : M string :=
  if String.eqb cmd "BC" then bank_code
  else if String.eqb cmd "AC" then account_create
  else if String.eqb cmd "AD" then
    match parts with
    | [_; a; m] => account_deposit a m
    | _ => raise (Exception "Použití: AD číslo/IP částka")
    end
  else if String.eqb cmd "AW" then
    match parts with
    | [_; a; m] => account_withdrawal a m
    | _ => raise (Exception "Použití: AW číslo/IP částka")
    end
  else if String.eqb cmd "AB" then
    match parts with
    | [_; a] => account_balance a
    | _ => raise (Exception "Použití: AB číslo/IP")
    end
  else raise (Exception ("Neznámý příkaz '" ++ cmd ++ "'")).

Definition execute_command (command : string) : M string :=
  let parts := PyStr.split (PyStr.strip command) in
  match parts with
  | [] => ret "ERROR: Prázdný příkaz"
  | p0 :: _ =>
      let cmd := PyStr.upper p0 in
      try_except (dispatch cmd parts)
        (fun e => ret ("ERROR: " ++ exn_str e))
  end.

(** What one call of [client_socket.recv(1024).decode('utf-8')] gives:
    a text (empty at the end of the stream), or an exception. *)
Inductive Recv : Type :=
| Data (s : string)
| RecvError.

Definition newline : string := String "010" EmptyString.

Definition welcome (ip : string) : string :=
  "P2P Banka " ++ ip ++ newline
    ++ "Připojeno. Podporované příkazy: BC, AC, AD, AW, AB" ++ newline.

(** The [while] loop of [handle_client] on the successive results of
    [recv]; it returns the messages sent, in order.  An exception ends the
    handler, the messages already sent stay sent. *)
Fixpoint client_loop (chunks : list Recv) : M (list string) :=
  fun b =>
    if negb (running b) then (inr [], b)
    else
      match chunks with
      | [] => (inr [], b)
      | RecvError :: _ => (inr [], b)
      | Data raw :: rest =>
          let data := PyStr.strip raw in
          match data with
          | EmptyString => (inr [], b)
          | _ =>
              match execute_command data b with
              | (inl _, b') => (inr [], b')
              | (inr response, b') =>
                  match client_loop rest b' with
                  | (inr sent, b'') => (inr ((response ++ newline) :: sent), b'')
                  | (inl e, b'') => (inl e, b'')
                  end
              end
          end
      end.

Definition handle_client (chunks : list Recv) : M (list string) :=
  b <- get ;;
  sent <- client_loop chunks ;;
  ret (welcome (ip_address b) :: sent).



(** The five operations of the ledger and the states they reach. *)
Inductive Op : Type :=
| OpBankCode
| OpCreate
| OpDeposit (account_full amount_str : string)
| OpWithdraw (account_full amount_str : string)
| OpBalance (account_full : string).

Definition run_op (o : Op) : M string :=
  match o with
  | OpBankCode => bank_code
  | OpCreate => account_create
  | OpDeposit a m => account_deposit a m
  | OpWithdraw a m => account_withdrawal a m
  | OpBalance a => account_balance a
  end.

Definition step (o : Op) (b : Bank) : Bank := snd (run_op o b).

Inductive reachable (ip : string) : Bank -> Prop :=
| reach_init : forall w, reachable ip (snd (Bank_init ip Absent w))
| reach_step : forall b o, reachable ip b -> reachable ip (step o b).

(** A client that sends the lines [l] one after the other and reads each
    answer. *)
Fixpoint run_commands (l : list string) : M (list string) :=
  match l with
  | [] => ret []
  | c :: r =>
      x <- execute_command c ;;
      xs <- run_commands r ;;
      ret (x :: xs)
  end.

(** The object once [_save_state] has run on it. *)
Definition saved (b : Bank) : Bank :=
  if writable b then set_data_file (Json (snapshot b)) b else b.

(** The object once [account_create] has run on it. *)
Definition created (b : Bank) : Bank :=
  saved (set_accounts
           (dict_set (next_account_number b)
              (Account_init (next_account_number b)) (accounts b))
           (set_next_account_number (next_account_number b + 1) b)).

(** The object once the balance of [account] is [bal] and the state is
    saved: what a successful deposit or withdrawal leaves. *)
Definition credited (account_num : Z) (account : Account) (bal : Dec.Decimal)
    (b : Bank) : Bank :=
  saved (set_accounts
           (dict_set account_num {| number := number account; balance := bal |}
              (accounts b)) b).

(* ================================================================== *)
(** ** Notions the statements use *)
(* ================================================================== *)

(** No blank in the string. *)
Fixpoint no_space (s : string) : bool :=
  match s with
  | EmptyString => true
  | String c r => negb (PyStr.is_space c) && no_space r
  end.

(** The account number an identifier [number/IP] names, read the way the
    account methods read it. *)
Definition account_number_of (account_full : string) : option Z :=
  match PyStr.split_on "/" account_full with
  | num_str :: _ => PyStr.py_int num_str
  | [] => None
  end.

(** [n] calls of [account_create] in a row, with their results. *)
Fixpoint create_many (n : nat) : M (list string) :=
  match n with
  | O => ret []
  | S k =>
      x <- account_create ;;
      xs <- create_many k ;;
      ret (x :: xs)
  end.

(** Every key of the ledger, and the number of every account in it, is
    below the counter. *)
Definition below_counter (b : Bank) : Prop :=
  Forall (fun p => fst p < next_account_number b
                   /\ number (snd p) < next_account_number b) (accounts b).

(** Every account is filed under its own number, and no key occurs
    twice (the second is what makes the list a [dict]). *)
Definition well_keyed (d : dict Account) : Prop :=
  Forall (fun p => number (snd p) = fst p) d /\ NoDup (dict_keys d).

(** A ledger as the program builds them: a dictionary of accounts filed
    under their numbers, with balances the interpreter can hold. *)
Definition well_formed (d : dict Account) : Prop :=
  well_keyed d /\
  Forall (fun p => Dec.representable (balance (snd p)) = true) d.

(** [account_full] is [number/IP] with the number [n] and the address
    of this bank: the first checks of the account methods pass. *)
Definition names (b : Bank) (account_full : string) (n : Z) : Prop :=
  PyStr.contains "/" account_full = true /\
  exists num_str ip,
    PyStr.split_on "/" account_full = [num_str; ip] /\
    PyStr.py_int num_str = Some n /\
    String.eqb ip (ip_address b) = true.

(** [amount_str] is read as the decimal [amount], and [amount > 0]. *)
Definition positive_amount (amount_str : string) (amount : Dec.Decimal) : Prop :=
  Dec.of_string amount_str = Some amount /\ Dec.le_zero amount = inr false.

(** Every balance of the ledger is one its own arithmetic can have left. *)
Definition all_sound (b : Bank) : Prop :=
  Forall (fun p => Dec.sound (balance (snd p))) (accounts b).

(** Two small ledgers of the bank [127.0.0.1], started without a state
    file: one account holding 100, and one account to which [Infinity]
    was deposited. *)
Definition sample_ledger : Bank :=
  step (OpDeposit "10001/127.0.0.1" "100")
    (step OpCreate (snd (Bank_init "127.0.0.1" Absent true))).

Definition infinite_ledger : Bank :=
  step (OpDeposit "10001/127.0.0.1" "Infinity")
    (step OpCreate (snd (Bank_init "127.0.0.1" Absent true))).

(** A command fails on the ledger [b]: it is empty, or handling it
    raises an exception. *)
Definition fails (command : string) (b : Bank) : Prop :=
  match PyStr.split (PyStr.strip command) with
  | [] => True
  | p0 :: rest =>
      exists e, fst (dispatch (PyStr.upper p0) (p0 :: rest) b) = inl e
  end.

(** The account a record of the state file denotes, if it has both
    fields and its balance is a decimal: [from_dict] without the object. *)
Definition account_of_record (r : AccRecord) : option Account :=
  match rec_number r, rec_balance r with
  | Some n, Some s =>
      match Dec.of_string s with
      | Some d => Some {| number := n; balance := d |}
      | None => None
      end
  | _, _ => None
  end.

(** The dictionary the loop of [_load_state] has built when it stops:
    the accounts of the records before the first that denotes none. *)
Fixpoint loaded (l : list AccRecord) (acc : dict Account) : dict Account :=
  match l with
  | [] => acc
  | r :: l' =>
      match account_of_record r with
      | Some a => loaded l' (dict_set (number a) a acc)
      | None => acc
      end
  end.

(** A state file whose second account has a balance that is no decimal. *)
Definition damaged_file : File :=
  Json {| doc_next_account_number := Some 5;
          doc_accounts :=
            Some [ {| rec_number := Some 1; rec_balance := Some "10" |};
                   {| rec_number := Some 2; rec_balance := Some "abc" |} ] |}.

(** A token of a command line: not empty, no blank. *)
Definition is_token (t : string) : bool :=
  no_space t && negb (String.eqb t "").

(** [' '.join(ws)] *)
Fixpoint unwords (ws : list string) : string :=
  match ws with
  | [] => ""
  | [w] => w
  | w :: r => w ++ " " ++ unwords r
  end.

(** A bank address is a token without [/] (it is the dotted address
    [getsockname] returns, or [127.0.0.1]). *)
Definition valid_address (ip : string) : bool :=
  no_space ip && negb (PyStr.contains "/" ip).

(** Two objects that hold the same ledger under the same address; their
    state files, and whether these can be written, may differ. *)
Definition same_ledger (b1 b2 : Bank) : Prop :=
  accounts b1 = accounts b2 /\
  next_account_number b1 = next_account_number b2 /\
  ip_address b1 = ip_address b2.

(** The state file holds the ledger: it is the record [_save_state]
    writes for it, or there is no file yet and the ledger is the one a
    bank starts with. *)
Definition on_disk (b : Bank) : Prop :=
  data_file b = Json (snapshot b) \/
  (data_file b = Absent /\ accounts b = [] /\ next_account_number b = 10001).

(** A result of [recv] at which [handle_client] leaves its loop: an
    exception, or a text that is empty once stripped (the end of the
    stream, or nothing but blanks). *)
Definition ends_session (c : Recv) : bool :=
  match c with
  | RecvError => true
  | Data raw => String.eqb (PyStr.strip raw) ""
  end.

(** No line feed in the string. *)
Definition single_line (s : string) : bool :=
  negb (PyStr.contains "010" s).

(** What a method raises or returns is one line (and what it raises is
    an [Exception], as the account methods make it). *)
Definition line_ok (x : Exn + string) : Prop :=
  match x with
  | inl (Exception msg) => single_line msg = true
  | inl _ => False
  | inr r => single_line r = true
  end.

(** [n] consecutive account numbers from [z] on. *)
Definition numbers_from (z : Z) (n : nat) : list Z :=
  map (fun i => z + Z.of_nat i) (seq 0 n).

(** The coefficient of [c * 10^e] once written with the exponent
    [ex <= e]. *)
Definition at_exponent (c : N) (e ex : Z) : N := (c * Dec.pow10 (e - ex))%N.

(** The last account of the list that has the number [n]. *)
Definition last_numbered (n : Z) (l : list Account) : option Account :=
  find (fun a => number a =? n) (rev l).

(* ================================================================== *)
(** ** Facts about the string primitives *)
(* ================================================================== *)

Module PyStrFacts.
Import PyStr.

Lemma app_assoc (a b c : string) : (a ++ b) ++ c = a ++ (b ++ c).
Proof. induction a as [|x a IH]; simpl; [reflexivity | now rewrite IH]. Qed.

Lemma app_empty_r (a : string) : a ++ "" = a.
Proof. induction a as [|x a IH]; simpl; [reflexivity | now rewrite IH]. Qed.

Lemma length_app (a b : string) :
  String.length (a ++ b) = (String.length a + String.length b)%nat.
Proof. induction a as [|x a IH]; simpl; [reflexivity | now rewrite IH]. Qed.

Lemma split_from_token (t : string) : forall cur s,
  no_space t = true -> split_from cur (t ++ s) = split_from (cur ++ t) s.
Proof.
  induction t as [|c t IH]; intros cur s H; simpl in *.
  - now rewrite app_empty_r.
  - apply andb_prop in H as [Hc Ht].
    apply negb_true_iff in Hc. rewrite Hc.
    rewrite IH by assumption. now rewrite app_assoc.
Qed.

Lemma split_from_last (t : string) : forall cur,
  no_space t = true ->
  split_from cur t = match cur ++ t with "" => [] | x => [x] end.
Proof.
  intros cur H. rewrite <- (app_empty_r t) at 1.
  rewrite split_from_token by assumption. simpl. now destruct (cur ++ t).
Qed.

Lemma split_on_from_no_sep (sep : ascii) (t : string) : forall cur,
  contains sep t = false -> split_on_from sep cur t = [cur ++ t].
Proof.
  induction t as [|c t IH]; intros cur H; simpl in *.
  - now rewrite app_empty_r.
  - apply orb_false_iff in H as [Hc Ht]. rewrite Hc.
    rewrite IH by assumption. now rewrite app_assoc.
Qed.

Lemma rstrip_no_space (t : string) : no_space t = true -> rstrip t = t.
Proof.
  induction t as [|c t IH]; simpl; intros H; [reflexivity|].
  apply andb_prop in H as [Hc Ht]. apply negb_true_iff in Hc.
  rewrite IH by assumption. rewrite Hc. now destruct t.
Qed.

Lemma rstrip_app (s t : string) :
  rstrip t <> "" -> rstrip (s ++ t) = s ++ rstrip t.
Proof.
  intros H. induction s as [|c s IH]; simpl; [reflexivity|].
  rewrite IH. destruct (s ++ rstrip t) eqn:E; [|reflexivity].
  exfalso. destruct s; simpl in E; [now apply H | discriminate].
Qed.

(** *** Decimal digits *)

Lemma digit_val_char (d : N) : (d < 10)%N -> digit_val (digit_char d) = d.
Proof.
  intros H. unfold digit_val, digit_char.
  rewrite nat_ascii_embedding by lia. lia.
Qed.

Lemma is_digit_char (d : N) : (d < 10)%N -> is_digit (digit_char d) = true.
Proof.
  intros H. unfold is_digit, digit_char.
  rewrite nat_ascii_embedding by lia.
  apply andb_true_intro; split; apply Nat.leb_le; lia.
Qed.

Lemma value_from_app (s t : string) : forall acc,
  value_from acc (s ++ t) = value_from (value_from acc s) t.
Proof. induction s as [|c s IH]; intros acc; simpl; [reflexivity | apply IH]. Qed.

Lemma value_from_shift (s : string) : forall acc,
  value_from acc s = (acc * 10 ^ N.of_nat (String.length s) + value s)%N.
Proof.
  unfold value. induction s as [|c s IH]; intros acc.
  - simpl. lia.
  - cbn [value_from String.length]. rewrite IH, (IH (0 * 10 + digit_val c)%N).
    rewrite Nat2N.inj_succ, N.pow_succ_r'. lia.
Qed.

Lemma all_digits_app (s t : string) :
  all_digits (s ++ t) = all_digits s && all_digits t.
Proof.
  induction s as [|c s IH]; simpl; [reflexivity|].
  now rewrite IH, andb_assoc.
Qed.

Lemma digits_fuel_acc (fuel : nat) : forall n acc,
  digits_fuel fuel n acc = digits_fuel fuel n "" ++ acc.
Proof.
  induction fuel as [|f IH]; intros n acc; [reflexivity|].
  cbn [digits_fuel]. destruct (n / 10 =? 0)%N; [reflexivity|].
  rewrite IH, (IH _ (String _ "")). now rewrite app_assoc.
Qed.

Lemma div10_lt_pow2 (f : nat) (n : N) :
  (n < 2 ^ N.of_nat (S f))%N -> (n / 10 < 2 ^ N.of_nat f)%N.
Proof.
  intros H. rewrite Nat2N.inj_succ, N.pow_succ_r' in H.
  apply N.Div0.div_lt_upper_bound. lia.
Qed.

Lemma digits_fuel_step (f : nat) (n : N) :
  (n / 10 <> 0)%N ->
  digits_fuel (S f) n "" =
  digits_fuel f (n / 10) "" ++ String (digit_char (n mod 10)) "".
Proof.
  intros H. cbn [digits_fuel].
  apply N.eqb_neq in H. rewrite H. apply digits_fuel_acc.
Qed.

Lemma digits_fuel_small (f : nat) (n : N) :
  (n / 10 = 0)%N ->
  digits_fuel (S f) n "" = String (digit_char (n mod 10)) "".
Proof.
  intros H. cbn [digits_fuel]. apply N.eqb_eq in H. now rewrite H.
Qed.

(** The digits of [n], with enough fuel, denote [n], are digits, and
    there are as many as the size of [n] requires. *)
Lemma digits_fuel_spec (fuel : nat) : forall n,
  (n < 2 ^ N.of_nat fuel)%N -> (0 < n)%N ->
  let ds := digits_fuel fuel n "" in
  value ds = n /\ all_digits ds = true /\
  (10 ^ (N.of_nat (String.length ds) - 1) <= n < 10 ^ N.of_nat (String.length ds))%N
  /\ (0 < String.length ds)%nat.
Proof.
  induction fuel as [|f IH]; intros n Hn Hpos.
  - simpl in Hn. lia.
  - pose proof (N.mod_lt n 10 ltac:(lia)) as Hm.
    pose proof (N.div_mod n 10 ltac:(lia)) as Hdm.
    destruct (N.eq_dec (n / 10) 0) as [Hz|Hnz].
    + cbv zeta. rewrite digits_fuel_small by assumption.
      assert (n mod 10 = n)%N as E.
      { revert Hdm. rewrite Hz. generalize (n mod 10)%N. intros; lia. }
      rewrite E in *.
      unfold value. cbn [value_from all_digits String.length].
      rewrite digit_val_char, is_digit_char by lia.
      change (N.of_nat 1) with 1%N. change (10 ^ (1 - 1))%N with 1%N.
      change (10 ^ 1)%N with 10%N.
      repeat split; try reflexivity; try lia.
    + cbv zeta. rewrite digits_fuel_step by assumption.
      destruct (IH (n / 10)%N) as (V & A & [L1 L2] & P);
        [now apply div10_lt_pow2 | lia |].
      set (ds := digits_fuel f (n / 10) "") in *.
      unfold value in *. rewrite value_from_app, V.
      rewrite all_digits_app, A, length_app.
      cbn [value_from all_digits String.length].
      rewrite digit_val_char, is_digit_char by lia.
      clearbody ds. clear IH Hn.
      set (q := (n / 10)%N) in *. set (m := (n mod 10)%N) in *.
      clearbody q m.
      replace (N.of_nat (String.length ds + 1))
        with (N.succ (N.of_nat (String.length ds))) by lia.
      replace (N.succ (N.of_nat (String.length ds)) - 1)%N
        with (N.succ (N.of_nat (String.length ds) - 1)) by lia.
      rewrite !N.pow_succ_r'.
      repeat split; try reflexivity; lia.
Qed.

Lemma str_of_N_0 : str_of_N 0 = "0".
Proof. reflexivity. Qed.

Lemma str_of_N_spec (n : N) :
  (0 < n)%N ->
  value (str_of_N n) = n /\ all_digits (str_of_N n) = true /\
  (10 ^ (N.of_nat (String.length (str_of_N n)) - 1) <= n
   < 10 ^ N.of_nat (String.length (str_of_N n)))%N
  /\ (0 < String.length (str_of_N n))%nat.
Proof.
  intros H. unfold str_of_N. apply digits_fuel_spec; [|assumption].
  rewrite Nat2N.inj_succ, N2Nat.id.
  apply N.log2_spec. assumption.
Qed.

Lemma value_str_of_N (n : N) : value (str_of_N n) = n.
Proof.
  destruct (N.eq_dec n 0) as [->|H]; [reflexivity|].
  apply str_of_N_spec. lia.
Qed.

Lemma all_digits_str_of_N (n : N) : all_digits (str_of_N n) = true.
Proof.
  destruct (N.eq_dec n 0) as [->|H]; [reflexivity|].
  apply str_of_N_spec. lia.
Qed.

Lemma length_str_of_N_pos (n : N) : (0 < String.length (str_of_N n))%nat.
Proof.
  destruct (N.eq_dec n 0) as [->|H]; [simpl; lia|].
  apply str_of_N_spec. lia.
Qed.

Lemma str_of_N_not_empty (n : N) : str_of_N n <> "".
Proof.
  pose proof (length_str_of_N_pos n) as H. intros E. rewrite E in H.
  simpl in H. lia.
Qed.

Lemma str_of_N_inj (n m : N) : str_of_N n = str_of_N m -> n = m.
Proof.
  intros H. rewrite <- (value_str_of_N n), <- (value_str_of_N m). now rewrite H.
Qed.

Lemma lstrip_head (c : ascii) (s : string) :
  is_space c = false -> lstrip (String c s) = String c s.
Proof. intros H. simpl. now rewrite H. Qed.

(** *** [int(str(n))] *)

Lemma is_digit_not (c d : ascii) :
  is_digit d = false -> is_digit c = true -> Ascii.eqb c d = false.
Proof.
  intros Hd Hc. destruct (Ascii.eqb_spec c d); [congruence | reflexivity].
Qed.

Lemma is_digit_not_space (c : ascii) : is_digit c = true -> is_space c = false.
Proof.
  unfold is_digit, is_space. intros H.
  apply andb_prop in H as [H1 H2]. apply Nat.leb_le in H1, H2.
  apply orb_false_iff; split; apply andb_false_iff.
  - right. apply Nat.leb_gt. lia.
  - right. apply Nat.leb_gt. lia.
Qed.

Lemma all_digits_no_space (s : string) : all_digits s = true -> no_space s = true.
Proof.
  induction s as [|c s IH]; cbn; [reflexivity|]. intros H.
  apply andb_prop in H as [Hc Hs]. rewrite (is_digit_not_space _ Hc). now apply IH.
Qed.

Lemma all_digits_contains (d : ascii) (s : string) :
  is_digit d = false -> all_digits s = true -> contains d s = false.
Proof.
  intros Hd. induction s as [|c s IH]; cbn; [reflexivity|]. intros H.
  apply andb_prop in H as [Hc Hs]. rewrite (is_digit_not _ _ Hd Hc). now apply IH.
Qed.

Lemma all_digits_remove_underscores (s : string) :
  all_digits s = true -> remove_underscores s = s.
Proof.
  induction s as [|c s IH]; cbn; [reflexivity|]. intros H.
  apply andb_prop in H as [Hc Hs].
  rewrite (is_digit_not c "_" eq_refl Hc). now rewrite IH.
Qed.

Lemma all_digits_int_body (s : string) : forall after,
  all_digits s = true -> s <> "" -> int_body after s = true.
Proof.
  induction s as [|c s IH]; intros after H Hne; [congruence|].
  cbn in *. apply andb_prop in H as [Hc Hs]. rewrite Hc.
  destruct s; [reflexivity | apply IH; [assumption | discriminate]].
Qed.

Lemma take_sign_other (c : ascii) (s : string) :
  Ascii.eqb c "-" = false -> Ascii.eqb c "+" = false ->
  take_sign (String c s) = (false, String c s).
Proof.
  intros H1 H2. unfold take_sign.
  destruct c as [[] [] [] [] [] [] [] []]; try reflexivity; discriminate.
Qed.

Lemma all_digits_take_sign (s : string) :
  all_digits s = true -> take_sign s = (false, s).
Proof.
  destruct s as [|c s]; [reflexivity|]. cbn [all_digits]. intros H.
  apply andb_prop in H as [Hc _].
  apply take_sign_other; now apply is_digit_not.
Qed.

Lemma is_digit_not_c_space (c : ascii) :
  is_digit c = true -> is_c_space c = false.
Proof.
  unfold is_digit, is_c_space. intros H.
  apply andb_prop in H as [H1 H2]. apply Nat.leb_le in H1, H2.
  apply orb_false_iff; split.
  - apply andb_false_iff. right. apply Nat.leb_gt. lia.
  - apply Nat.eqb_neq. lia.
Qed.

Lemma int_rstrip_digits (s : string) : all_digits s = true -> int_rstrip s = s.
Proof.
  induction s as [|c s IH]; cbn; [reflexivity|]. intros H.
  apply andb_prop in H as [Hc Hs]. rewrite IH by assumption.
  rewrite (is_digit_not_c_space _ Hc). now destruct s.
Qed.

Lemma int_strip_digits (s : string) :
  all_digits s = true -> int_rstrip (int_lstrip s) = s.
Proof.
  intros H.
  assert (E : int_lstrip s = s).
  { destruct s as [|c r]; [reflexivity|]. cbn in *.
    apply andb_prop in H as [Hc _]. now rewrite (is_digit_not_c_space _ Hc). }
  rewrite E. now apply int_rstrip_digits.
Qed.

Lemma py_int_digits (ds : string) :
  all_digits ds = true -> ds <> "" ->
  py_int ds = Some (Z.of_N (value ds)) /\
  py_int (String "-" ds) = Some (- Z.of_N (value ds)).
Proof.
  intros A Ne. unfold py_int. split.
  - rewrite int_strip_digits, all_digits_take_sign by assumption.
    rewrite all_digits_int_body by assumption.
    now rewrite all_digits_remove_underscores.
  - change (int_lstrip (String "-" ds)) with (String "-" ds).
    cbn [int_rstrip]. rewrite int_rstrip_digits by assumption.
    destruct ds as [|c r]; [congruence|]. cbn [take_sign].
    rewrite all_digits_int_body by (assumption || discriminate).
    now rewrite all_digits_remove_underscores.
Qed.

Lemma py_int_str_of_Z (z : Z) : py_int (str_of_Z z) = Some z.
Proof.
  destruct z as [|p|p]; cbn [str_of_Z].
  - reflexivity.
  - destruct (py_int_digits (str_of_N (Z.to_N (Z.pos p)))) as [H _];
      [apply all_digits_str_of_N | apply str_of_N_not_empty |].
    rewrite H, value_str_of_N. reflexivity.
  - destruct (py_int_digits (str_of_N (N.pos p))) as [_ H];
      [apply all_digits_str_of_N | apply str_of_N_not_empty |].
    rewrite H, value_str_of_N. reflexivity.
Qed.

Lemma contains_str_of_Z (z : Z) : contains "/" (str_of_Z z) = false.
Proof.
  destruct z as [|p|p]; cbn [str_of_Z]; [reflexivity | |].
  - apply all_digits_contains; [reflexivity | apply all_digits_str_of_N].
  - cbn [contains]. change (Ascii.eqb "-" "/") with false. cbn [orb].
    apply all_digits_contains; [reflexivity | apply all_digits_str_of_N].
Qed.

Lemma split_on_from_field (sep : ascii) (t r : string) : forall cur,
  contains sep t = false ->
  split_on_from sep cur (t ++ String sep r)
  = (cur ++ t) :: split_on_from sep "" r.
Proof.
  induction t as [|c t IH]; intros cur H; cbn in *.
  - rewrite Ascii.eqb_refl. now rewrite app_empty_r.
  - apply orb_false_iff in H as [Hc Ht]. rewrite Hc.
    rewrite IH by assumption. now rewrite app_assoc.
Qed.

Lemma no_space_app (a b : string) :
  no_space (a ++ b) = no_space a && no_space b.
Proof.
  induction a as [|c a IH]; simpl; [reflexivity|].
  rewrite IH. now rewrite andb_assoc.
Qed.

Lemma is_space_blank : is_space " " = true.
Proof. reflexivity. Qed.

Lemma token_inv (t : string) :
  is_token t = true ->
  no_space t = true /\ exists c r, t = String c r /\ is_space c = false.
Proof.
  unfold is_token. intros H. apply andb_prop in H as [H1 H2]. split; [assumption|].
  destruct t as [|c r]; [discriminate|]. exists c, r. split; [reflexivity|].
  simpl in H1. apply andb_prop in H1 as [H1 _]. now apply negb_true_iff in H1.
Qed.

Lemma split_from_token_sep (t s : string) :
  is_token t = true ->
  split_from "" (t ++ String " " s) = t :: split_from "" s.
Proof.
  intros H. destruct (token_inv _ H) as [Hn (c & r & -> & Hc)].
  rewrite split_from_token by assumption.
  cbn [append split_from]. now rewrite is_space_blank.
Qed.

Lemma split_from_token_end (t : string) :
  is_token t = true -> split_from "" t = [t].
Proof.
  intros H. destruct (token_inv _ H) as [Hn (c & r & -> & Hc)].
  now rewrite split_from_last by assumption.
Qed.

Lemma split_unwords (ws : list string) :
  forallb is_token ws = true -> split (unwords ws) = ws.
Proof.
  unfold split. induction ws as [|w r IH]; intros H; [reflexivity|].
  cbn [forallb] in H. apply andb_prop in H as [Hw Hr].
  destruct r as [|w' r'].
  - now apply split_from_token_end.
  - change (unwords (w :: w' :: r')) with (w ++ String " " (unwords (w' :: r'))).
    rewrite split_from_token_sep by assumption. now rewrite IH.
Qed.

Lemma rstrip_unwords (ws : list string) :
  forallb is_token ws = true -> ws <> [] ->
  rstrip (unwords ws) = unwords ws /\ unwords ws <> "".
Proof.
  induction ws as [|w r IH]; intros H Hne; [congruence|].
  cbn [forallb] in H. apply andb_prop in H as [Hw Hr].
  destruct (token_inv _ Hw) as [Hn (c & t & E & Hc)].
  destruct r as [|w' r'].
  - simpl. split; [now apply rstrip_no_space | subst; discriminate].
  - destruct IH as [IH1 IH2]; [assumption | discriminate |].
    change (unwords (w :: w' :: r')) with (w ++ String " " (unwords (w' :: r'))).
    split; [| subst; discriminate].
    change (w ++ String " " (unwords (w' :: r')))
      with (w ++ (" " ++ unwords (w' :: r'))).
    rewrite <- app_assoc. rewrite rstrip_app; rewrite IH1; auto.
Qed.

Lemma strip_unwords (ws : list string) :
  forallb is_token ws = true -> ws <> [] ->
  strip (unwords ws) = unwords ws.
Proof.
  intros H Hne. unfold strip.
  destruct (rstrip_unwords ws H Hne) as [Hr _].
  destruct ws as [|w r]; [congruence|].
  cbn [forallb] in H. apply andb_prop in H as [Hw _].
  destruct (token_inv _ Hw) as [_ (c & t & E & Hc)].
  assert (L : lstrip (unwords (w :: r)) = unwords (w :: r)).
  { subst w. destruct r; cbn [unwords append lstrip]; now rewrite Hc. }
  now rewrite L.
Qed.

Lemma parts_unwords (ws : list string) :
  forallb is_token ws = true -> ws <> [] ->
  split (strip (unwords ws)) = ws.
Proof.
  intros H Hne. rewrite strip_unwords by assumption. now apply split_unwords.
Qed.

End PyStrFacts.

(* ================================================================== *)
(** ** The methods, case by case *)
(* ================================================================== *)

Ltac run_method :=
  unfold account_deposit, account_withdrawal, account_balance,
    deposit_body, withdrawal_body, balance_body, try_except, bind, get, ret, raise, unpack2, int, Decimal_of_str,
    expect, trap, reraise, set_balance, modify.

Lemma try_except_ok {A} (m : M A) (h : Exn -> M A) (b b' : Bank) (a : A) :
  m b = (inr a, b') -> try_except m h b = (inr a, b').
Proof. unfold try_except. now intros ->. Qed.

Lemma try_except_err {A} (m : M A) (h : Exn -> M A) (b b' : Bank) (e : Exn) :
  m b = (inl e, b') -> try_except m h b = h e b'.
Proof. unfold try_except. now intros ->. Qed.

Lemma execute_parts (command p0 : string) (rest : list string) (b : Bank) :
  PyStr.split (PyStr.strip command) = p0 :: rest ->
  execute_command command b
  = try_except (dispatch (PyStr.upper p0) (p0 :: rest))
      (fun e => ret ("ERROR: " ++ exn_str e)) b.
Proof. unfold execute_command. now intros ->. Qed.

Lemma execute_ok (command p0 : string) (rest : list string) (b b' : Bank)
    (r : string) :
  PyStr.split (PyStr.strip command) = p0 :: rest ->
  dispatch (PyStr.upper p0) (p0 :: rest) b = (inr r, b') ->
  execute_command command b = (inr r, b').
Proof.
  intros Hp Hd. rewrite (execute_parts _ _ _ _ Hp). now apply try_except_ok.
Qed.

Lemma execute_err (command p0 : string) (rest : list string) (b b' : Bank)
    (e : Exn) :
  PyStr.split (PyStr.strip command) = p0 :: rest ->
  dispatch (PyStr.upper p0) (p0 :: rest) b = (inl e, b') ->
  execute_command command b = (inr ("ERROR: " ++ exn_str e), b').
Proof.
  intros Hp Hd. rewrite (execute_parts _ _ _ _ Hp).
  now rewrite (try_except_err _ _ _ _ _ Hd).
Qed.

Lemma save_state_eq (b : Bank) : _save_state b = (inr tt, saved b).
Proof.
  unfold _save_state, saved, write_file, try_except, bind, get, modify, ret, raise.
  now destruct (writable b).
Qed.

Lemma account_create_eq (b : Bank) :
  account_create b =
  (inr (PyStr.str_of_Z (next_account_number b) ++ "/" ++ ip_address b),
   created b).
Proof.
  unfold account_create, created, bind, get, modify, ret.
  rewrite save_state_eq. unfold saved. cbn.
  now destruct (writable b).
Qed.

Section AccountRequest.

Variables (b : Bank) (account_full amount_str : string).
Variables (num_str ip : string) (account_num : Z) (amount : Dec.Decimal).
Hypothesis has_slash : PyStr.contains "/" account_full = true.
Hypothesis two_fields : PyStr.split_on "/" account_full = [num_str; ip].
Hypothesis num_ok : PyStr.py_int num_str = Some account_num.
Hypothesis amount_ok : Dec.of_string amount_str = Some amount.
Hypothesis local : String.eqb ip (ip_address b) = true.
Hypothesis positive : Dec.le_zero amount = inr false.

Ltac header :=
  rewrite has_slash; cbn; rewrite two_fields; cbn; rewrite num_ok; cbn;
  rewrite amount_ok; cbn; rewrite local; cbn; rewrite positive; cbn.

Lemma deposit_not_found :
  dict_get account_num (accounts b) = None ->
  account_deposit account_full amount_str b = (inl (Exception msg_not_found), b).
Proof.
  intros H. run_method.
  header.
  now rewrite H.
Qed.

Lemma deposit_ok (account : Account) (bal : Dec.Decimal) :
  dict_get account_num (accounts b) = Some account ->
  Dec.add (balance account) amount = inr bal ->
  account_deposit account_full amount_str b
  = (inr ("OK: Vloženo " ++ Dec.to_string amount ++ " Kč na účet "
            ++ account_full ++ ", nový zůstatek: " ++ Dec.to_string bal ++ " Kč"),
     credited account_num account bal b).
Proof.
  intros H Ha. run_method.
  header.
  rewrite H, Ha. cbn. rewrite save_state_eq. reflexivity.
Qed.

Lemma deposit_trap (account : Account) (sg : Dec.signal) :
  dict_get account_num (accounts b) = Some account ->
  Dec.add (balance account) amount = inl sg ->
  account_deposit account_full amount_str b
  = (inl (Exception (Dec.signal_str sg)), b).
Proof.
  intros H Ha. run_method.
  header.
  now rewrite H, Ha.
Qed.

Lemma withdrawal_not_found :
  dict_get account_num (accounts b) = None ->
  account_withdrawal account_full amount_str b
  = (inl (Exception msg_not_found), b).
Proof.
  intros H. run_method.
  header.
  now rewrite H.
Qed.

Lemma withdrawal_short (account : Account) :
  dict_get account_num (accounts b) = Some account ->
  Dec.lt (balance account) amount = inr true ->
  account_withdrawal account_full amount_str b
  = (inl (Exception (msg_insufficient (balance account))), b).
Proof.
  intros H Hl. run_method.
  header.
  now rewrite H, Hl.
Qed.

Lemma withdrawal_cmp_trap (account : Account) (sg : Dec.signal) :
  dict_get account_num (accounts b) = Some account ->
  Dec.lt (balance account) amount = inl sg ->
  account_withdrawal account_full amount_str b
  = (inl (Exception (Dec.signal_str sg)), b).
Proof.
  intros H Hl. run_method.
  header.
  now rewrite H, Hl.
Qed.

Lemma withdrawal_ok (account : Account) (bal : Dec.Decimal) :
  dict_get account_num (accounts b) = Some account ->
  Dec.lt (balance account) amount = inr false ->
  Dec.sub (balance account) amount = inr bal ->
  account_withdrawal account_full amount_str b
  = (inr ("OK: Vybráno " ++ Dec.to_string amount ++ " Kč z účtu "
            ++ account_full ++ ", nový zůstatek: " ++ Dec.to_string bal ++ " Kč"),
     credited account_num account bal b).
Proof.
  intros H Hl Hs. run_method.
  header.
  rewrite H, Hl. cbn. rewrite Hs. cbn. rewrite save_state_eq. reflexivity.
Qed.

Lemma withdrawal_trap (account : Account) (sg : Dec.signal) :
  dict_get account_num (accounts b) = Some account ->
  Dec.lt (balance account) amount = inr false ->
  Dec.sub (balance account) amount = inl sg ->
  account_withdrawal account_full amount_str b
  = (inl (Exception (Dec.signal_str sg)), b).
Proof.
  intros H Hl Hs. run_method.
  header.
  rewrite H, Hl. cbn. now rewrite Hs.
Qed.

Lemma balance_ok (account : Account) :
  dict_get account_num (accounts b) = Some account ->
  account_balance account_full b = (inr (Dec.to_string (balance account)), b).
Proof.
  intros H. run_method.
  rewrite has_slash; cbn; rewrite two_fields; cbn; rewrite num_ok; cbn;
    rewrite local; cbn. now rewrite H.
Qed.

End AccountRequest.

Lemma reraise_keeps {A} (msg : string) (e : Exn) (b : Bank) :
  exists e', @reraise A msg e b = (inl e', b).
Proof. destruct e; eexists; reflexivity. Qed.

Ltac raised := left; eexists; reflexivity.

(** What the body of a deposit does to the ledger: nothing when it
    raises, and when it returns, the balance of one account that was there
    has had a positive amount added. *)
Lemma deposit_body_outcome (account_full amount_str : string) (b : Bank) :
  (exists e, deposit_body account_full amount_str b = (inl e, b)) \/
  (exists n account amount bal,
      dict_get n (accounts b) = Some account /\
      Dec.of_string amount_str = Some amount /\
      Dec.le_zero amount = inr false /\
      Dec.add (balance account) amount = inr bal /\
      deposit_body account_full amount_str b
      = (inr ("OK: Vloženo " ++ Dec.to_string amount ++ " Kč na účet "
                ++ account_full ++ ", nový zůstatek: "
                ++ Dec.to_string bal ++ " Kč"),
         credited n account bal b)).
Proof.
  unfold deposit_body, bind, get, ret, raise, unpack2, int, Decimal_of_str,
    expect, trap, set_balance, modify.
  destruct (PyStr.contains "/" account_full); cbn; [|raised].
  destruct (PyStr.split_on "/" account_full) as [|x [|y [|z l]]]; cbn;
    try raised.
  destruct (PyStr.py_int x) as [n|]; cbn; [|raised].
  destruct (Dec.of_string amount_str) as [amount|]; cbn; [|raised].
  destruct (String.eqb y (ip_address b)); cbn; [|raised].
  destruct (Dec.le_zero amount) as [sg|[|]] eqn:Hz; cbn; try raised.
  destruct (dict_get n (accounts b)) as [account|] eqn:Hg; cbn; [|raised].
  destruct (Dec.add (balance account) amount) as [sg|bal] eqn:Ha; cbn;
    [raised|].
  right. exists n, account, amount, bal.
  rewrite save_state_eq. repeat split; solve [assumption | reflexivity].
Qed.

Lemma withdrawal_body_outcome (account_full amount_str : string) (b : Bank) :
  (exists e, withdrawal_body account_full amount_str b = (inl e, b)) \/
  (exists n account amount bal,
      dict_get n (accounts b) = Some account /\
      Dec.of_string amount_str = Some amount /\
      Dec.le_zero amount = inr false /\
      Dec.lt (balance account) amount = inr false /\
      Dec.sub (balance account) amount = inr bal /\
      withdrawal_body account_full amount_str b
      = (inr ("OK: Vybráno " ++ Dec.to_string amount ++ " Kč z účtu "
                ++ account_full ++ ", nový zůstatek: "
                ++ Dec.to_string bal ++ " Kč"),
         credited n account bal b)).
Proof.
  unfold withdrawal_body, bind, get, ret, raise, unpack2, int, Decimal_of_str,
    expect, trap, set_balance, modify.
  destruct (PyStr.contains "/" account_full); cbn; [|raised].
  destruct (PyStr.split_on "/" account_full) as [|x [|y [|z l]]]; cbn;
    try raised.
  destruct (PyStr.py_int x) as [n|]; cbn; [|raised].
  destruct (Dec.of_string amount_str) as [amount|]; cbn; [|raised].
  destruct (String.eqb y (ip_address b)); cbn; [|raised].
  destruct (Dec.le_zero amount) as [sg|[|]] eqn:Hz; cbn; try raised.
  destruct (dict_get n (accounts b)) as [account|] eqn:Hg; cbn; [|raised].
  destruct (Dec.lt (balance account) amount) as [sg|[|]] eqn:Hl; cbn;
    try raised.
  destruct (Dec.sub (balance account) amount) as [sg|bal] eqn:Ha; cbn;
    [raised|].
  right. exists n, account, amount, bal.
  rewrite save_state_eq. repeat split; solve [assumption | reflexivity].
Qed.

Lemma balance_body_state (account_full : string) (b : Bank) :
  snd (balance_body account_full b) = b.
Proof.
  unfold balance_body, bind, get, ret, raise, unpack2, int, expect.
  destruct (PyStr.contains "/" account_full); cbn; [|reflexivity].
  destruct (PyStr.split_on "/" account_full) as [|x [|y [|z l]]]; cbn;
    try reflexivity.
  destruct (PyStr.py_int x) as [n|]; cbn; [|reflexivity].
  destruct (String.eqb y (ip_address b)); cbn; [|reflexivity].
  now destruct (dict_get n (accounts b)).
Qed.

Lemma deposit_outcome (account_full amount_str : string) (b : Bank) :
  (exists e, account_deposit account_full amount_str b = (inl e, b)) \/
  (exists n account amount bal r,
      dict_get n (accounts b) = Some account /\
      Dec.of_string amount_str = Some amount /\
      Dec.le_zero amount = inr false /\
      Dec.add (balance account) amount = inr bal /\
      account_deposit account_full amount_str b
      = (inr r, credited n account bal b)).
Proof.
  unfold account_deposit, try_except.
  destruct (deposit_body_outcome account_full amount_str b)
    as [[e ->] | (n & account & amount & bal & Hg & Ha & Hz & Hadd & ->)].
  - left. apply reraise_keeps.
  - right. exists n, account, amount, bal. eexists. repeat split; eassumption.
Qed.

Lemma withdrawal_outcome (account_full amount_str : string) (b : Bank) :
  (exists e, account_withdrawal account_full amount_str b = (inl e, b)) \/
  (exists n account amount bal r,
      dict_get n (accounts b) = Some account /\
      Dec.of_string amount_str = Some amount /\
      Dec.le_zero amount = inr false /\
      Dec.lt (balance account) amount = inr false /\
      Dec.sub (balance account) amount = inr bal /\
      account_withdrawal account_full amount_str b
      = (inr r, credited n account bal b)).
Proof.
  unfold account_withdrawal, try_except.
  destruct (withdrawal_body_outcome account_full amount_str b)
    as [[e ->] | (n & account & amount & bal & Hg & Ha & Hz & Hl & Hs & ->)].
  - left. apply reraise_keeps.
  - right. exists n, account, amount, bal. eexists. repeat split; eassumption.
Qed.

Lemma balance_state (account_full : string) (b : Bank) :
  snd (account_balance account_full b) = b.
Proof.
  unfold account_balance, try_except.
  pose proof (balance_body_state account_full b) as H.
  destruct (balance_body account_full b) as [[e|r] b']; cbn in *; subst.
  - now destruct (reraise_keeps (A := string) msg_value_balance e b) as [e' ->].
  - reflexivity.
Qed.

Lemma ip_address_saved (b : Bank) : ip_address (saved b) = ip_address b.
Proof. unfold saved. now destruct (writable b). Qed.

Lemma accounts_saved (b : Bank) : accounts (saved b) = accounts b.
Proof. unfold saved. now destruct (writable b). Qed.

Lemma next_saved (b : Bank) :
  next_account_number (saved b) = next_account_number b.
Proof. unfold saved. now destruct (writable b). Qed.

(** *** The ledger as a dictionary *)

Section DictFacts.
Context {V : Type}.
Implicit Types (d : dict V) (k : Z) (v : V).

Lemma dict_get_set_same k v d : dict_get k (dict_set k v d) = Some v.
Proof.
  induction d as [|[k' v'] d IH]; cbn.
  - now rewrite Z.eqb_refl.
  - destruct (k' =? k) eqn:E; cbn; now rewrite E.
Qed.

Lemma dict_get_set_other k k' v d :
  k <> k' -> dict_get k' (dict_set k v d) = dict_get k' d.
Proof.
  intros Hne. induction d as [|[k0 v0] d IH]; cbn.
  - destruct (k =? k') eqn:E; [apply Z.eqb_eq in E; congruence | reflexivity].
  - destruct (k0 =? k) eqn:E; cbn.
    + apply Z.eqb_eq in E. subst k0.
      destruct (k =? k') eqn:E'; [apply Z.eqb_eq in E'; congruence | reflexivity].
    + now rewrite IH.
Qed.

Lemma dict_get_In k v d : dict_get k d = Some v -> In (k, v) d.
Proof.
  induction d as [|[k' v'] d IH]; cbn; [discriminate|].
  destruct (k' =? k) eqn:E.
  - apply Z.eqb_eq in E. intros [= ->]. left. now subst.
  - intros H. right. now apply IH.
Qed.

Lemma dict_get_None k d : dict_get k d = None -> ~ In k (dict_keys d).
Proof.
  induction d as [|[k' v'] d IH]; cbn; [tauto|].
  destruct (k' =? k) eqn:E; [discriminate|].
  apply Z.eqb_neq in E. intros H [H'|H']; [congruence | now apply IH].
Qed.

Lemma dict_set_absent k v d :
  dict_get k d = None -> dict_set k v d = (d ++ [(k, v)])%list.
Proof.
  induction d as [|[k' v'] d IH]; cbn; [reflexivity|].
  destruct (k' =? k); [discriminate|]. intros H. now rewrite IH.
Qed.

Lemma dict_keys_set_present k v v' d :
  dict_get k d = Some v' -> dict_keys (dict_set k v d) = dict_keys d.
Proof.
  unfold dict_keys.
  induction d as [|[k0 v0] d IH]; cbn; [discriminate|].
  destruct (k0 =? k); cbn; [reflexivity|]. intros H. now rewrite IH.
Qed.

Lemma Forall_dict_set (P : Z * V -> Prop) k v d :
  Forall P d -> P (k, v) -> Forall P (dict_set k v d).
Proof.
  intros H Hk. induction H as [|[k0 v0] d H0 H IH]; cbn.
  - now constructor.
  - destruct (k0 =? k) eqn:E.
    + apply Z.eqb_eq in E. subst. now constructor.
    + now constructor.
Qed.

Lemma NoDup_dict_set k v d :
  NoDup (dict_keys d) -> NoDup (dict_keys (dict_set k v d)).
Proof.
  intros H. destruct (dict_get k d) as [v'|] eqn:E.
  - now rewrite (dict_keys_set_present _ _ _ _ E).
  - rewrite (dict_set_absent _ _ _ E). unfold dict_keys. rewrite map_app. cbn.
    apply NoDup_app_remove_l with (l := []). cbn.
    pose proof (dict_get_None _ _ E) as Hn.
    clear E. change (map fst d) with (dict_keys d) in *.
    induction (dict_keys d) as [|x l IH]; cbn.
    + constructor; [tauto | constructor].
    + inversion H; subst. constructor.
      * rewrite in_app_iff. cbn. intros [?|[?|[]]]; [tauto|]. subst. apply Hn. now left.
      * apply IH; [assumption|]. intros ?. apply Hn. now right.
Qed.

End DictFacts.

(** *** How an operation changes the ledger *)

(** An operation leaves the ledger as it was, or has created an account,
    or has changed one balance by a deposit or by a withdrawal: a property
    kept by these three changes is kept by every operation. *)
Lemma step_preserves (P : Bank -> Prop) :
  (forall b, P b -> P (created b)) ->
  (forall b n account amount bal,
      P b -> dict_get n (accounts b) = Some account ->
      Dec.le_zero amount = inr false ->
      Dec.add (balance account) amount = inr bal ->
      P (credited n account bal b)) ->
  (forall b n account amount bal,
      P b -> dict_get n (accounts b) = Some account ->
      Dec.le_zero amount = inr false ->
      Dec.lt (balance account) amount = inr false ->
      Dec.sub (balance account) amount = inr bal ->
      P (credited n account bal b)) ->
  forall o b, P b -> P (step o b).
Proof.
  intros Hc Hd Hw o b HP. unfold step. destruct o; cbn [run_op].
  - exact HP.
  - rewrite account_create_eq. now apply Hc.
  - destruct (deposit_outcome account_full amount_str b)
      as [[e ->] | (n & account & amount & bal & r & Hg & _ & Hz & Ha & ->)];
      cbn; eauto.
  - destruct (withdrawal_outcome account_full amount_str b)
      as [[e ->] | (n & account & amount & bal & r & Hg & _ & Hz & Hl & Hs & ->)];
      cbn; eauto.
  - now rewrite balance_state.
Qed.

Lemma reachable_ind_inv (P : Bank -> Prop) (ip : string) :
  (forall w, P (blank ip Absent w)) ->
  (forall o b, P b -> P (step o b)) ->
  forall b, reachable ip b -> P b.
Proof.
  intros H0 Hs b Hr. induction Hr as [w | b o _ IH]; [apply H0 | now apply Hs].
Qed.

(* ================================================================== *)
(** ** Allocation of account numbers *)
(* ================================================================== *)

Lemma below_counter_created (b : Bank) : below_counter b -> below_counter (created b).
Proof.
  unfold below_counter, created. intros H.
  rewrite accounts_saved, next_saved. cbn.
  apply Forall_dict_set.
  - eapply Forall_impl; [|exact H]. cbn. intros p [? ?]. lia.
  - cbn. lia.
Qed.

Lemma below_counter_credited (b : Bank) n account bal :
  below_counter b -> dict_get n (accounts b) = Some account ->
  below_counter (credited n account bal b).
Proof.
  unfold below_counter, credited. intros H Hg.
  rewrite accounts_saved, next_saved. cbn.
  pose proof (dict_get_In _ _ _ Hg) as Hin.
  pose proof (proj1 (Forall_forall _ _) H _ Hin) as Hn. cbn in Hn.
  apply Forall_dict_set; [exact H | exact Hn].
Qed.

Lemma below_counter_reachable (ip : string) (b : Bank) :
  reachable ip b -> below_counter b.
Proof.
  apply reachable_ind_inv.
  - intros w. constructor.
  - apply step_preserves; eauto using below_counter_created, below_counter_credited.
Qed.

Lemma account_number_of_id (z : Z) (ip : string) :
  account_number_of (PyStr.str_of_Z z ++ "/" ++ ip) = Some z.
Proof.
  unfold account_number_of, PyStr.split_on.
  change (PyStr.str_of_Z z ++ "/" ++ ip)
    with (PyStr.str_of_Z z ++ String "/" ip).
  rewrite PyStrFacts.split_on_from_field by apply PyStrFacts.contains_str_of_Z.
  apply PyStrFacts.py_int_str_of_Z.
Qed.

Lemma next_created (b : Bank) :
  next_account_number (created b) = next_account_number b + 1.
Proof. unfold created. now rewrite next_saved. Qed.

Lemma ip_address_created (b : Bank) : ip_address (created b) = ip_address b.
Proof. unfold created. now rewrite ip_address_saved. Qed.

Lemma next_credited (b : Bank) n account bal :
  next_account_number (credited n account bal b) = next_account_number b.
Proof. unfold credited. now rewrite next_saved. Qed.

(** The identifiers [n] successive creations return. *)
Lemma create_many_eq (n : nat) : forall b,
  create_many n b
  = (inr (map (fun i => PyStr.str_of_Z (next_account_number b + Z.of_nat i)
                          ++ "/" ++ ip_address b) (seq 0 n)),
     Nat.iter n created b).
Proof.
  induction n as [|n IH]; intros b; [reflexivity|].
  cbn [create_many]. unfold bind, ret.
  rewrite account_create_eq, IH.
  rewrite Nat.iter_succ_r. f_equal. f_equal.
  cbn [seq map]. f_equal.
  - now rewrite Z.add_0_r.
  - rewrite <- seq_shift, map_map. apply map_ext. intros i.
    rewrite next_created, ip_address_created. do 2 f_equal. lia.
Qed.

Lemma NoDup_consecutive (z : Z) (n : nat) :
  NoDup (map (fun i => z + Z.of_nat i) (seq 0 n)).
Proof.
  apply Finite.Injective_map_NoDup; [|apply seq_NoDup].
  intros i j H. lia.
Qed.

(** C3. In every state reached from the empty ledger the counter is
    above every account number; a creation never fails and moves the
    counter by exactly one, no other operation moves it; [n] successive
    creations return [n] pairwise distinct account numbers, none below
    the counter they started from. *)
Theorem C3_allocation :
  (forall ip b, reachable ip b ->
     Forall (fun p => fst p < next_account_number b
                      /\ number (snd p) < next_account_number b) (accounts b))
  /\ (forall b, exists id,
        fst (account_create b) = inr id /\
        next_account_number (snd (account_create b)) = next_account_number b + 1)
  /\ (forall o b, o <> OpCreate ->
        next_account_number (step o b) = next_account_number b)
  /\ (forall n b, exists ids nums,
        fst (create_many n b) = inr ids /\
        List.length ids = n /\
        map account_number_of ids = map Some nums /\
        NoDup nums /\
        Forall (fun k => next_account_number b <= k) nums).
Proof.
  split; [|split; [|split]].
  - exact below_counter_reachable.
  - intros b. rewrite account_create_eq. eexists. split; [reflexivity|].
    apply next_created.
  - intros o b Ho. unfold step. destruct o; cbn [run_op]; try congruence.
    + reflexivity.
    + destruct (deposit_outcome account_full amount_str b)
        as [[e ->] | (n & account & amount & bal & r & _ & _ & _ & _ & ->)];
        [reflexivity | apply next_credited].
    + destruct (withdrawal_outcome account_full amount_str b)
        as [[e ->] | (n & account & amount & bal & r & _ & _ & _ & _ & _ & ->)];
        [reflexivity | apply next_credited].
    + now rewrite balance_state.
  - intros n b. rewrite create_many_eq. cbn [fst].
    eexists. exists (map (fun i => next_account_number b + Z.of_nat i) (seq 0 n)).
    split; [reflexivity|]. repeat split.
    + now rewrite length_map, length_seq.
    + rewrite !map_map. apply map_ext. intros i. apply account_number_of_id.
    + apply NoDup_consecutive.
    + apply Forall_forall. intros k Hk. apply in_map_iff in Hk as (i & <- & _). lia.
Qed.

Lemma C3_allocation_witness :
  Forall (fun p => fst p < next_account_number sample_ledger
                   /\ number (snd p) < next_account_number sample_ledger)
    (accounts sample_ledger) /\
  exists ids nums,
    fst (create_many 3 sample_ledger) = inr ids /\
    List.length ids = 3%nat /\
    map account_number_of ids = map Some nums /\
    NoDup nums /\
    Forall (fun k => next_account_number sample_ledger <= k) nums.
Proof.
  destruct C3_allocation as (H1 & _ & _ & H4). split.
  - apply (H1 "127.0.0.1"). apply reach_step, reach_step, reach_init.
  - apply H4.
Defined.

(* ================================================================== *)
(** ** The scenario of a first session *)
(* ================================================================== *)

Section Scenario.
Import PyStrFacts.

Variable ip : string.
Hypothesis ip_ok : valid_address ip = true.

Lemma ip_no_space : no_space ip = true.
Proof. unfold valid_address in ip_ok. now apply andb_prop in ip_ok. Qed.

Lemma ip_no_slash : PyStr.contains "/" ip = false.
Proof.
  unfold valid_address in ip_ok. apply andb_prop in ip_ok as [_ H].
  now apply negb_true_iff in H.
Qed.

Lemma account_token : is_token ("10001/" ++ ip) = true.
Proof.
  unfold is_token. rewrite no_space_app, ip_no_space. reflexivity.
Qed.

Lemma parts_AB :
  PyStr.split (PyStr.strip ("AB 10001/" ++ ip)) = ["AB"; "10001/" ++ ip].
Proof.
  change ("AB 10001/" ++ ip) with (unwords ["AB"; "10001/" ++ ip]).
  apply parts_unwords; [|discriminate].
  cbn [forallb]. rewrite account_token. reflexivity.
Qed.

Lemma parts_A3 (op amount : string) :
  is_token op = true -> is_token amount = true ->
  PyStr.split (PyStr.strip (op ++ " 10001/" ++ ip ++ " " ++ amount))
  = [op; "10001/" ++ ip; amount].
Proof.
  intros Ho Ha.
  replace (op ++ " 10001/" ++ ip ++ " " ++ amount)
    with (unwords [op; "10001/" ++ ip; amount]).
  - apply parts_unwords; [|discriminate].
    cbn [forallb]. now rewrite Ho, Ha, account_token.
  - reflexivity.
Qed.

Lemma account_fields :
  PyStr.contains "/" ("10001/" ++ ip) = true /\
  PyStr.split_on "/" ("10001/" ++ ip) = ["10001"; ip].
Proof.
  split; [reflexivity|].
  unfold PyStr.split_on. cbn [append PyStr.split_on_from].
  change (Ascii.eqb "1" "/") with false. change (Ascii.eqb "0" "/") with false.
  change (Ascii.eqb "/" "/") with true. cbn [append].
  now rewrite split_on_from_no_sep by apply ip_no_slash.
Qed.

Lemma exec_AC (b : Bank) : execute_command "AC" b = account_create b.
Proof.
  rewrite (execute_parts "AC" "AC" [] b eq_refl).
  change (dispatch (PyStr.upper "AC") ["AC"]) with account_create.
  unfold try_except. now rewrite account_create_eq.
Qed.

Lemma exec_AD (b : Bank) (amount_str : string) (amount bal : Dec.Decimal)
    (account : Account) :
  is_token amount_str = true ->
  Dec.of_string amount_str = Some amount ->
  Dec.le_zero amount = inr false ->
  ip_address b = ip ->
  dict_get 10001 (accounts b) = Some account ->
  Dec.add (balance account) amount = inr bal ->
  execute_command ("AD 10001/" ++ ip ++ " " ++ amount_str) b
  = (inr ("OK: Vloženo " ++ Dec.to_string amount ++ " Kč na účet 10001/"
            ++ ip ++ ", nový zůstatek: " ++ Dec.to_string bal ++ " Kč"),
     credited 10001 account bal b).
Proof.
  intros Ht Ha Hp Hip Hg Hadd.
  destruct account_fields as [F1 F2].
  eapply execute_ok.
  - apply (parts_A3 "AD" amount_str eq_refl Ht).
  - change (dispatch (PyStr.upper "AD") ["AD"; "10001/" ++ ip; amount_str])
      with (account_deposit ("10001/" ++ ip) amount_str).
    assert (Hloc : String.eqb ip (ip_address b) = true)
      by (rewrite Hip; apply String.eqb_refl).
    exact (deposit_ok b _ amount_str "10001" ip 10001 amount
             F1 F2 eq_refl Ha Hloc Hp account bal Hg Hadd).
Qed.

Lemma exec_AW (b : Bank) (amount_str : string) (amount bal : Dec.Decimal)
    (account : Account) :
  is_token amount_str = true ->
  Dec.of_string amount_str = Some amount ->
  Dec.le_zero amount = inr false ->
  ip_address b = ip ->
  dict_get 10001 (accounts b) = Some account ->
  Dec.lt (balance account) amount = inr false ->
  Dec.sub (balance account) amount = inr bal ->
  execute_command ("AW 10001/" ++ ip ++ " " ++ amount_str) b
  = (inr ("OK: Vybráno " ++ Dec.to_string amount ++ " Kč z účtu 10001/"
            ++ ip ++ ", nový zůstatek: " ++ Dec.to_string bal ++ " Kč"),
     credited 10001 account bal b).
Proof.
  intros Ht Ha Hp Hip Hg Hlt Hsub.
  destruct account_fields as [F1 F2].
  eapply execute_ok.
  - apply (parts_A3 "AW" amount_str eq_refl Ht).
  - change (dispatch (PyStr.upper "AW") ["AW"; "10001/" ++ ip; amount_str])
      with (account_withdrawal ("10001/" ++ ip) amount_str).
    assert (Hloc : String.eqb ip (ip_address b) = true)
      by (rewrite Hip; apply String.eqb_refl).
    exact (withdrawal_ok b _ amount_str "10001" ip 10001 amount
             F1 F2 eq_refl Ha Hloc Hp account bal Hg Hlt Hsub).
Qed.

Lemma exec_AB (b : Bank) (account : Account) :
  ip_address b = ip ->
  dict_get 10001 (accounts b) = Some account ->
  execute_command ("AB 10001/" ++ ip) b
  = (inr (Dec.to_string (balance account)), b).
Proof.
  intros Hip Hg. destruct account_fields as [F1 F2].
  eapply execute_ok.
  - apply parts_AB.
  - change (dispatch (PyStr.upper "AB") ["AB"; "10001/" ++ ip])
      with (account_balance ("10001/" ++ ip)).
    assert (Hloc : String.eqb ip (ip_address b) = true)
      by (rewrite Hip; apply String.eqb_refl).
    exact (balance_ok b _ "10001" ip 10001 F1 F2 eq_refl Hloc account Hg).
Qed.

End Scenario.

(** C1. From a fresh ledger (no state file), the four commands [AC],
    [AD 10001/<ip> 100], [AW 10001/<ip> 40], [AB 10001/<ip>] are answered,
    in order, by [10001/<ip>], an [OK:] line with the new balance 100, an
    [OK:] line with the new balance 60, and the bare [60]. *)
Theorem C1_first_session (ip : string) (w : bool) :
  valid_address ip = true ->
  fst (run_commands
         ["AC"; "AD 10001/" ++ ip ++ " 100"; "AW 10001/" ++ ip ++ " 40";
          "AB 10001/" ++ ip]
         (snd (Bank_init ip Absent w)))
  = inr ["10001/" ++ ip;
         "OK: Vloženo 100 Kč na účet 10001/" ++ ip ++ ", nový zůstatek: 100 Kč";
         "OK: Vybráno 40 Kč z účtu 10001/" ++ ip ++ ", nový zůstatek: 60 Kč";
         "60"].
Proof.
  intros Hip.
  change (snd (Bank_init ip Absent w)) with (blank ip Absent w).
  set (b1 := created (blank ip Absent w)).
  set (a1 := {| number := 10001; balance := Dec.Fin false 100 0 |}).
  set (b2 := credited 10001 (Account_init 10001) (Dec.Fin false 100 0) b1).
  set (a2 := {| number := 10001; balance := Dec.Fin false 60 0 |}).
  set (b3 := credited 10001 a1 (Dec.Fin false 60 0) b2).
  assert (I1 : ip_address b1 = ip)
    by (unfold b1, created; now rewrite ip_address_saved).
  assert (A1 : accounts b1 = [(10001, Account_init 10001)])
    by (unfold b1, created; now rewrite accounts_saved).
  assert (I2 : ip_address b2 = ip)
    by (unfold b2, credited; now rewrite ip_address_saved).
  assert (A2 : accounts b2 = [(10001, a1)])
    by (unfold b2, credited; rewrite accounts_saved; cbn [accounts set_accounts];
        now rewrite A1).
  assert (I3 : ip_address b3 = ip)
    by (unfold b3, credited; now rewrite ip_address_saved).
  assert (A3 : accounts b3 = [(10001, a2)])
    by (unfold b3, credited; rewrite accounts_saved; cbn [accounts set_accounts];
        now rewrite A2).
  assert (G1 : dict_get 10001 (accounts b1) = Some (Account_init 10001))
    by now rewrite A1.
  assert (G2 : dict_get 10001 (accounts b2) = Some a1) by now rewrite A2.
  assert (G3 : dict_get 10001 (accounts b3) = Some a2) by now rewrite A3.
  assert (E1 : execute_command "AC" (blank ip Absent w) = (inr ("10001/" ++ ip), b1))
    by (rewrite exec_AC, account_create_eq; reflexivity).
  pose proof (exec_AD ip Hip b1 "100" (Dec.Fin false 100 0) (Dec.Fin false 100 0)
                (Account_init 10001) eq_refl eq_refl eq_refl I1 G1 eq_refl) as E2.
  pose proof (exec_AW ip Hip b2 "40" (Dec.Fin false 40 0) (Dec.Fin false 60 0)
                a1 eq_refl eq_refl eq_refl I2 G2 eq_refl eq_refl) as E3.
  pose proof (exec_AB ip Hip b3 a2 I3 G3) as E4.
  change (" " ++ "100") with " 100" in E2.
  change (" " ++ "40") with " 40" in E3.
  fold b2 in E2. fold b3 in E3.
  cbn [run_commands]. unfold bind, ret.
  rewrite E1, E2, E3, E4. reflexivity.
Qed.

Lemma C1_first_session_witness :
  valid_address "127.0.0.1" = true /\
  fst (run_commands
         ["AC"; "AD 10001/127.0.0.1 100"; "AW 10001/127.0.0.1 40";
          "AB 10001/127.0.0.1"]
         (snd (Bank_init "127.0.0.1" Absent true)))
  = inr ["10001/127.0.0.1";
         "OK: Vloženo 100 Kč na účet 10001/127.0.0.1, nový zůstatek: 100 Kč";
         "OK: Vybráno 40 Kč z účtu 10001/127.0.0.1, nový zůstatek: 60 Kč";
         "60"].
Proof.
  split; [reflexivity | exact (C1_first_session "127.0.0.1" true eq_refl)].
Defined.

(* ================================================================== *)
(** ** Facts about decimals *)
(* ================================================================== *)

Module DecFacts.
Import PyStr PyStrFacts Dec.

(** *** Powers of ten and the number of digits *)

Lemma pow10_pos (k : Z) : (0 < pow10 k)%N.
Proof. unfold pow10. apply N.neq_0_lt_0. apply N.pow_nonzero. discriminate. Qed.

Lemma pow10_nonpos (k : Z) : k <= 0 -> pow10 k = 1%N.
Proof. intros H. unfold pow10. now replace (Z.to_N k) with 0%N by lia. Qed.

Lemma pow10_add (a b : Z) :
  0 <= a -> 0 <= b -> pow10 (a + b) = (pow10 a * pow10 b)%N.
Proof.
  intros Ha Hb. unfold pow10. rewrite Z2N.inj_add by assumption.
  apply N.pow_add_r.
Qed.

Lemma pow10_succ (a : Z) : 0 <= a -> pow10 (a + 1) = (10 * pow10 a)%N.
Proof.
  intros Ha. rewrite pow10_add by lia. change (pow10 1) with 10%N. lia.
Qed.

Lemma pow10_le (a b : Z) : a <= b -> (pow10 a <= pow10 b)%N.
Proof.
  intros H. unfold pow10. apply N.pow_le_mono_r; [discriminate | lia].
Qed.

Lemma pow10_lt (a b : Z) : a < b -> 0 < b -> (pow10 a < pow10 b)%N.
Proof.
  intros H Hb. unfold pow10. apply N.pow_lt_mono_r; lia.
Qed.

Lemma pow10_lt_inv (a b : Z) : (pow10 a < pow10 b)%N -> a < b.
Proof.
  intros H. destruct (Z_lt_le_dec a b) as [|Hle]; [assumption|].
  apply pow10_le in Hle. lia.
Qed.

Lemma ndigits_0 : ndigits 0 = 1.
Proof. reflexivity. Qed.

Lemma ndigits_pos (c : N) : 1 <= ndigits c.
Proof. unfold ndigits. pose proof (length_str_of_N_pos c). lia. Qed.

Lemma ndigits_spec (c : N) :
  c <> 0%N -> (pow10 (ndigits c - 1) <= c < pow10 (ndigits c))%N.
Proof.
  intros H. destruct (str_of_N_spec c) as (_ & _ & B & P); [lia|].
  unfold ndigits, pow10.
  replace (Z.to_N (Z.of_nat (String.length (str_of_N c)) - 1))
    with (N.of_nat (String.length (str_of_N c)) - 1)%N by lia.
  replace (Z.to_N (Z.of_nat (String.length (str_of_N c))))
    with (N.of_nat (String.length (str_of_N c))) by lia.
  exact B.
Qed.

(** The number of digits is the only [n] with [10^(n-1) <= c < 10^n]. *)
Lemma ndigits_unique (c : N) (n : Z) :
  1 <= n -> (pow10 (n - 1) <= c < pow10 n)%N -> ndigits c = n.
Proof.
  intros Hn [L U].
  assert (Hc : c <> 0%N) by (pose proof (pow10_pos (n - 1)); lia).
  destruct (ndigits_spec c Hc) as [L' U'].
  pose proof (ndigits_pos c).
  assert (n - 1 < ndigits c) by (apply pow10_lt_inv; lia).
  assert (ndigits c - 1 < n) by (apply pow10_lt_inv; lia).
  lia.
Qed.

Lemma ndigits_le (c : N) (p : Z) :
  c <> 0%N -> 0 <= p -> (ndigits c <= p <-> (c < pow10 p)%N).
Proof.
  intros Hc Hp. destruct (ndigits_spec c Hc) as [L U]. split; intros H.
  - pose proof (pow10_le _ _ H). lia.
  - assert (ndigits c - 1 < p) by (apply pow10_lt_inv; lia). lia.
Qed.

Lemma ndigits_shift (c : N) (d : Z) :
  c <> 0%N -> 0 <= d -> ndigits (c * pow10 d) = ndigits c + d.
Proof.
  intros Hc Hd. destruct (ndigits_spec c Hc) as [L U].
  pose proof (ndigits_pos c) as P.
  apply ndigits_unique; [lia|].
  replace (ndigits c + d - 1) with ((ndigits c - 1) + d) by lia.
  rewrite !pow10_add by lia.
  pose proof (pow10_pos d). split; nia.
Qed.

Lemma ndigits_mono (a b : N) : (a <= b)%N -> ndigits a <= ndigits b.
Proof.
  intros H. destruct (N.eq_dec a 0) as [->|Ha].
  - rewrite ndigits_0. apply ndigits_pos.
  - assert (Hb : b <> 0%N) by lia.
    destruct (ndigits_spec a Ha) as [La Ua].
    destruct (ndigits_spec b Hb) as [Lb Ub].
    assert (ndigits a - 1 < ndigits b) by (apply pow10_lt_inv; lia). lia.
Qed.

(** *** What [_fix] returns *)

Lemma quotient_bound (c : N) (k digits : Z) :
  0 < k -> 0 <= digits -> (c < pow10 (digits + k))%N ->
  (c / pow10 k < pow10 digits)%N.
Proof.
  intros Hk Hd H. rewrite pow10_add in H by lia.
  apply N.Div0.div_lt_upper_bound. lia.
Qed.

Lemma ndigits_pow10 (p : Z) : 0 <= p -> ndigits (pow10 p) = p + 1.
Proof.
  intros H. apply ndigits_unique; [lia|].
  replace (p + 1 - 1) with p by lia. split; [lia|].
  apply pow10_lt; lia.
Qed.

Lemma fix_sound (s : bool) (c : N) (e : Z) (d : Decimal) :
  fix_ s c e = inr d ->
  exists c' e', d = Fin s c' e' /\ (c' < pow10 prec)%N /\
                (c' <> 0%N -> adjusted c' e' <= Emax).
Proof.
  unfold fix_.
  destruct (N.eqb_spec c 0) as [->|Hc].
  { intros [= <-]. exists 0%N. eexists. split; [reflexivity|].
    split; [apply pow10_pos | congruence]. }
  destruct (Z.ltb_spec Etop (ndigits c + e - prec)) as [|Hfit]; [discriminate|].
  set (exp_min := Z.max (ndigits c + e - prec) Etiny).
  assert (Hem : exp_min <= Etop) by (unfold exp_min, Etop, Etiny, Emax, Emin, prec in *; lia).
  assert (Hem' : ndigits c + e - prec <= exp_min) by (unfold exp_min; lia).
  pose proof (ndigits_pos c) as Hnd.
  destruct (Z.ltb_spec e exp_min) as [Hround|Hexact].
  2:{ intros [= <-]. exists c, e. split; [reflexivity|]. split.
      - apply ndigits_le; [assumption | unfold prec; lia | lia].
      - intros _. unfold adjusted, Etop in *. lia. }
  set (digits := ndigits c + e - exp_min).
  set (pr := if digits <? 0 then (1%N, exp_min - 1) else (c, e)).
  assert (Hq : exists c1 k, pr = (c1, exp_min - k) /\
                            (c1 / pow10 k < pow10 prec)%N).
  { unfold pr. destruct (Z.ltb_spec digits 0) as [Hneg|Hpos].
    - exists 1%N, 1. split; [reflexivity | apply pow10_pos].
    - exists c, (exp_min - e). split; [f_equal; lia|].
      apply N.lt_le_trans with (pow10 digits).
      + apply quotient_bound; [lia | lia |].
        replace (digits + (exp_min - e)) with (ndigits c) by (unfold digits; lia).
        now apply ndigits_spec.
      + apply pow10_le. unfold digits. lia. }
  clearbody pr. destruct Hq as (c1 & k & -> & Hqb).
  replace (exp_min - (exp_min - k)) with k by lia.
  set (q := (c1 / pow10 k)%N) in *.
  assert (Hadj : forall x, x <> 0%N -> (x < pow10 prec)%N -> adjusted x exp_min <= Emax).
  { intros x Hx Hxb. apply ndigits_le in Hxb; [|assumption | unfold prec; lia].
    unfold adjusted, Etop in *. lia. }
  destruct (0 <? changed _ k).
  - destruct (Z.ltb_spec prec (ndigits (q + 1))) as [Hcarry|Hfits].
    + destruct (Z.ltb_spec Etop (exp_min + 1)); [discriminate|].
      intros [= <-].
      assert (Hq1 : (q + 1 = pow10 prec)%N).
      { destruct (N.lt_ge_cases (q + 1) (pow10 prec)) as [Hlt|Hge]; [|lia].
        apply ndigits_le in Hlt; [lia | lia | unfold prec; lia]. }
      rewrite Hq1.
      assert (Hdiv : (pow10 prec / 10 = pow10 (prec - 1))%N).
      { replace prec with ((prec - 1) + 1) at 1 by lia.
        rewrite pow10_succ by (unfold prec; lia).
        rewrite N.mul_comm. apply N.div_mul. discriminate. }
      rewrite Hdiv. eexists _, _. split; [reflexivity|]. split.
      * apply pow10_lt; unfold prec; lia.
      * intros _. unfold adjusted. rewrite ndigits_pow10 by (unfold prec; lia).
        unfold Etop in *. lia.
    + destruct (Z.ltb_spec Etop exp_min); [discriminate|].
      intros [= <-]. eexists _, _. split; [reflexivity|].
      assert ((q + 1 < pow10 prec)%N)
        by (apply ndigits_le; [lia | unfold prec; lia | assumption]).
      split; [assumption|]. intros _. apply Hadj; [lia | assumption].
  - destruct (Z.ltb_spec Etop exp_min); [discriminate|].
    intros [= <-]. eexists _, _. split; [reflexivity|].
    split; [assumption|]. intros Hne. now apply Hadj.
Qed.

Lemma fix_false_sound (c : N) (e : Z) (d : Decimal) :
  fix_ false c e = inr d -> sound d.
Proof.
  intros H. destruct (fix_sound _ _ _ _ H) as (c' & e' & -> & B & A).
  cbn [sound]. auto.
Qed.

Lemma rescale_fin (s : bool) (c : N) (e ex : Z) :
  exists c', rescale s c e ex = Fin s c' ex.
Proof.
  unfold rescale. destruct (c =? 0)%N; [eexists; reflexivity|].
  destruct (ex <=? e); [eexists; reflexivity|].
  destruct (ndigits c + e - ex <? 0); eexists; reflexivity.
Qed.

Lemma fix_exponent (s : bool) (c : N) (e : Z) (s' : bool) (c' : N) (e' : Z) :
  fix_ s c e = inr (Fin s' c' e') -> Etiny <= e' <= Emax.
Proof.
  unfold fix_.
  destruct (c =? 0)%N.
  { intros [= _ _ <-]. unfold Etiny, Emax, Emin, prec. lia. }
  pose proof (ndigits_pos c) as Hnd.
  destruct (Z.ltb_spec Etop (ndigits c + e - prec)) as [|Hfit]; [discriminate|].
  set (exp_min := Z.max (ndigits c + e - prec) Etiny).
  assert (Hem : Etiny <= exp_min <= Etop)
    by (unfold exp_min, Etop, Etiny, Emax, Emin, prec in *; lia).
  destruct (Z.ltb_spec e exp_min) as [Hround|Hexact].
  2:{ intros [= _ _ <-]. unfold exp_min, Etop, Etiny, Emax, Emin, prec in *. lia. }
  destruct (ndigits c + e - exp_min <? 0).
  - destruct (0 <? changed 1 (exp_min - (exp_min - 1)));
      [destruct (prec <? ndigits _)|];
      match goal with |- context [Etop <? ?x] => destruct (Z.ltb_spec Etop x) end;
      try discriminate; intros [= _ _ <-];
      unfold Etop, Etiny, Emax, Emin, prec in *; lia.
  - destruct (0 <? changed c (exp_min - e));
      [destruct (prec <? ndigits _)|];
      match goal with |- context [Etop <? ?x] => destruct (Z.ltb_spec Etop x) end;
      try discriminate; intros [= _ _ <-];
      unfold Etop, Etiny, Emax, Emin, prec in *; lia.
Qed.

Lemma small_representable (s : bool) (c : N) (e : Z) :
  (c < pow10 prec)%N -> (c <> 0%N -> adjusted c e <= Emax) ->
  Etiny <= e <= Emax ->
  representable (Fin s c e) = true.
Proof.
  intros Hc Ha He. unfold representable.
  assert (Hn : ndigits c <= prec).
  { destruct (N.eq_dec c 0) as [->|Hne]; [rewrite ndigits_0; unfold prec; lia|].
    apply ndigits_le; [assumption | unfold prec; lia | assumption]. }
  apply andb_true_intro; split; [apply andb_true_intro; split|].
  - apply Z.leb_le. unfold MIN_ETINY, Etiny, Emin, prec in *. lia.
  - apply Z.leb_le. unfold MAX_PREC, prec in *. lia.
  - destruct (N.eqb_spec c 0) as [->|Hne]; apply Z.leb_le.
    + unfold MAX_EMAX, Emax in *. lia.
    + specialize (Ha Hne). unfold MAX_EMAX, Emax in *. lia.
Qed.

Lemma fix_representable (s : bool) (c : N) (e : Z) (d : Decimal) :
  fix_ s c e = inr d -> representable d = true.
Proof.
  intros H. destruct (fix_sound _ _ _ _ H) as (c' & e' & -> & B & A).
  apply small_representable; [assumption | assumption |].
  exact (fix_exponent _ _ _ _ _ _ H).
Qed.

Lemma fix_nan_representable (s sig : bool) (p : N) :
  representable (fix_nan s sig p) = true.
Proof.
  unfold fix_nan, representable. apply Z.leb_le.
  pose proof (pow10_pos prec) as Hp.
  assert (Hm : (p mod pow10 prec < pow10 prec)%N) by (apply N.mod_lt; lia).
  generalize dependent (p mod pow10 prec)%N. intros q Hq.
  destruct (N.eq_dec q 0) as [->|Hne]; [rewrite ndigits_0; unfold MAX_PREC; lia|].
  apply ndigits_le in Hq; [|assumption | unfold prec; lia].
  unfold MAX_PREC, prec in *. lia.
Qed.

(** Whatever the operands, a sum or a difference is a decimal the
    interpreter can hold. *)
Lemma add_representable (a b d : Decimal) :
  add a b = inr d -> representable d = true.
Proof.
  destruct a as [s1 c1 e1|s1|s1 [|] p1]; destruct b as [s2 c2 e2|s2|s2 [|] p2];
    cbn [add check_nans]; try discriminate;
    try (intros [= <-]; apply fix_nan_representable);
    try (intros [= <-]; reflexivity).
  - unfold add_fin.
    destruct ((c1 =? 0)%N && (c2 =? 0)%N); [apply fix_representable|].
    destruct (c1 =? 0)%N.
    { destruct (rescale_fin s2 c2 e2 (Z.max (Z.min e1 e2) (e2 - prec - 1)))
        as [c' ->]. cbn [fix_dec]. apply fix_representable. }
    destruct (c2 =? 0)%N.
    { destruct (rescale_fin s1 c1 e1 (Z.max (Z.min e1 e2) (e1 - prec - 1)))
        as [c' ->]. cbn [fix_dec]. apply fix_representable. }
    destruct (normalize c1 e1 c2 e2) as [[n1 n2] e].
    destruct (xorb s1 s2); [|apply fix_representable].
    destruct (n1 =? n2)%N; [apply fix_representable|].
    destruct (n1 <? n2)%N; apply fix_representable.
  - destruct (xorb s1 s2); [discriminate | now intros [= <-]].
Qed.

Lemma sub_representable (a b d : Decimal) :
  sub a b = inr d -> representable d = true.
Proof.
  unfold sub. destruct (check_nans a b) as [r|] eqn:E.
  - destruct a as [s1 c1 e1|s1|s1 [|] p1]; destruct b as [s2 c2 e2|s2|s2 [|] p2];
      cbn [check_nans] in E; try discriminate; injection E as <-;
      try discriminate; intros [= <-]; apply fix_nan_representable.
  - apply add_representable.
Qed.

(** *** Signs *)

Lemma le_zero_fin (s : bool) (c : N) (e : Z) :
  le_zero (Fin s c e) = inr (s || (c =? 0)%N).
Proof.
  unfold le_zero, cmp, zero, cmp_fin. rewrite N.eqb_refl.
  destruct (c =? 0)%N; [now rewrite orb_true_r|].
  now destruct s.
Qed.

Lemma positive_inv (a : Decimal) :
  le_zero a = inr false ->
  (exists c e, a = Fin false c e /\ c <> 0%N) \/ a = Inf false.
Proof.
  destruct a as [s c e|s|s sig p].
  - rewrite le_zero_fin. intros [= H]. apply orb_false_iff in H as [-> H].
    apply N.eqb_neq in H. left. eauto.
  - destruct s; [discriminate | now right].
  - discriminate.
Qed.

Lemma sound_ge_zero (d : Decimal) : sound d -> ge_zero d = inr true.
Proof.
  destruct d as [s c e|s|s sig p]; cbn [sound].
  - intros (-> & _). unfold ge_zero, cmp, zero, cmp_fin. rewrite N.eqb_refl.
    now destruct (c =? 0)%N.
  - now intros ->.
  - tauto.
Qed.

(** *** Order and normalization *)

Lemma ndigits_lt_lt (a b : N) :
  a <> 0%N -> b <> 0%N -> ndigits a < ndigits b -> (a < b)%N.
Proof.
  intros Ha Hb H.
  destruct (ndigits_spec a Ha) as [La Ua].
  destruct (ndigits_spec b Hb) as [Lb Ub].
  assert ((pow10 (ndigits a) <= pow10 (ndigits b - 1))%N) by (apply pow10_le; lia).
  lia.
Qed.

Lemma compare_by_digits (x y : N) (ax ay : Z) :
  x <> 0%N -> y <> 0%N ->
  ndigits x - ndigits y = ax - ay ->
  (x ?= y)%N =
  (if ax =? ay then (x ?= y)%N else if ay <? ax then Gt else Lt).
Proof.
  intros Hx Hy H. destruct (Z.eqb_spec ax ay); [reflexivity|].
  destruct (Z.ltb_spec ay ax).
  - apply N.compare_gt_iff. apply ndigits_lt_lt; [assumption | assumption | lia].
  - apply N.compare_lt_iff. apply ndigits_lt_lt; [assumption | assumption | lia].
Qed.

Lemma mul_pow10_nonzero (c : N) (d : Z) : c <> 0%N -> (c * pow10 d)%N <> 0%N.
Proof. intros H. pose proof (pow10_pos d). lia. Qed.

(** Comparing the coefficients [_normalize] returns is comparing the
    two numbers. *)
Lemma normalize_order (c1 : N) (e1 : Z) (c2 : N) (e2 : Z) (n1 n2 : N) (e : Z) :
  c1 <> 0%N -> c2 <> 0%N ->
  normalize c1 e1 c2 e2 = (n1, n2, e) ->
  (n1 ?= n2)%N = cmp_fin false c1 e1 false c2 e2.
Proof.
  intros H1 H2. unfold normalize, norm_pair, cmp_fin, adjusted.
  apply N.eqb_neq in H1 as E1. apply N.eqb_neq in H2 as E2.
  rewrite E1, E2. cbn [andb negb flip].
  pose proof (ndigits_pos c1) as P1. pose proof (ndigits_pos c2) as P2.
  destruct (Z.ltb_spec e1 e2) as [Hlt|Hge].
  - set (ex := e2 + Z.min (-1) (ndigits c2 - prec - 2)).
    destruct (Z.ltb_spec (ndigits c1 + e1 - 1) ex) as [Hsmall|Hbig].
    + intros [= <- <- <-].
      destruct (Z.eqb_spec (e1 + ndigits c1 - 1) (e2 + ndigits c2 - 1));
        [unfold ex in *; lia|].
      destruct (Z.ltb_spec (e2 + ndigits c2 - 1) (e1 + ndigits c1 - 1));
        [unfold ex in *; lia|].
      apply N.compare_lt_iff.
      assert ((pow10 1 <= pow10 (e2 - ex))%N) by (apply pow10_le; unfold ex; lia).
      change (pow10 1) with 10%N in *. nia.
    + intros [= <- <- <-].
      rewrite (pow10_nonpos (e1 - e2)) by lia. rewrite N.mul_1_r.
      apply compare_by_digits; [assumption | now apply mul_pow10_nonzero |].
      rewrite ndigits_shift by (assumption || lia). lia.
  - set (ex := e1 + Z.min (-1) (ndigits c1 - prec - 2)).
    destruct (Z.ltb_spec (ndigits c2 + e2 - 1) ex) as [Hsmall|Hbig].
    + intros [= <- <- <-].
      destruct (Z.eqb_spec (e1 + ndigits c1 - 1) (e2 + ndigits c2 - 1));
        [unfold ex in *; lia|].
      destruct (Z.ltb_spec (e2 + ndigits c2 - 1) (e1 + ndigits c1 - 1));
        [|unfold ex in *; lia].
      apply N.compare_gt_iff.
      assert ((pow10 1 <= pow10 (e1 - ex))%N) by (apply pow10_le; unfold ex; lia).
      change (pow10 1) with 10%N in *. nia.
    + intros [= <- <- <-].
      rewrite (pow10_nonpos (e2 - e1)) by lia. rewrite N.mul_1_r.
      apply compare_by_digits; [now apply mul_pow10_nonzero | assumption |].
      rewrite ndigits_shift by (assumption || lia). lia.
Qed.

(** *** Addition and subtraction on the balances of the ledger *)

Lemma add_sound (b a d : Decimal) :
  sound b -> le_zero a = inr false -> add b a = inr d -> sound d.
Proof.
  intros Hb Ha.
  destruct (positive_inv a Ha) as [(c2 & e2 & -> & H2) | ->];
    destruct b as [s1 c1 e1|s1|]; cbn [sound] in Hb; try tauto.
  - destruct Hb as (-> & _). cbn [add check_nans]. unfold add_fin.
    apply N.eqb_neq in H2. rewrite H2, andb_false_r.
    destruct (c1 =? 0)%N.
    + destruct (rescale_fin false c2 e2 (Z.max (Z.min e1 e2) (e2 - prec - 1)))
        as [c' ->].
      cbn [fix_dec]. apply fix_false_sound.
    + destruct (normalize c1 e1 c2 e2) as [[n1 n2] e]. cbn [xorb].
      apply fix_false_sound.
  - subst s1. cbn [add check_nans]. now intros [= <-].
  - destruct Hb as (-> & _). cbn [add check_nans]. now intros [= <-].
  - subst s1. cbn [add check_nans xorb]. now intros [= <-].
Qed.

Lemma lt_fin (c1 : N) (e1 : Z) (c2 : N) (e2 : Z) :
  lt (Fin false c1 e1) (Fin false c2 e2) = inr false ->
  cmp_fin false c1 e1 false c2 e2 <> Lt.
Proof.
  unfold lt, cmp. destruct (cmp_fin false c1 e1 false c2 e2); congruence.
Qed.

(** A withdrawal that is covered, on finite numbers: the coefficients at
    the common exponent are in order, and the difference is theirs. *)
Lemma sub_fin_cases (c1 : N) (e1 : Z) (c2 : N) (e2 : Z) :
  c2 <> 0%N ->
  cmp_fin false c1 e1 false c2 e2 <> Lt ->
  c1 <> 0%N /\
  exists n1 n2 e,
    (n2 <= n1)%N /\ n2 <> 0%N /\ e <= e1 /\ n1 = (c1 * pow10 (e1 - e))%N /\
    ((n1 ?= n2)%N = cmp_fin false c1 e1 false c2 e2) /\
    sub (Fin false c1 e1) (Fin false c2 e2)
    = if (n1 =? n2)%N then fix_ false 0 (Z.min e1 e2)
      else fix_ false (n1 - n2) e.
Proof.
  intros H2 Hcmp.
  assert (H1 : c1 <> 0%N).
  { intros ->. apply Hcmp. unfold cmp_fin. apply N.eqb_neq in H2.
    now rewrite N.eqb_refl, H2. }
  split; [assumption|].
  destruct (normalize c1 e1 c2 e2) as [[n1 n2] e] eqn:En.
  pose proof (normalize_order _ _ _ _ _ _ _ H1 H2 En) as Ho.
  assert (Hge : (n2 <= n1)%N).
  { destruct (N.compare_spec n1 n2); try lia. congruence. }
  exists n1, n2, e.
  assert (Hshape : n2 <> 0%N /\ e <= e1 /\ n1 = (c1 * pow10 (e1 - e))%N).
  { revert En. unfold normalize, norm_pair.
    pose proof (ndigits_pos c1). pose proof (ndigits_pos c2).
    destruct (Z.ltb_spec e1 e2) as [Hlt|Hle].
    - destruct (Z.ltb_spec (ndigits c1 + e1 - 1)
                  (e2 + Z.min (-1) (ndigits c2 - prec - 2))) as [Hs|Hb].
      + intros [= <- <- <-]. exfalso.
        assert ((pow10 1 <= pow10 (e2 - (e2 + Z.min (-1) (ndigits c2 - prec - 2))))%N)
          by (apply pow10_le; lia).
        change (pow10 1) with 10%N in *. nia.
      + intros [= <- <- <-]. rewrite Z.sub_diag.
        change (pow10 0) with 1%N. pose proof (pow10_pos (e2 - e1)).
        repeat split; nia.
    - destruct (Z.ltb_spec (ndigits c2 + e2 - 1)
                  (e1 + Z.min (-1) (ndigits c1 - prec - 2))) as [Hs|Hb].
      + intros [= <- <- <-]. repeat split; [discriminate | lia].
      + intros [= <- <- <-]. repeat split; [assumption | lia]. }
  destruct Hshape as (Hn2 & He & Hn1).
  repeat split; try assumption.
  unfold sub. cbn [check_nans copy_negate negb add]. unfold add_fin.
  apply N.eqb_neq in H1 as E1. apply N.eqb_neq in H2 as E2.
  rewrite E1, E2, En. cbn [andb xorb].
  destruct (N.eqb_spec n1 n2); [reflexivity|].
  destruct (N.ltb_spec n1 n2); [lia | reflexivity].
Qed.

Lemma sub_sound (b a d : Decimal) :
  sound b -> le_zero a = inr false -> lt b a = inr false ->
  sub b a = inr d -> sound d.
Proof.
  intros Hb Ha Hlt.
  destruct (positive_inv a Ha) as [(c2 & e2 & -> & H2) | ->];
    destruct b as [s1 c1 e1|s1|]; cbn [sound] in Hb; try tauto.
  - destruct Hb as (-> & _).
    destruct (sub_fin_cases c1 e1 c2 e2 H2 (lt_fin _ _ _ _ Hlt))
      as (_ & n1 & n2 & e & _ & _ & _ & _ & _ & ->).
    destruct (n1 =? n2)%N; apply fix_false_sound.
  - subst s1. unfold sub. cbn [check_nans copy_negate add]. now intros [= <-].
  - discriminate.
  - subst s1. discriminate.
Qed.

Lemma changed_pos (c : N) (k : Z) :
  0 < changed c k -> (1 <= c mod pow10 k)%N.
Proof.
  unfold changed.
  destruct ((c mod pow10 k =? 5 * pow10 (k - 1))%N && N.even (c / pow10 k));
    [lia|].
  destruct (N.leb_spec (5 * pow10 (k - 1)) (c mod pow10 k)) as [H|H].
  - intros _. pose proof (pow10_pos (k - 1)). lia.
  - destruct (c mod pow10 k =? 0)%N; lia.
Qed.

(** Rounding a number below one the context holds cannot overflow. *)
Lemma fix_no_overflow (c1 : N) (e1 d : Z) (r : N) :
  c1 <> 0%N -> (c1 < pow10 prec)%N -> adjusted c1 e1 <= Emax ->
  0 <= d -> (0 < r)%N -> (r < c1 * pow10 d)%N ->
  exists x, fix_ false r (e1 - d) = inr x.
Proof.
  intros H1 Hp Hadj Hd Hr Hlt. unfold fix_.
  assert (E : (r =? 0)%N = false) by (apply N.eqb_neq; lia). rewrite E.
  assert (Hnr : ndigits r <= ndigits c1 + d).
  { rewrite <- ndigits_shift by assumption. apply ndigits_mono. lia. }
  assert (Hn1 : ndigits c1 <= prec)
    by (apply ndigits_le; [assumption | unfold prec; lia | assumption]).
  unfold adjusted in Hadj.
  destruct (Z.ltb_spec Etop (ndigits r + (e1 - d) - prec)) as [Hbad|Hfit];
    [unfold Etop in *; lia|].
  set (exp_min := Z.max (ndigits r + (e1 - d) - prec) Etiny).
  assert (Hem : exp_min <= Etop)
    by (unfold exp_min, Etop, Etiny, Emax, Emin, prec in *; lia).
  destruct (Z.ltb_spec (e1 - d) exp_min) as [Hround|]; [|eauto].
  destruct (Z.ltb_spec (ndigits r + (e1 - d) - exp_min) 0) as [Hneg|Hpos].
  - replace (exp_min - (exp_min - 1)) with 1 by lia.
    change (0 <? changed 1 1) with false. cbv iota.
    destruct (Z.ltb_spec Etop exp_min); [lia | eauto].
  - set (k := exp_min - (e1 - d)).
    destruct (Z.ltb_spec 0 (changed r k)) as [Hch|];
      [|destruct (Z.ltb_spec Etop exp_min); [lia | eauto]].
    destruct (Z.ltb_spec prec (ndigits (r / pow10 k + 1))) as [Hcarry|];
      [|destruct (Z.ltb_spec Etop exp_min); [lia | eauto]].
    destruct (Z.ltb_spec Etop (exp_min + 1)) as [Hover|]; [|eauto].
    exfalso.
    assert (Hk : k = ndigits r - prec)
      by (unfold k, exp_min, Etop, Etiny, Emax, Emin, prec in *; lia).
    assert (Hsum : ndigits c1 + d = prec + k)
      by (unfold k, exp_min, Etop, Etiny, Emax, Emin, prec in *; lia).
    assert (Hk0 : 0 < k) by (unfold k; lia).
    assert (Hq : (pow10 prec <= r / pow10 k + 1)%N).
    { destruct (N.lt_ge_cases (r / pow10 k + 1) (pow10 prec)) as [Hl|]; [|assumption].
      apply ndigits_le in Hl;
        [lia | rewrite N.add_1_r; apply N.neq_succ_0 | unfold prec; lia]. }
    pose proof (changed_pos _ _ Hch) as Hrem.
    pose proof (N.div_mod r (pow10 k)) as Hdm.
    assert (HC : (pow10 (ndigits c1) * pow10 d = pow10 prec * pow10 k)%N).
    { rewrite <- (pow10_add (ndigits c1) d)
        by (pose proof (ndigits_pos c1); lia).
      rewrite <- (pow10_add prec k) by (unfold prec; lia). now rewrite Hsum. }
    assert (HA : (pow10 k <= pow10 d)%N) by (apply pow10_le; lia).
    destruct (ndigits_spec c1 H1) as [_ HU].
    pose proof (pow10_pos k) as HP.
    specialize (Hdm ltac:(lia)).
    revert Hq Hrem Hdm HC HA HU HP Hlt.
    generalize (r / pow10 k)%N (r mod pow10 k)%N (pow10 (ndigits c1))
      (pow10 d) (pow10 prec) (pow10 k).
    intros q rem C D P A. intros. nia.
Qed.

Lemma fix_zero (e : Z) : exists e', fix_ false 0 e = inr (Fin false 0 e').
Proof. unfold fix_. rewrite N.eqb_refl. eauto. Qed.

(** A withdrawal from a balance of the ledger, the two not both
    infinite: it is refused when the balance is smaller than the amount,
    and only then; otherwise the difference exists, is a balance of the
    same kind, and is zero when balance and amount are equal. *)
Lemma withdraw_decides (b a : Decimal) :
  sound b -> le_zero a = inr false -> ~ (b = Inf false /\ a = Inf false) ->
  lt b a = inr true \/
  (lt b a = inr false /\
   exists bal, sub b a = inr bal /\ sound bal /\
               (cmp b a = inr Eq -> exists e, bal = Fin false 0 e)).
Proof.
  intros Hb Ha Hinf.
  destruct (positive_inv a Ha) as [(c2 & e2 & -> & H2) | ->];
    destruct b as [s1 c1 e1|s1|]; cbn [sound] in Hb; try tauto.
  - destruct Hb as (-> & Hp & Hadj).
    destruct (cmp_fin false c1 e1 false c2 e2) eqn:Ec.
    + right. assert (Hl : lt (Fin false c1 e1) (Fin false c2 e2) = inr false)
        by (unfold lt, cmp; now rewrite Ec).
      split; [assumption|].
      destruct (sub_fin_cases c1 e1 c2 e2 H2 ltac:(congruence))
        as (H1 & n1 & n2 & e & Hge & Hn2 & He & Hn1 & Ho & Hs).
      rewrite Ec in Ho. apply N.compare_eq_iff in Ho.
      apply N.eqb_eq in Ho. rewrite Ho in Hs.
      destruct (fix_zero (Z.min e1 e2)) as [e' He'].
      exists (Fin false 0 e'). rewrite Hs, He'.
      split; [reflexivity|]. split; [|eauto].
      cbn [sound]. split; [reflexivity|]. split; [apply pow10_pos | congruence].
    + left. unfold lt, cmp. now rewrite Ec.
    + right. assert (Hl : lt (Fin false c1 e1) (Fin false c2 e2) = inr false)
        by (unfold lt, cmp; now rewrite Ec).
      split; [assumption|].
      destruct (sub_fin_cases c1 e1 c2 e2 H2 ltac:(congruence))
        as (H1 & n1 & n2 & e & Hge & Hn2 & He & Hn1 & Ho & Hs).
      rewrite Ec in Ho. apply N.compare_gt_iff in Ho.
      assert (En : (n1 =? n2)%N = false) by (apply N.eqb_neq; lia).
      rewrite En in Hs.
      destruct (fix_no_overflow c1 e1 (e1 - e) (n1 - n2)) as [x Hx];
        [assumption | assumption | now apply Hadj | lia | lia | lia |].
      replace (e1 - (e1 - e)) with e in Hx by lia.
      exists x. rewrite Hs. split; [assumption|].
      split; [now apply fix_false_sound in Hx|].
      unfold cmp. rewrite Ec. discriminate.
  - subst s1. right. split; [reflexivity|].
    exists (Inf false). split; [reflexivity|]. split; [reflexivity|].
    discriminate.
  - subst s1. exfalso. apply Hinf. now split.
Qed.

End DecFacts.

(* ================================================================== *)
(** ** Balances never go below zero *)
(* ================================================================== *)

Lemma all_sound_created (b : Bank) : all_sound b -> all_sound (created b).
Proof.
  unfold all_sound, created. intros H. rewrite accounts_saved. cbn [accounts set_accounts].
  apply Forall_dict_set; [exact H|].
  unfold Account_init, Dec.zero. cbn [snd balance Dec.sound].
  split; [reflexivity|]. split; [apply DecFacts.pow10_pos | congruence].
Qed.

Lemma all_sound_credited (b : Bank) n account bal :
  all_sound b -> Dec.sound bal -> all_sound (credited n account bal b).
Proof.
  unfold all_sound, credited. intros H Hs. rewrite accounts_saved.
  cbn [accounts set_accounts]. now apply Forall_dict_set.
Qed.

Lemma all_sound_get (b : Bank) n account :
  all_sound b -> dict_get n (accounts b) = Some account ->
  Dec.sound (balance account).
Proof.
  intros H Hg. apply dict_get_In in Hg.
  exact (proj1 (Forall_forall _ _) H _ Hg).
Qed.

Lemma all_sound_reachable (ip : string) (b : Bank) :
  reachable ip b -> all_sound b.
Proof.
  apply reachable_ind_inv.
  - intros w. constructor.
  - apply step_preserves.
    + apply all_sound_created.
    + intros b0 n account amount bal H Hg Hz Ha.
      apply all_sound_credited; [assumption|].
      eapply DecFacts.add_sound; eauto using all_sound_get.
    + intros b0 n account amount bal H Hg Hz Hl Hs.
      apply all_sound_credited; [assumption|].
      eapply DecFacts.sub_sound; eauto using all_sound_get.
Qed.

Lemma withdrawal_refused (b : Bank) (account_full amount_str : string)
    (n : Z) (account : Account) (amount : Dec.Decimal) :
  names b account_full n ->
  positive_amount amount_str amount ->
  dict_get n (accounts b) = Some account ->
  Dec.lt (balance account) amount = inr true ->
  account_withdrawal account_full amount_str b
  = (inl (Exception (msg_insufficient (balance account))), b).
Proof.
  intros (Hc & num_str & ip & Hs & Hn & Hip) (Ha & Hz) Hg Hl.
  eapply withdrawal_short; eauto.
Qed.

(** C2. In every state reached from the empty ledger every balance is
    [>= 0]; and a withdrawal of more than the balance is refused and
    changes nothing. *)
Theorem C2_no_negative_balance (ip : string) (b : Bank) :
  reachable ip b ->
  Forall (fun p => Dec.ge_zero (balance (snd p)) = inr true) (accounts b)
  /\ forall account_full amount_str n account amount,
       names b account_full n ->
       positive_amount amount_str amount ->
       dict_get n (accounts b) = Some account ->
       Dec.lt (balance account) amount = inr true ->
       account_withdrawal account_full amount_str b
       = (inl (Exception (msg_insufficient (balance account))), b).
Proof.
  intros Hr. split.
  - eapply Forall_impl; [|exact (all_sound_reachable ip b Hr)].
    intros p. apply DecFacts.sound_ge_zero.
  - intros. now apply withdrawal_refused with (n := n) (amount := amount).
Qed.

Lemma sample_ledger_reachable : reachable "127.0.0.1" sample_ledger.
Proof. apply reach_step, reach_step, reach_init. Qed.

Lemma sample_ledger_account :
  names sample_ledger "10001/127.0.0.1" 10001 /\
  dict_get 10001 (accounts sample_ledger)
  = Some {| number := 10001; balance := Dec.Fin false 100 0 |}.
Proof.
  split; [|reflexivity].
  split; [reflexivity|]. exists "10001", "127.0.0.1". now repeat split.
Qed.

Lemma C2_no_negative_balance_witness :
  reachable "127.0.0.1" sample_ledger /\
  Forall (fun p => Dec.ge_zero (balance (snd p)) = inr true)
    (accounts sample_ledger) /\
  account_withdrawal "10001/127.0.0.1" "1000" sample_ledger
  = (inl (Exception (msg_insufficient (Dec.Fin false 100 0))), sample_ledger).
Proof.
  split; [apply reach_step, reach_step, reach_init|].
  destruct (C2_no_negative_balance "127.0.0.1" sample_ledger
              ltac:(apply reach_step, reach_step, reach_init)) as [H1 H2].
  split; [exact H1|].
  apply (H2 "10001/127.0.0.1" "1000" 10001
           {| number := 10001; balance := Dec.Fin false 100 0 |}
           (Dec.Fin false 1000 0)).
  - split; [reflexivity|]. exists "10001", "127.0.0.1". now repeat split.
  - split; reflexivity.
  - reflexivity.
  - reflexivity.
Defined.

(* ================================================================== *)
(** ** Failures change nothing *)
(* ================================================================== *)

(** C10. An operation that fails, for whatever reason, leaves the whole
    ledger as it was: accounts, balances, counter (and the state file). *)
Theorem C10_failure_changes_nothing (o : Op) (b : Bank) (e : Exn) :
  fst (run_op o b) = inl e -> snd (run_op o b) = b.
Proof.
  destruct o; cbn [run_op].
  - reflexivity.
  - rewrite account_create_eq. discriminate.
  - destruct (deposit_outcome account_full amount_str b)
      as [[e' ->] | (n & account & amount & bal & r & _ & _ & _ & _ & ->)];
      [reflexivity | discriminate].
  - destruct (withdrawal_outcome account_full amount_str b)
      as [[e' ->] | (n & account & amount & bal & r & _ & _ & _ & _ & _ & ->)];
      [reflexivity | discriminate].
  - intros _. apply balance_state.
Qed.

Lemma C10_failure_changes_nothing_witness :
  fst (run_op (OpWithdraw "10001/127.0.0.1" "1000") sample_ledger)
  = inl (Exception (msg_insufficient (Dec.Fin false 100 0))) /\
  snd (run_op (OpWithdraw "10001/127.0.0.1" "1000") sample_ledger)
  = sample_ledger.
Proof.
  split; [reflexivity|].
  exact (C10_failure_changes_nothing
           (OpWithdraw "10001/127.0.0.1" "1000") sample_ledger _ eq_refl).
Defined.

(** The six causes of failure, each on the sample ledger: the error
    raised, and the ledger unchanged. *)
Example failure_causes :
  let same (r : (Exn + string) * Bank) (msg : string) :=
    r = (inl (Exception msg), sample_ledger) in
  same (account_deposit "10001" "5" sample_ledger) msg_format /\
  same (account_deposit "1/2/3" "5" sample_ledger) msg_value /\
  same (account_deposit "abc/127.0.0.1" "5" sample_ledger) msg_value /\
  same (account_deposit "10001/10.0.0.1" "5" sample_ledger)
    (msg_not_local "127.0.0.1") /\
  same (account_deposit "10001/127.0.0.1" "abc" sample_ledger)
    (Dec.signal_str Dec.ConversionSyntax) /\
  same (account_deposit "10001/127.0.0.1" "-5" sample_ledger) msg_not_positive /\
  same (account_deposit "10001/127.0.0.1" "0" sample_ledger) msg_not_positive /\
  same (account_deposit "10002/127.0.0.1" "5" sample_ledger) msg_not_found /\
  same (account_withdrawal "10002/127.0.0.1" "5" sample_ledger) msg_not_found /\
  same (account_withdrawal "10001/127.0.0.1" "100.01" sample_ledger)
    (msg_insufficient (Dec.Fin false 100 0)).
Proof. cbv zeta. repeat split; vm_compute; reflexivity. Qed.

(* ================================================================== *)
(** ** When a withdrawal is refused *)
(* ================================================================== *)

Lemma credited_get (b : Bank) n account bal :
  dict_get n (accounts (credited n account bal b))
  = Some {| number := number account; balance := bal |}.
Proof.
  unfold credited. rewrite accounts_saved. cbn [accounts set_accounts].
  apply dict_get_set_same.
Qed.

Lemma execute_AW (command op account_full amount_str : string) (b : Bank) :
  PyStr.split (PyStr.strip command) = [op; account_full; amount_str] ->
  PyStr.upper op = "AW" ->
  execute_command command b
  = try_except (account_withdrawal account_full amount_str)
      (fun e => ret ("ERROR: " ++ exn_str e)) b.
Proof.
  intros Hp Hop. rewrite (execute_parts _ _ _ _ Hp). now rewrite Hop.
Qed.

(** C4, as the code has it.  In a ledger reached from the empty one, for
    a withdrawal on an existing local account with a positive parsable
    amount, balance and amount not both infinite: the withdrawal fails
    exactly when [balance < amount]; when it fails the balance and the
    whole ledger are unchanged and the line returned is [ERROR:] followed
    by a message with the current balance; when it succeeds the new
    balance is the difference, which is zero when the amount equals the
    balance. *)
Theorem C4_withdrawal_decision (ip : string) (b : Bank)
    (account_full amount_str : string) (n : Z) (account : Account)
    (amount : Dec.Decimal) :
  reachable ip b ->
  names b account_full n ->
  positive_amount amount_str amount ->
  dict_get n (accounts b) = Some account ->
  ~ (balance account = Dec.Inf false /\ amount = Dec.Inf false) ->
  (Dec.lt (balance account) amount = inr true /\
   account_withdrawal account_full amount_str b
   = (inl (Exception (msg_insufficient (balance account))), b) /\
   forall command op,
     PyStr.split (PyStr.strip command) = [op; account_full; amount_str] ->
     PyStr.upper op = "AW" ->
     execute_command command b
     = (inr ("ERROR: Nedostatečný zůstatek (dostupné: "
               ++ Dec.to_string (balance account) ++ " Kč)"), b))
  \/
  (Dec.lt (balance account) amount = inr false /\
   exists bal r,
     Dec.sub (balance account) amount = inr bal /\
     account_withdrawal account_full amount_str b
     = (inr r, credited n account bal b) /\
     dict_get n (accounts (credited n account bal b))
     = Some {| number := number account; balance := bal |} /\
     (Dec.cmp (balance account) amount = inr Eq ->
      exists e, bal = Dec.Fin false 0 e)).
Proof.
  intros Hr Hn Hp Hg Hinf.
  pose proof (all_sound_get _ _ _ (all_sound_reachable _ _ Hr) Hg) as Hs.
  destruct Hp as [Ha Hz].
  destruct (DecFacts.withdraw_decides _ _ Hs Hz Hinf)
    as [Hl | (Hl & bal & Hsub & _ & Heq)].
  - left. split; [assumption|].
    assert (Hw : account_withdrawal account_full amount_str b
                 = (inl (Exception (msg_insufficient (balance account))), b))
      by (apply withdrawal_refused with (n := n) (amount := amount);
          [assumption | now split | assumption | assumption]).
    split; [assumption|].
    intros command op Hparts Hop.
    rewrite (execute_AW _ _ _ _ _ Hparts Hop).
    now rewrite (try_except_err _ _ _ _ _ Hw).
  - right. split; [assumption|].
    destruct Hn as (Hc & num_str & ip' & Hsp & Hi & Hip).
    exists bal. eexists. split; [assumption|]. split; [|split].
    + eapply withdrawal_ok; eauto.
    + apply credited_get.
    + assumption.
Qed.

Lemma C4_withdrawal_decision_witness :
  let account := {| number := 10001; balance := Dec.Fin false 100 0 |} in
  (Dec.lt (balance account) (Dec.Fin false 100 0) = inr true /\
   account_withdrawal "10001/127.0.0.1" "100" sample_ledger
   = (inl (Exception (msg_insufficient (balance account))), sample_ledger) /\
   forall command op,
     PyStr.split (PyStr.strip command) = [op; "10001/127.0.0.1"; "100"] ->
     PyStr.upper op = "AW" ->
     execute_command command sample_ledger
     = (inr ("ERROR: Nedostatečný zůstatek (dostupné: "
               ++ Dec.to_string (balance account) ++ " Kč)"), sample_ledger))
  \/
  (Dec.lt (balance account) (Dec.Fin false 100 0) = inr false /\
   exists bal r,
     Dec.sub (balance account) (Dec.Fin false 100 0) = inr bal /\
     account_withdrawal "10001/127.0.0.1" "100" sample_ledger
     = (inr r, credited 10001 account bal sample_ledger) /\
     dict_get 10001 (accounts (credited 10001 account bal sample_ledger))
     = Some {| number := number account; balance := bal |} /\
     (Dec.cmp (balance account) (Dec.Fin false 100 0) = inr Eq ->
      exists e, bal = Dec.Fin false 0 e)).
Proof.
  apply (C4_withdrawal_decision "127.0.0.1" sample_ledger
           "10001/127.0.0.1" "100" 10001).
  - apply reach_step, reach_step, reach_init.
  - split; [reflexivity|]. exists "10001", "127.0.0.1". now repeat split.
  - split; reflexivity.
  - reflexivity.
  - intros [H _]. discriminate H.
Defined.

(** C4 as stated fails where balance and amount are both [Infinity]:
    the balance is not smaller than the amount, and the withdrawal fails
    all the same, with a message that does not give the balance.  So it
    is not true that, on an existing local account of a ledger reached
    from the empty one and with a positive parsable amount, a withdrawal
    fails exactly when the balance is smaller than the amount. *)
Lemma C4_counterexample :
  (reachable "127.0.0.1" infinite_ledger /\
   names infinite_ledger "10001/127.0.0.1" 10001 /\
   positive_amount "Infinity" (Dec.Inf false) /\
   dict_get 10001 (accounts infinite_ledger)
   = Some {| number := 10001; balance := Dec.Inf false |} /\
   Dec.lt (Dec.Inf false) (Dec.Inf false) = inr false /\
   account_withdrawal "10001/127.0.0.1" "Infinity" infinite_ledger
   = (inl (Exception "[<class 'decimal.InvalidOperation'>]"), infinite_ledger) /\
   execute_command "AW 10001/127.0.0.1 Infinity" infinite_ledger
   = (inr "ERROR: [<class 'decimal.InvalidOperation'>]", infinite_ledger))
  /\
  ~ (forall ip b account_full amount_str n account amount,
       reachable ip b ->
       names b account_full n ->
       positive_amount amount_str amount ->
       dict_get n (accounts b) = Some account ->
       ((exists e, fst (account_withdrawal account_full amount_str b) = inl e)
        <-> Dec.lt (balance account) amount = inr true)).
Proof.
  assert (R : reachable "127.0.0.1" infinite_ledger)
    by apply reach_step, reach_step, reach_init.
  assert (Hn : names infinite_ledger "10001/127.0.0.1" 10001)
    by (split; [reflexivity|]; exists "10001", "127.0.0.1"; now repeat split).
  assert (Hp : positive_amount "Infinity" (Dec.Inf false)) by (split; reflexivity).
  assert (Hg : dict_get 10001 (accounts infinite_ledger)
               = Some {| number := 10001; balance := Dec.Inf false |})
    by reflexivity.
  assert (Hw : account_withdrawal "10001/127.0.0.1" "Infinity" infinite_ledger
               = (inl (Exception "[<class 'decimal.InvalidOperation'>]"),
                  infinite_ledger))
    by (vm_compute; reflexivity).
  split.
  - repeat split; try assumption; try apply Hn; try apply Hp;
      vm_compute; reflexivity.
  - intros H.
    destruct (H _ _ _ _ _ _ _ R Hn Hp Hg) as [H1 _].
    assert (E : Dec.lt (Dec.Inf false) (Dec.Inf false) = inr true).
    { apply H1. rewrite Hw. eexists. reflexivity. }
    discriminate E.
Qed.

(* ================================================================== *)
(** ** The order of the checks of a deposit *)
(* ================================================================== *)

(** C5 as stated fails: with a foreign bank address and an amount that
    does not parse, the error reported is the one of the amount, not the
    not-local error.  So it is not true that every deposit on a
    well-formed account identifier with a foreign address reports the
    not-local error. *)
Lemma C5_counterexample :
  (PyStr.split_on "/" "10001/10.0.0.1" = ["10001"; "10.0.0.1"] /\
   String.eqb "10.0.0.1" (ip_address sample_ledger) = false /\
   Dec.of_string "abc" = None /\
   account_deposit "10001/10.0.0.1" "abc" sample_ledger
   = (inl (Exception "[<class 'decimal.ConversionSyntax'>]"), sample_ledger))
  /\
  ~ (forall b account_full amount_str num_str ip n,
       PyStr.split_on "/" account_full = [num_str; ip] ->
       PyStr.py_int num_str = Some n ->
       String.eqb ip (ip_address b) = false ->
       account_deposit account_full amount_str b
       = (inl (Exception (msg_not_local (ip_address b))), b)).
Proof.
  assert (Hd : account_deposit "10001/10.0.0.1" "abc" sample_ledger
               = (inl (Exception "[<class 'decimal.ConversionSyntax'>]"),
                  sample_ledger))
    by (vm_compute; reflexivity).
  split.
  - repeat split; try exact Hd; vm_compute; reflexivity.
  - intros H.
    specialize (H sample_ledger "10001/10.0.0.1" "abc" "10001" "10.0.0.1" 10001
                  eq_refl eq_refl eq_refl).
    rewrite Hd in H. discriminate H.
Qed.

(** C5, as the code has it.  A deposit checks, in this order: that the
    account identifier has a [/]; that it has exactly two fields; that
    the first is an integer; that the amount parses; that the second
    field is the address of this bank; that the amount compares with
    zero (a NaN does not) and is positive; that the account exists.  The
    first check that fails gives the error, and the ledger is unchanged.
    So a foreign address is reported as such only when the account number
    and the amount both parse. *)
Theorem C5_deposit_check_order (b : Bank) (account_full amount_str : string) :
  let fails msg :=
    account_deposit account_full amount_str b = (inl (Exception msg), b) in
  (PyStr.contains "/" account_full = false -> fails msg_format) /\
  (PyStr.contains "/" account_full = true ->
   (forall num_str ip, PyStr.split_on "/" account_full <> [num_str; ip]) ->
   fails msg_value) /\
  (forall num_str ip,
     PyStr.contains "/" account_full = true ->
     PyStr.split_on "/" account_full = [num_str; ip] ->
     (PyStr.py_int num_str = None -> fails msg_value) /\
     (forall n, PyStr.py_int num_str = Some n ->
        (Dec.of_string amount_str = None ->
         fails (Dec.signal_str (Dec.literal_signal amount_str))) /\
        (forall amount, Dec.of_string amount_str = Some amount ->
           (String.eqb ip (ip_address b) = false ->
            fails (msg_not_local (ip_address b))) /\
           (String.eqb ip (ip_address b) = true ->
              (forall sg, Dec.le_zero amount = inl sg ->
                          fails (Dec.signal_str sg)) /\
              (Dec.le_zero amount = inr true -> fails msg_not_positive) /\
              (Dec.le_zero amount = inr false ->
               dict_get n (accounts b) = None -> fails msg_not_found))))).
Proof.
  cbv zeta. split; [|split].
  - intros H. run_method. now rewrite H.
  - intros H Hs. run_method. rewrite H. cbn [negb].
    destruct (PyStr.split_on "/" account_full) as [|x [|y [|z l]]];
      try reflexivity.
    now destruct (Hs x y).
  - intros num_str ip H Hs. split; [|intros n Hn; split;
      [|intros amount Ha; split; [|intros Hip; split; [|split]]]].
    + intros Hn. run_method. rewrite H; cbn. rewrite Hs; cbn. now rewrite Hn.
    + intros Ha. run_method. rewrite H; cbn. rewrite Hs; cbn. rewrite Hn; cbn.
      now rewrite Ha.
    + intros Hip. run_method. rewrite H; cbn. rewrite Hs; cbn. rewrite Hn; cbn.
      rewrite Ha; cbn. now rewrite Hip.
    + intros sg Hz. run_method. rewrite H; cbn. rewrite Hs; cbn. rewrite Hn; cbn.
      rewrite Ha; cbn. rewrite Hip; cbn. now rewrite Hz.
    + intros Hz. run_method. rewrite H; cbn. rewrite Hs; cbn. rewrite Hn; cbn.
      rewrite Ha; cbn. rewrite Hip; cbn. now rewrite Hz.
    + intros Hz Hg. run_method. rewrite H; cbn. rewrite Hs; cbn. rewrite Hn; cbn.
      rewrite Ha; cbn. rewrite Hip; cbn. rewrite Hz; cbn. now rewrite Hg.
Qed.

Lemma C5_deposit_check_order_witness :
  account_deposit "10001/10.0.0.1" "5" sample_ledger
  = (inl (Exception (msg_not_local "127.0.0.1")), sample_ledger) /\
  account_deposit "10001/10.0.0.1" "abc" sample_ledger
  = (inl (Exception (Dec.signal_str Dec.ConversionSyntax)), sample_ledger).
Proof.
  split.
  - destruct (C5_deposit_check_order sample_ledger "10001/10.0.0.1" "5")
      as (_ & _ & H).
    destruct (H "10001" "10.0.0.1" eq_refl eq_refl) as [_ H1].
    destruct (H1 10001 eq_refl) as [_ H2].
    destruct (H2 (Dec.Fin false 5 0) eq_refl) as [H3 _].
    exact (H3 eq_refl).
  - destruct (C5_deposit_check_order sample_ledger "10001/10.0.0.1" "abc")
      as (_ & _ & H).
    destruct (H "10001" "10.0.0.1" eq_refl eq_refl) as [_ H1].
    destruct (H1 10001 eq_refl) as [H2 _].
    exact (H2 eq_refl).
Defined.

(* ================================================================== *)
(** ** [execute_command] always answers *)
(* ================================================================== *)

(** What handling a command leaves of the ledger. *)
Lemma dispatch_state (cmd : string) (parts : list string) (b : Bank) :
  snd (dispatch cmd parts b) = b \/
  snd (dispatch cmd parts b) = created b \/
  exists n account bal, snd (dispatch cmd parts b) = credited n account bal b.
Proof.
  unfold dispatch.
  destruct (String.eqb cmd "BC"); [now left|].
  destruct (String.eqb cmd "AC"); [right; left; now rewrite account_create_eq|].
  destruct (String.eqb cmd "AD").
  { destruct parts as [|p0 [|a [|m [|x l]]]]; try (now left).
    destruct (deposit_outcome a m b)
      as [[e ->] | (n & account & amount & bal & r & _ & _ & _ & _ & ->)];
      [now left | right; right; exists n, account, bal; reflexivity]. }
  destruct (String.eqb cmd "AW").
  { destruct parts as [|p0 [|a [|m [|x l]]]]; try (now left).
    destruct (withdrawal_outcome a m b)
      as [[e ->] | (n & account & amount & bal & r & _ & _ & _ & _ & _ & ->)];
      [now left | right; right; exists n, account, bal; reflexivity]. }
  destruct (String.eqb cmd "AB"); [|now left].
  destruct parts as [|p0 [|a [|x l]]]; try (now left).
  left. apply balance_state.
Qed.

Lemma execute_command_answers (command : string) (b : Bank) :
  exists response b', execute_command command b = (inr response, b').
Proof.
  unfold execute_command. cbv zeta.
  destruct (PyStr.split (PyStr.strip command)) as [|p0 rest];
    [eexists _, _; reflexivity|].
  unfold try_except.
  destruct (dispatch (PyStr.upper p0) (p0 :: rest) b) as [[e|r] b'];
    eexists _, _; reflexivity.
Qed.

(** C6. [execute_command] never raises: whatever the line and the
    ledger, it returns one response; and when the command fails the
    response begins with [ERROR:]. *)
Theorem C6_execute_command_total (command : string) (b : Bank) :
  exists response b',
    execute_command command b = (inr response, b') /\
    (fails command b -> PyStr.starts_with "ERROR:" response = true).
Proof.
  unfold execute_command, fails. cbv zeta.
  destruct (PyStr.split (PyStr.strip command)) as [|p0 rest].
  - eexists _, _. split; [reflexivity | intros _; reflexivity].
  - unfold try_except.
    destruct (dispatch (PyStr.upper p0) (p0 :: rest) b) as [[e|r] b'].
    + eexists _, _. split; [reflexivity | intros _; reflexivity].
    + eexists _, _. split; [reflexivity|]. intros [e He]. discriminate He.
Qed.

Lemma C6_execute_command_total_witness :
  fails "AD 10001/127.0.0.1 abc" sample_ledger /\
  exists response b',
    execute_command "AD 10001/127.0.0.1 abc" sample_ledger = (inr response, b') /\
    PyStr.starts_with "ERROR:" response = true.
Proof.
  assert (F : fails "AD 10001/127.0.0.1 abc" sample_ledger)
    by (eexists; vm_compute; reflexivity).
  split; [exact F|].
  destruct (C6_execute_command_total "AD 10001/127.0.0.1 abc" sample_ledger)
    as (response & b' & E & H).
  exists response, b'. split; [exact E | exact (H F)].
Defined.

(** The malformed inputs, one of each kind, on the sample ledger. *)
Example malformed_inputs :
  let answer (command response : string) :=
    execute_command command sample_ledger = (inr response, sample_ledger) in
  answer "" "ERROR: Prázdný příkaz" /\
  answer "   " "ERROR: Prázdný příkaz" /\
  answer "XY 1 2" "ERROR: Neznámý příkaz 'XY'" /\
  answer "AD 10001/127.0.0.1" "ERROR: Použití: AD číslo/IP částka" /\
  answer "AW 10001/127.0.0.1 1 2" "ERROR: Použití: AW číslo/IP částka" /\
  answer "AB" "ERROR: Použití: AB číslo/IP" /\
  answer "AB 10001" "ERROR: Neplatný formát účtu (očekáváno: číslo/IP)" /\
  answer "AB 10001/127.0.0.1/x" "ERROR: Neplatný formát čísla účtu" /\
  answer "AD 1/2/3 5" "ERROR: Neplatný formát čísla nebo částky" /\
  answer "AD ten/127.0.0.1 5" "ERROR: Neplatný formát čísla nebo částky" /\
  answer "AD 10001/127.0.0.1 abc" "ERROR: [<class 'decimal.ConversionSyntax'>]" /\
  answer "AD 10001/127.0.0.1 NaN" "ERROR: [<class 'decimal.InvalidOperation'>]".
Proof. cbv zeta. repeat split; vm_compute; reflexivity. Qed.

(* ================================================================== *)
(** ** The connection handler *)
(* ================================================================== *)

Lemma running_saved (b : Bank) : running (saved b) = running b.
Proof. unfold saved. now destruct (writable b). Qed.

Lemma running_execute (command : string) (b : Bank) :
  running (snd (execute_command command b)) = running b.
Proof.
  unfold execute_command. cbv zeta.
  destruct (PyStr.split (PyStr.strip command)) as [|p0 rest]; [reflexivity|].
  unfold try_except.
  pose proof (dispatch_state (PyStr.upper p0) (p0 :: rest) b) as H.
  destruct (dispatch (PyStr.upper p0) (p0 :: rest) b) as [[e|r] b'];
    cbn [snd] in *; unfold ret; cbn [snd];
    destruct H as [-> | [-> | (n & account & bal & ->)]];
    unfold created, credited; now rewrite ?running_saved.
Qed.

(** One response for each text read, in order. *)
Lemma client_loop_eq (texts : list string) : forall b,
  running b = true ->
  Forall (fun t => PyStr.strip t <> "") texts ->
  exists responses b',
    run_commands (map PyStr.strip texts) b = (inr responses, b') /\
    List.length responses = List.length texts /\
    client_loop (map Data texts) b
    = (inr (map (fun r => r ++ newline) responses), b').
Proof.
  induction texts as [|t texts IH]; intros b Hrun Hne.
  - exists [], b. cbn. rewrite Hrun. now repeat split.
  - inversion Hne as [|? ? Ht Hrest]; subst.
    destruct (execute_command_answers (PyStr.strip t) b) as (r & b1 & E).
    assert (Hrun1 : running b1 = true).
    { pose proof (running_execute (PyStr.strip t) b) as H.
      rewrite E in H. cbn [snd] in H. congruence. }
    destruct (IH b1 Hrun1 Hrest) as (rs & b' & E1 & L & E2).
    exists (r :: rs), b'. split; [|split].
    + cbn [map run_commands]. unfold bind, ret. now rewrite E, E1.
    + cbn. now rewrite L.
    + cbn [map client_loop]. rewrite Hrun. cbn [negb].
      destruct (PyStr.strip t) eqn:Es; [congruence|].
      rewrite E, E2. reflexivity.
Qed.

(** C8 as stated fails: two command lines that arrive in one read get
    one response, the one of the first; the second command is not run.
    A blank line ends the handler without any response.  So it is not
    true that, however the lines a client sends are cut into reads, the
    handler sends the response of each line. *)
Lemma C8_counterexample :
  (handle_client [Data ("BC" ++ newline ++ "AC" ++ newline)] sample_ledger
   = (inr [welcome "127.0.0.1"; "127.0.0.1" ++ newline], sample_ledger) /\
   fst (run_commands ["BC"; "AC"] sample_ledger)
   = inr ["127.0.0.1"; "10002/127.0.0.1"] /\
   handle_client [Data newline; Data ("BC" ++ newline)] sample_ledger
   = (inr [welcome "127.0.0.1"], sample_ledger))
  /\
  ~ (forall (lines reads : list string) (b : Bank),
       running b = true ->
       String.concat "" reads
       = String.concat "" (map (fun l => l ++ newline) lines) ->
       exists responses,
         fst (run_commands lines b) = inr responses /\
         fst (handle_client (map Data reads) b)
         = inr (welcome (ip_address b)
                  :: map (fun r => r ++ newline) responses)).
Proof.
  split; [repeat split; vm_compute; reflexivity|].
  intros H.
  destruct (H ["BC"; "AC"] ["BC" ++ newline ++ "AC" ++ newline] sample_ledger
              eq_refl eq_refl) as (rs & H1 & H2).
  assert (E : rs = ["127.0.0.1"; "10002/127.0.0.1"]).
  { assert (E1 : fst (run_commands ["BC"; "AC"] sample_ledger)
                 = inr ["127.0.0.1"; "10002/127.0.0.1"])
      by (vm_compute; reflexivity).
    rewrite E1 in H1. now injection H1 as <-. }
  subst rs.
  assert (E2 : fst (handle_client
                      (map Data ["BC" ++ newline ++ "AC" ++ newline])
                      sample_ledger)
               = inr [welcome "127.0.0.1"; "127.0.0.1" ++ newline])
    by (vm_compute; reflexivity).
  rewrite E2 in H2. discriminate H2.
Qed.

(** C8, as the code has it.  For every sequence of non-blank texts a
    running handler reads from the connection, it sends, after the
    welcome, exactly one response line per text read: [execute_command]
    applied to that text, followed by a newline. *)
Theorem C8_one_response_per_read (texts : list string) (b : Bank) :
  running b = true ->
  Forall (fun t => PyStr.strip t <> "") texts ->
  exists responses,
    fst (run_commands (map PyStr.strip texts) b) = inr responses /\
    List.length responses = List.length texts /\
    fst (handle_client (map Data texts) b)
    = inr (welcome (ip_address b) :: map (fun r => r ++ newline) responses).
Proof.
  intros Hrun Hne.
  destruct (client_loop_eq texts b Hrun Hne) as (rs & b' & E1 & L & E2).
  exists rs. rewrite E1. split; [reflexivity|]. split; [assumption|].
  unfold handle_client, bind, get, ret. now rewrite E2.
Qed.

Lemma C8_one_response_per_read_witness :
  exists responses,
    fst (run_commands (map PyStr.strip ["BC" ++ newline; "AC" ++ newline])
           sample_ledger) = inr responses /\
    List.length responses = 2%nat /\
    fst (handle_client (map Data ["BC" ++ newline; "AC" ++ newline]) sample_ledger)
    = inr (welcome (ip_address sample_ledger)
             :: map (fun r => r ++ newline) responses).
Proof.
  apply (C8_one_response_per_read ["BC" ++ newline; "AC" ++ newline] sample_ledger).
  - reflexivity.
  - repeat constructor; discriminate.
Defined.

(* ================================================================== *)
(** ** Construction of the ledger from the state file *)
(* ================================================================== *)

Lemma load_state_returns (b : Bank) : fst (_load_state b) = inr tt.
Proof.
  unfold _load_state, bind, get, try_except, ret.
  destruct (data_file b); [reflexivity | |];
    now destruct (load_body b) as [[e|[]] b'].
Qed.

(** C9 as stated fails: when the load fails at the second account, the
    first account and the counter of the file stay in the ledger.  So it
    is not true that every failed load leaves an empty ledger with the
    counter 10001. *)
Lemma C9_counterexample :
  (fst (load_body (blank "127.0.0.1" damaged_file true))
   = inl (DecimalException Dec.ConversionSyntax) /\
   fst (Bank_init "127.0.0.1" damaged_file true) = inr tt /\
   accounts (snd (Bank_init "127.0.0.1" damaged_file true))
   = [(1, {| number := 1; balance := Dec.Fin false 10 0 |})] /\
   next_account_number (snd (Bank_init "127.0.0.1" damaged_file true)) = 5)
  /\
  ~ (forall ip f w,
       (f = Absent \/ exists e, fst (load_body (blank ip f w)) = inl e) ->
       accounts (snd (Bank_init ip f w)) = [] /\
       next_account_number (snd (Bank_init ip f w)) = 10001).
Proof.
  split; [repeat split; vm_compute; reflexivity|].
  intros H.
  destruct (H "127.0.0.1" damaged_file true) as [_ E].
  - right. eexists. vm_compute. reflexivity.
  - vm_compute in E. discriminate E.
Qed.

Lemma load_state_json (b : Bank) (d : Doc) :
  data_file b = Json d ->
  _load_state b = try_except load_body (fun _ => ret tt) b.
Proof. intros H. unfold _load_state, bind, get. now rewrite H. Qed.

Lemma load_body_json (b : Bank) (d : Doc) (n : Z) (l : list AccRecord) :
  data_file b = Json d ->
  doc_next_account_number d = Some n ->
  doc_accounts d = Some l ->
  load_body b = load_accounts l (set_next_account_number n b).
Proof.
  intros H Hn Hl. unfold load_body, bind, get, expect, modify, ret.
  now rewrite H, Hn, Hl.
Qed.

Lemma from_dict_cases (r : AccRecord) (b : Bank) :
  match account_of_record r with
  | Some a => from_dict r b = (inr a, b)
  | None => exists e, from_dict r b = (inl e, b)
  end.
Proof.
  unfold account_of_record, from_dict, bind, expect, ret, raise.
  destruct (rec_number r) as [n|]; [|eauto].
  destruct (rec_balance r) as [s|]; [|eauto].
  destruct (Dec.of_string s) as [d|]; [reflexivity | eauto].
Qed.

Lemma set_accounts_same (b : Bank) : set_accounts (accounts b) b = b.
Proof. now destruct b. Qed.

(** The loop of the loader stops at the first record it cannot read
    and keeps what it has inserted. *)
Lemma load_accounts_state (l : list AccRecord) : forall b,
  snd (load_accounts l b) = set_accounts (loaded l (accounts b)) b.
Proof.
  induction l as [|r l IH]; intros b.
  - cbn. now rewrite set_accounts_same.
  - cbn [load_accounts loaded]. unfold bind at 1.
    pose proof (from_dict_cases r b) as H.
    destruct (account_of_record r) as [a|].
    + rewrite H. unfold bind at 1, modify at 1. rewrite IH. reflexivity.
    + destruct H as [e ->]. cbn. now rewrite set_accounts_same.
Qed.

(** Nothing is loaded when the load fails before the counter is read. *)
Lemma init_blank (ip : string) (f : File) (w : bool) :
  (f = Absent \/ f = Unreadable \/
   exists d, f = Json d /\ doc_next_account_number d = None) ->
  snd (Bank_init ip f w) = blank ip f w.
Proof.
  intros [-> | [-> | (d & -> & Hd)]]; try reflexivity.
  unfold Bank_init, _load_state, load_body, bind, get, try_except, expect.
  cbn [data_file blank]. now rewrite Hd.
Qed.

(** What is loaded from a document that has a counter. *)
Lemma init_json (ip : string) (d : Doc) (n : Z) (w : bool) :
  doc_next_account_number d = Some n ->
  next_account_number (snd (Bank_init ip (Json d) w)) = n /\
  accounts (snd (Bank_init ip (Json d) w))
  = match doc_accounts d with
    | Some l => loaded l []
    | None => []
    end.
Proof.
  intros Hn. unfold Bank_init.
  rewrite (load_state_json (blank ip (Json d) w) d eq_refl).
  unfold try_except.
  destruct (doc_accounts d) as [l|] eqn:Hl.
  - rewrite (load_body_json (blank ip (Json d) w) d n l eq_refl Hn Hl).
    pose proof (load_accounts_state l
                  (set_next_account_number n (blank ip (Json d) w))) as H.
    destruct (load_accounts l _) as [[e|[]] b']; cbn [snd] in *; subst b';
      split; reflexivity.
  - unfold load_body, bind, get, expect, modify, ret, raise.
    cbn [data_file blank]. rewrite Hn, Hl. split; reflexivity.
Qed.

(** C9, as the code has it.  Construction never crashes, whatever the
    state file holds.  When the file is absent, or cannot be read or
    parsed, or has no counter, the ledger is empty and the counter is
    10001.  Otherwise the ledger has the counter of the file, and the
    accounts of the records that come before the first the loader cannot
    read (all of them if it can read all, none if the file has no list of
    accounts). *)
Theorem C9_construction (ip : string) (f : File) (w : bool) :
  fst (Bank_init ip f w) = inr tt /\
  ((f = Absent \/ f = Unreadable \/
    exists d, f = Json d /\ doc_next_account_number d = None) ->
   accounts (snd (Bank_init ip f w)) = [] /\
   next_account_number (snd (Bank_init ip f w)) = 10001) /\
  (forall d n,
     f = Json d -> doc_next_account_number d = Some n ->
     next_account_number (snd (Bank_init ip f w)) = n /\
     accounts (snd (Bank_init ip f w))
     = match doc_accounts d with
       | Some l => loaded l []
       | None => []
       end).
Proof.
  split; [apply load_state_returns|]. split.
  - intros H. rewrite (init_blank ip f w H). split; reflexivity.
  - intros d n -> Hn. now apply init_json.
Qed.

Lemma C9_construction_witness :
  (fst (Bank_init "127.0.0.1" Unreadable true) = inr tt /\
   accounts (snd (Bank_init "127.0.0.1" Unreadable true)) = [] /\
   next_account_number (snd (Bank_init "127.0.0.1" Unreadable true)) = 10001) /\
  (next_account_number (snd (Bank_init "127.0.0.1" damaged_file true)) = 5 /\
   accounts (snd (Bank_init "127.0.0.1" damaged_file true))
   = loaded [ {| rec_number := Some 1; rec_balance := Some "10" |};
              {| rec_number := Some 2; rec_balance := Some "abc" |} ] []).
Proof.
  split.
  - destruct (C9_construction "127.0.0.1" Unreadable true) as (H1 & H2 & _).
    split; [exact H1 | exact (H2 (or_intror (or_introl eq_refl)))].
  - destruct (C9_construction "127.0.0.1" damaged_file true) as (_ & _ & H3).
    exact (H3 _ 5 eq_refl eq_refl).
Defined.

(* ================================================================== *)
(** ** Decimals and their text *)
(* ================================================================== *)

Module DecText.
Import PyStr PyStrFacts Dec.

Lemma span_digits_app (ds rest : string) :
  all_digits ds = true -> no_digit_head rest = true ->
  span_digits (ds ++ rest) = (ds, rest).
Proof.
  intros Hd Hr. induction ds as [|c ds IH]; cbn [append].
  - destruct rest as [|c r]; [reflexivity|]. cbn [span_digits].
    cbn in Hr. apply negb_true_iff in Hr. now rewrite Hr.
  - cbn [all_digits] in Hd. apply andb_prop in Hd as [Hc Hd].
    cbn [span_digits]. rewrite Hc, IH by assumption. reflexivity.
Qed.

Lemma span_digits_all (ds : string) :
  all_digits ds = true -> span_digits ds = (ds, "").
Proof.
  intros H. rewrite <- (app_empty_r ds) at 1. now apply span_digits_app.
Qed.

Lemma all_digits_zeros (k : nat) : all_digits (zeros k) = true.
Proof. induction k; [reflexivity | exact IHk]. Qed.

Lemma length_zeros (k : nat) : String.length (zeros k) = k.
Proof. induction k; cbn; congruence. Qed.

Lemma take_drop (n : nat) : forall s, take n s ++ drop n s = s.
Proof.
  induction n as [|n IH]; intros s; [reflexivity|].
  destruct s as [|c s]; [reflexivity|]. cbn. now rewrite IH.
Qed.

Lemma length_take (n : nat) : forall s,
  (n <= String.length s)%nat -> String.length (take n s) = n.
Proof.
  induction n as [|n IH]; intros s H; [reflexivity|].
  destruct s as [|c s]; cbn in *; [lia|]. rewrite IH; lia.
Qed.

Lemma length_drop (n : nat) : forall s,
  String.length (drop n s) = (String.length s - n)%nat.
Proof.
  induction n as [|n IH]; intros s; [cbn; lia|].
  destruct s as [|c s]; [reflexivity|]. cbn. apply IH.
Qed.

Lemma all_digits_take_drop (n : nat) (s : string) :
  all_digits s = true ->
  all_digits (take n s) = true /\ all_digits (drop n s) = true.
Proof.
  intros H. rewrite <- (take_drop n s), all_digits_app in H.
  now apply andb_prop in H.
Qed.

Lemma take_not_empty (n : nat) (s : string) :
  (0 < n)%nat -> s <> "" -> take n s <> "".
Proof. destruct n, s; cbn; intros; try lia; congruence. Qed.

Lemma value_zeros (k : nat) (s : string) : value (zeros k ++ s) = value s.
Proof. unfold value. induction k; [reflexivity | exact IHk]. Qed.

Lemma parse_exponent_fmt (z : Z) : parse_exponent (fmt_plus_d z) = Some z.
Proof.
  unfold parse_exponent, fmt_plus_d.
  destruct (Z.ltb_spec z 0) as [Hneg|Hpos].
  - destruct z as [|p|p]; try lia. cbn [str_of_Z take_sign].
    pose proof (str_of_N_not_empty (N.pos p)) as Hne.
    destruct (str_of_N (N.pos p)) as [|c r] eqn:E; [congruence|].
    rewrite <- E, all_digits_str_of_N, value_str_of_N. reflexivity.
  - change ("+" ++ str_of_Z z) with (String "+" (str_of_Z z)).
    cbn [take_sign].
    assert (E : str_of_Z z = str_of_N (Z.to_N z)) by (destruct z; [reflexivity.. | lia]).
    rewrite E.
    pose proof (str_of_N_not_empty (Z.to_N z)) as Hne.
    destruct (str_of_N (Z.to_N z)) as [|c r] eqn:E'; [congruence|].
    rewrite <- E', all_digits_str_of_N, value_str_of_N. f_equal. lia.
Qed.

(** The text of a numeral is read back as its digits and exponent. *)
Lemma parse_numeric_numeral (ip fp : string) (dot : bool) (ex : option Z) :
  all_digits ip = true -> ip <> "" -> all_digits fp = true ->
  (dot = false -> fp = "") ->
  parse_numeric (numeral ip fp dot ex)
  = Some (value (ip ++ fp),
          match ex with Some z => z | None => 0 end
          - Z.of_nat (String.length fp)).
Proof.
  intros Hi Hne Hf Hdot. unfold parse_numeric, numeral.
  set (exs := match ex with Some z => String "E" (fmt_plus_d z) | None => "" end).
  assert (Hexs : no_digit_head exs = true) by (unfold exs; now destruct ex).
  assert (Hrest : no_digit_head ((if dot then String "." fp else "") ++ exs) = true)
    by (destruct dot; [reflexivity | exact Hexs]).
  rewrite span_digits_app by assumption.
  assert (Hfrac : (match (if dot then String "." fp else "") ++ exs with
                   | String "." r => span_digits r
                   | _ => ("", (if dot then String "." fp else "") ++ exs)
                   end) = (fp, exs)).
  { destruct dot.
    - cbn [append]. now apply span_digits_app.
    - rewrite (Hdot eq_refl). cbn [append]. unfold exs. now destruct ex. }
  rewrite Hfrac. destruct ip as [|c ip]; [congruence|].
  unfold exs. destruct ex as [z|].
  - change (Ascii.eqb (upper_char "E") "E") with true. cbv iota.
    rewrite parse_exponent_fmt. reflexivity.
  - reflexivity.
Qed.

(** The text of a finite number is its sign and a numeral that denotes
    its coefficient and exponent. *)
Lemma to_string_fin (s : bool) (c : N) (e : Z) :
  exists ip fp dot ex,
    to_string (Fin s c e) = sign_str s ++ numeral ip fp dot ex /\
    all_digits ip = true /\ ip <> "" /\ all_digits fp = true /\
    (dot = false -> fp = "") /\
    value (ip ++ fp) = c /\
    match ex with Some z => z | None => 0 end - Z.of_nat (String.length fp) = e.
Proof.
  pose proof (all_digits_str_of_N c) as A.
  pose proof (str_of_N_not_empty c) as Ne.
  pose proof (value_str_of_N c) as V.
  pose proof (length_str_of_N_pos c) as Lp.
  unfold to_string.
  set (ds := str_of_N c) in *.
  set (L := Z.of_nat (String.length ds)).
  assert (HL : 1 <= L) by (unfold L; lia).
  destruct ((e <=? 0) && (-6 <? e + L)) eqn:C1.
  - apply andb_prop in C1 as [He Hl]. apply Z.leb_le in He.
    rewrite Z.eqb_refl.
    destruct (Z.leb_spec (e + L) 0) as [Hd|Hd].
    + exists "0", (zeros (Z.to_nat (- (e + L))) ++ ds), true, None.
      split; [reflexivity|]. split; [reflexivity|]. split; [discriminate|].
      split; [now rewrite all_digits_app, all_digits_zeros|].
      split; [discriminate|]. split.
      * change ("0" ++ zeros (Z.to_nat (- (e + L))) ++ ds)
          with (zeros (S (Z.to_nat (- (e + L)))) ++ ds).
        now rewrite value_zeros.
      * rewrite length_app, length_zeros. unfold L in *. lia.
    + destruct (Z.leb_spec L (e + L)) as [Hb|Hb].
      * exists ds, "", false, None.
        replace (e + L - L) with 0 by lia. cbn [Z.to_nat zeros].
        split; [unfold numeral; change ("" ++ "") with "";
                now rewrite !app_empty_r|].
        split; [assumption|].
        split; [assumption|]. split; [reflexivity|]. split; [reflexivity|].
        split; [now rewrite app_empty_r|]. cbn. lia.
      * destruct (all_digits_take_drop (Z.to_nat (e + L)) ds A) as [At Ad].
        exists (take (Z.to_nat (e + L)) ds), (drop (Z.to_nat (e + L)) ds), true, None.
        split; [reflexivity|]. split; [assumption|].
        split; [apply take_not_empty; [lia | assumption]|].
        split; [assumption|]. split; [discriminate|].
        split; [now rewrite take_drop|].
        rewrite length_drop. unfold L in *. lia.
  - assert (Hc : 0 < e \/ e + L <= -6).
    { apply andb_false_iff in C1 as [H|H];
        [apply Z.leb_gt in H | apply Z.ltb_ge in H]; lia. }
    change (1 <=? 0) with false. cbv iota.
    destruct (Z.leb_spec L 1) as [H1|H1].
    + assert (L = 1) by lia.
      assert (En : (e + L =? 1) = false) by (apply Z.eqb_neq; lia).
      rewrite En.
      exists ds, "", false, (Some (e + L - 1)).
      replace (1 - L) with 0 by lia. cbn [Z.to_nat zeros].
      split; [unfold numeral; cbn [append]; now rewrite !app_empty_r|].
      split; [assumption|]. split; [assumption|]. split; [reflexivity|].
      split; [reflexivity|]. split; [now rewrite app_empty_r|]. cbn. lia.
    + assert (En : (e + L =? 1) = false) by (apply Z.eqb_neq; lia).
      rewrite En.
      destruct (all_digits_take_drop (Z.to_nat 1) ds A) as [At Ad].
      exists (take (Z.to_nat 1) ds), (drop (Z.to_nat 1) ds), true, (Some (e + L - 1)).
      split; [reflexivity|]. split; [assumption|].
      split; [apply take_not_empty; [lia | assumption]|].
      split; [assumption|]. split; [discriminate|].
      split; [now rewrite take_drop|].
      rewrite length_drop. unfold L in *. lia.
Qed.

(** *** Reading back the text of a decimal *)

Lemma contains_app (c : ascii) (a b : string) :
  contains c (a ++ b) = contains c a || contains c b.
Proof.
  induction a as [|x a IH]; cbn; [reflexivity|]. now rewrite IH, orb_assoc.
Qed.

Lemma strip_no_space (s : string) : no_space s = true -> strip s = s.
Proof.
  intros H. unfold strip.
  assert (E : lstrip s = s).
  { destruct s as [|c r]; [reflexivity|]. cbn in H. apply andb_prop in H as [Hc _].
    apply negb_true_iff in Hc. now apply lstrip_head. }
  rewrite E. now apply rstrip_no_space.
Qed.

Lemma remove_underscores_none (s : string) :
  contains "_" s = false -> remove_underscores s = s.
Proof.
  induction s as [|c s IH]; cbn; [reflexivity|]. intros H.
  apply orb_false_iff in H as [Hc Hs]. rewrite Hc. now rewrite IH.
Qed.

Lemma clean (s : string) :
  no_space s = true -> contains "_" s = false ->
  remove_underscores (strip s) = s.
Proof.
  intros H1 H2. rewrite strip_no_space by assumption.
  now apply remove_underscores_none.
Qed.

Lemma digits_clean (ds : string) :
  all_digits ds = true -> no_space ds = true /\ contains "_" ds = false.
Proof.
  intros H. split; [now apply all_digits_no_space|].
  now apply all_digits_contains.
Qed.

Lemma fmt_plus_d_clean (z : Z) :
  no_space (fmt_plus_d z) = true /\ contains "_" (fmt_plus_d z) = false.
Proof.
  unfold fmt_plus_d. destruct (z <? 0).
  - destruct z as [|p|p]; cbn [str_of_Z]; try (apply digits_clean, all_digits_str_of_N).
    destruct (digits_clean _ (all_digits_str_of_N (N.pos p))) as [H1 H2].
    split.
    + change (no_space (String "-" (str_of_N (N.pos p))))
        with (no_space (str_of_N (N.pos p))). exact H1.
    + change (contains "_" (String "-" (str_of_N (N.pos p))))
        with (contains "_" (str_of_N (N.pos p))). exact H2.
  - assert (A : all_digits (str_of_Z z) = true \/ exists p, z = Z.neg p)
      by (destruct z; [left; reflexivity | left; apply all_digits_str_of_N
                       | right; eauto]).
    destruct A as [A | [p ->]].
    + destruct (digits_clean _ A) as [H1 H2]. split.
      * change (no_space ("+" ++ str_of_Z z)) with (no_space (str_of_Z z)).
        exact H1.
      * change (contains "_" ("+" ++ str_of_Z z))
          with (contains "_" (str_of_Z z)). exact H2.
    + destruct (digits_clean _ (all_digits_str_of_N (N.pos p))) as [H1 H2].
      split; [exact H1 | exact H2].
Qed.

Lemma numeral_clean (ip fp : string) (dot : bool) (ex : option Z) :
  all_digits ip = true -> all_digits fp = true ->
  no_space (numeral ip fp dot ex) = true /\
  contains "_" (numeral ip fp dot ex) = false.
Proof.
  intros Hi Hf. unfold numeral.
  destruct (digits_clean _ Hi) as [I1 I2].
  destruct (digits_clean _ Hf) as [F1 F2].
  rewrite !no_space_app, !contains_app, I1, I2. cbn [andb orb].
  assert (D : no_space (if dot then String "." fp else "") = true /\
              contains "_" (if dot then String "." fp else "") = false).
  { destruct dot; [|now split]. split.
    - change (no_space (String "." fp)) with (no_space fp). exact F1.
    - change (contains "_" (String "." fp)) with (contains "_" fp). exact F2. }
  destruct D as [D1 D2]. rewrite D1, D2. cbn [andb orb].
  destruct ex as [z|]; [|now split].
  destruct (fmt_plus_d_clean z) as [E1 E2]. split.
  - change (no_space (String "E" (fmt_plus_d z))) with (no_space (fmt_plus_d z)).
    exact E1.
  - change (contains "_" (String "E" (fmt_plus_d z)))
      with (contains "_" (fmt_plus_d z)). exact E2.
Qed.

Lemma sign_clean (sg : bool) (s : string) :
  no_space s = true -> contains "_" s = false ->
  no_space (sign_str sg ++ s) = true /\ contains "_" (sign_str sg ++ s) = false.
Proof. intros H1 H2. destruct sg; now split. Qed.

Lemma take_sign_sign_str (sg : bool) (c : ascii) (r : string) :
  Ascii.eqb c "-" = false -> Ascii.eqb c "+" = false ->
  take_sign (sign_str sg ++ String c r) = (sg, String c r).
Proof.
  intros H1 H2. destruct sg; [reflexivity|]. now apply take_sign_other.
Qed.

Lemma parse_literal_fin (s : bool) (c : N) (e : Z) :
  parse_literal (to_string (Fin s c e)) = Some (Fin s c e).
Proof.
  destruct (to_string_fin s c e)
    as (ip & fp & dot & ex & -> & Hi & Hne & Hf & Hdot & Hv & He).
  destruct (numeral_clean ip fp dot ex Hi Hf) as [N1 N2].
  destruct (sign_clean s _ N1 N2) as [S1 S2].
  unfold parse_literal. rewrite clean by assumption.
  pose proof (parse_numeric_numeral ip fp dot ex Hi Hne Hf Hdot) as P.
  destruct ip as [|x ip]; [congruence|].
  cbn [all_digits] in Hi. apply andb_prop in Hi as [Hx _].
  change (numeral (String x ip) fp dot ex)
    with (String x (numeral ip fp dot ex)) in *.
  rewrite take_sign_sign_str by (now apply is_digit_not).
  rewrite P, Hv, He. reflexivity.
Qed.

Lemma upper_app (a b : string) : upper (a ++ b) = upper a ++ upper b.
Proof. induction a as [|c a IH]; cbn; [reflexivity | now rewrite IH]. Qed.

Lemma upper_digits (ds : string) : all_digits ds = true -> upper ds = ds.
Proof.
  induction ds as [|c ds IH]; [reflexivity|]. cbn [all_digits upper].
  intros H. apply andb_prop in H as [Hc Hd]. rewrite IH by assumption.
  f_equal. unfold upper_char. unfold is_digit in Hc.
  apply andb_prop in Hc as [_ Hc]. apply Nat.leb_le in Hc.
  destruct (Nat.leb_spec 97 (nat_of_ascii c)); [lia | reflexivity].
Qed.

Lemma parse_numeric_letter (c : ascii) (r : string) :
  is_digit c = false -> Ascii.eqb c "." = false ->
  parse_numeric (String c r) = None.
Proof.
  intros Hd Hp. unfold parse_numeric. cbn [span_digits]. rewrite Hd.
  destruct c as [[] [] [] [] [] [] [] []]; try reflexivity; discriminate.
Qed.

Lemma parse_literal_nan (sg sig : bool) (ds : string) :
  all_digits ds = true ->
  parse_literal (sign_str sg ++ (if sig then "sNaN" else "NaN") ++ ds)
  = Some (NaN sg sig (value ds)).
Proof.
  intros Hd. destruct (digits_clean _ Hd) as [D1 D2].
  pose proof (upper_digits _ Hd) as U.
  unfold parse_literal.
  destruct sig.
  - rewrite clean; [| destruct sg; exact D1 | destruct sg; exact D2].
    change ("sNaN" ++ ds) with (String "s" ("NaN" ++ ds)).
    rewrite take_sign_sign_str by reflexivity.
    rewrite parse_numeric_letter by reflexivity.
    unfold parse_special.
    change (upper (String "s" ("NaN" ++ ds))) with ("SNAN" ++ upper ds).
    rewrite U.
    change (String.eqb ("SNAN" ++ ds) "INF") with false.
    change (String.eqb ("SNAN" ++ ds) "INFINITY") with false.
    change (starts_with "NAN" ("SNAN" ++ ds)) with false.
    change (starts_with "SNAN" ("SNAN" ++ ds)) with true.
    change (drop 4 ("SNAN" ++ ds)) with ds.
    cbn [orb]. now rewrite Hd.
  - rewrite clean; [| destruct sg; exact D1 | destruct sg; exact D2].
    change ("NaN" ++ ds) with (String "N" ("aN" ++ ds)).
    rewrite take_sign_sign_str by reflexivity.
    rewrite parse_numeric_letter by reflexivity.
    unfold parse_special.
    change (upper (String "N" ("aN" ++ ds))) with ("NAN" ++ upper ds).
    rewrite U.
    change (String.eqb ("NAN" ++ ds) "INF") with false.
    change (String.eqb ("NAN" ++ ds) "INFINITY") with false.
    change (starts_with "NAN" ("NAN" ++ ds)) with true.
    change (drop 3 ("NAN" ++ ds)) with ds.
    cbn [orb]. now rewrite Hd.
Qed.

(** The text of a decimal denotes it, digit for digit. *)
Lemma parse_literal_to_string (d : Decimal) :
  parse_literal (to_string d) = Some d.
Proof.
  destruct d as [s c e | s | s sig p].
  - apply parse_literal_fin.
  - now destruct s.
  - unfold to_string. destruct (N.eqb_spec p 0) as [->|Hp].
    + now rewrite (parse_literal_nan s sig "" eq_refl).
    + rewrite (parse_literal_nan s sig (str_of_N p)) by apply all_digits_str_of_N.
      now rewrite value_str_of_N.
Qed.

(** [Decimal(str(d)) == d] for every decimal the interpreter holds. *)
Theorem of_string_to_string (d : Decimal) :
  representable d = true -> of_string (to_string d) = Some d.
Proof.
  intros H. unfold of_string. now rewrite parse_literal_to_string, H.
Qed.

Lemma of_string_representable (s : string) (d : Decimal) :
  of_string s = Some d -> representable d = true.
Proof.
  unfold of_string. destruct (parse_literal s) as [d'|]; [|discriminate].
  destruct (representable d') eqn:E; [|discriminate]. now intros [= <-].
Qed.

End DecText.

(* ================================================================== *)
(** ** Saving the ledger and loading it again *)
(* ================================================================== *)

Lemma from_dict_to_dict (a : Account) (b : Bank) :
  Dec.representable (balance a) = true ->
  from_dict (to_dict a) b = (inr a, b).
Proof.
  intros H. unfold from_dict, to_dict, bind, expect, ret.
  cbn [rec_number rec_balance].
  rewrite DecText.of_string_to_string by assumption. now destruct a.
Qed.

Lemma dict_get_absent {V} (k : Z) (d : dict V) :
  ~ In k (dict_keys d) -> dict_get k d = None.
Proof.
  induction d as [|[k' v] d IH]; cbn; [reflexivity|]. intros H.
  destruct (Z.eqb_spec k' k); [tauto|]. apply IH. tauto.
Qed.

(** Loading what was saved appends the saved accounts, in order, when
    their keys are their numbers and are new. *)
Lemma load_saved_accounts (d : dict Account) : forall acc0 b,
  Forall (fun p => number (snd p) = fst p) d ->
  Forall (fun p => Dec.representable (balance (snd p)) = true) d ->
  NoDup (dict_keys acc0 ++ dict_keys d) ->
  load_accounts (map to_dict (dict_values d)) (set_accounts acc0 b)
  = (inr tt, set_accounts (acc0 ++ d)%list b).
Proof.
  induction d as [|[k a] d IH]; intros acc0 b Hk Hr Hn.
  - cbn. now rewrite app_nil_r.
  - inversion Hk as [|? ? Hka Hk']. inversion Hr as [|? ? Hra Hr']. subst.
    cbn [fst snd] in Hka, Hra.
    cbn [dict_values map load_accounts]. unfold bind at 1.
    cbn [snd]. rewrite from_dict_to_dict by assumption.
    unfold bind at 1, modify at 1. cbn [accounts set_accounts].
    assert (Hfresh : ~ In k (dict_keys acc0)).
    { cbn in Hn. apply NoDup_remove_2 in Hn. rewrite in_app_iff in Hn. tauto. }
    rewrite Hka, (dict_set_absent _ _ _ (dict_get_absent _ _ Hfresh)).
    change (set_accounts (acc0 ++ [(k, a)])%list (set_accounts acc0 b))
      with (set_accounts (acc0 ++ [(k, a)])%list b).
    change (map to_dict (map snd d)) with (map to_dict (dict_values d)).
    rewrite IH; [now rewrite <- app_assoc | assumption | assumption |].
    unfold dict_keys in *. rewrite map_app, <- app_assoc. exact Hn.
Qed.

(** C7. Saving a ledger and loading the record written into a fresh
    ledger gives back the same accounts, in the same order, with the
    same numbers and the same balances digit for digit, and the same
    counter. *)
Theorem C7_persistence_round_trip (b : Bank) (ip : string) (w : bool) :
  well_formed (accounts b) ->
  writable b = true ->
  let file := data_file (snd (_save_state b)) in
  let b' := snd (Bank_init ip file w) in
  accounts b' = accounts b /\
  map (fun p => (number (snd p), balance (snd p))) (accounts b')
  = map (fun p => (number (snd p), balance (snd p))) (accounts b) /\
  next_account_number b' = next_account_number b.
Proof.
  intros [[Hk Hn] Hr] Hw. cbv zeta.
  rewrite save_state_eq. unfold saved. rewrite Hw.
  cbn [snd data_file set_data_file].
  assert (E : snd (Bank_init ip (Json (snapshot b)) w)
              = set_accounts (accounts b)
                  (set_next_account_number (next_account_number b)
                     (blank ip (Json (snapshot b)) w))).
  { unfold Bank_init.
    rewrite (load_state_json (blank ip (Json (snapshot b)) w)
               (snapshot b) eq_refl).
    unfold try_except.
    rewrite (load_body_json (blank ip (Json (snapshot b)) w)
               (snapshot b) (next_account_number b)
               (map to_dict (dict_values (accounts b))) eq_refl eq_refl eq_refl).
    pose proof (load_saved_accounts (accounts b) []
                  (set_next_account_number (next_account_number b)
                     (blank ip (Json (snapshot b)) w)) Hk Hr Hn) as L.
    change (set_accounts []
              (set_next_account_number (next_account_number b)
                 (blank ip (Json (snapshot b)) w)))
      with (set_next_account_number (next_account_number b)
              (blank ip (Json (snapshot b)) w)) in L.
    rewrite L. reflexivity. }
  rewrite E. repeat split.
Qed.

Lemma C7_persistence_round_trip_witness :
  well_formed (accounts sample_ledger) /\
  writable sample_ledger = true /\
  accounts (snd (Bank_init "10.0.0.7"
                   (data_file (snd (_save_state sample_ledger))) false))
  = accounts sample_ledger /\
  next_account_number
    (snd (Bank_init "10.0.0.7"
            (data_file (snd (_save_state sample_ledger))) false))
  = next_account_number sample_ledger.
Proof.
  assert (K : well_formed (accounts sample_ledger)).
  { split; [split|].
    - repeat constructor.
    - repeat constructor. intros [].
    - repeat constructor.
  }
  split; [exact K|]. split; [reflexivity|].
  destruct (C7_persistence_round_trip sample_ledger "10.0.0.7" false K eq_refl)
    as (H1 & _ & H3).
  split; [exact H1 | exact H3].
Defined.

(** The hypothesis of C7 holds of every ledger the program builds: the
    loader and the operations file each account under its number, and
    every balance comes from [Decimal(...)] or from the arithmetic. *)
Lemma well_formed_nil : well_formed [].
Proof. split; [split|]; constructor. Qed.

Lemma well_formed_set (d : dict Account) (k : Z) (a : Account) :
  well_formed d -> number a = k -> Dec.representable (balance a) = true ->
  well_formed (dict_set k a d).
Proof.
  intros [[Hk Hn] Hr] Hnum Hrep. split; [split|].
  - now apply Forall_dict_set.
  - now apply NoDup_dict_set.
  - now apply Forall_dict_set.
Qed.

Lemma well_formed_loaded (l : list AccRecord) : forall d,
  well_formed d -> well_formed (loaded l d).
Proof.
  induction l as [|r l IH]; intros d H; [exact H|].
  cbn [loaded]. destruct (account_of_record r) as [a|] eqn:E; [|exact H].
  apply IH. apply well_formed_set; [assumption | reflexivity|].
  revert E. unfold account_of_record.
  destruct (rec_number r); [|discriminate].
  destruct (rec_balance r) as [s|]; [|discriminate].
  destruct (Dec.of_string s) as [x|] eqn:Es; [|discriminate].
  intros [= <-]. cbn [balance]. exact (DecText.of_string_representable _ _ Es).
Qed.

Lemma well_formed_init (ip : string) (f : File) (w : bool) :
  well_formed (accounts (snd (Bank_init ip f w))).
Proof.
  destruct f as [| |d]; try apply well_formed_nil.
  destruct (doc_next_account_number d) as [n|] eqn:Hn.
  - destruct (init_json ip d n w Hn) as [_ ->].
    destruct (doc_accounts d); [|apply well_formed_nil].
    apply well_formed_loaded, well_formed_nil.
  - rewrite (init_blank ip (Json d) w); [apply well_formed_nil|].
    right; right; eauto.
Qed.

Lemma well_formed_step (o : Op) (b : Bank) :
  well_formed (accounts b) -> well_formed (accounts (step o b)).
Proof.
  apply (step_preserves (fun b => well_formed (accounts b))).
  - intros b0 H. unfold created. rewrite accounts_saved.
    cbn [accounts set_accounts]. now apply well_formed_set.
  - intros b0 n account amount bal H Hg _ Ha.
    unfold credited. rewrite accounts_saved. cbn [accounts set_accounts].
    apply well_formed_set; [assumption | | exact (DecFacts.add_representable _ _ _ Ha)].
    destruct H as [[Hk _] _].
    exact (proj1 (Forall_forall _ _) Hk _ (dict_get_In _ _ _ Hg)).
  - intros b0 n account amount bal H Hg _ _ Hs.
    unfold credited. rewrite accounts_saved. cbn [accounts set_accounts].
    apply well_formed_set; [assumption | | exact (DecFacts.sub_representable _ _ _ Hs)].
    destruct H as [[Hk _] _].
    exact (proj1 (Forall_forall _ _) Hk _ (dict_get_In _ _ _ Hg)).
Qed.

(* ================================================================== *)
(** * Further properties of the program *)
(* ================================================================== *)

(* ================================================================== *)
(** ** The state file follows the ledger *)
(* ================================================================== *)

(** Handling a command does to the ledger what one of the five
    operations does. *)
Lemma execute_step (command : string) (b : Bank) :
  exists o, snd (execute_command command b) = step o b.
Proof.
  unfold execute_command. cbv zeta.
  destruct (PyStr.split (PyStr.strip command)) as [|p0 rest];
    [exists OpBankCode; reflexivity|].
  assert (D : exists o, snd (dispatch (PyStr.upper p0) (p0 :: rest) b) = step o b).
  { unfold dispatch.
    destruct (String.eqb (PyStr.upper p0) "BC"); [exists OpBankCode; reflexivity|].
    destruct (String.eqb (PyStr.upper p0) "AC"); [exists OpCreate; reflexivity|].
    destruct (String.eqb (PyStr.upper p0) "AD").
    { destruct rest as [|a [|m [|x l]]]; try (exists OpBankCode; reflexivity).
      exists (OpDeposit a m). reflexivity. }
    destruct (String.eqb (PyStr.upper p0) "AW").
    { destruct rest as [|a [|m [|x l]]]; try (exists OpBankCode; reflexivity).
      exists (OpWithdraw a m). reflexivity. }
    destruct (String.eqb (PyStr.upper p0) "AB"); [|exists OpBankCode; reflexivity].
    destruct rest as [|a [|x l]]; try (exists OpBankCode; reflexivity).
    exists (OpBalance a). reflexivity. }
  destruct D as [o D]. exists o. rewrite <- D. unfold try_except.
  now destruct (dispatch (PyStr.upper p0) (p0 :: rest) b) as [[e|r] b'].
Qed.

(** A property every operation keeps is kept by a whole session. *)
Lemma run_commands_inv (P : Bank -> Prop) :
  (forall o b, P b -> P (step o b)) ->
  forall l b, P b -> P (snd (run_commands l b)).
Proof.
  intros Hs l. induction l as [|c l IH]; intros b HP; [exact HP|].
  cbn [run_commands]. unfold bind, ret.
  destruct (execute_step c b) as [o Ho].
  destruct (execute_command_answers c b) as (r & b1 & E).
  rewrite E in *. cbn [snd] in Ho. subst b1.
  specialize (IH (step o b) (Hs o b HP)).
  destruct (run_commands l (step o b)) as [[e|rs] b2]; exact IH.
Qed.

Lemma writable_saved (b : Bank) : writable (saved b) = writable b.
Proof. unfold saved. destruct (writable b) eqn:E; [exact E | exact E]. Qed.

Lemma snapshot_saved (b : Bank) : snapshot (saved b) = snapshot b.
Proof. unfold snapshot. now rewrite accounts_saved, next_saved. Qed.

Lemma saved_on_disk (b : Bank) :
  writable b = true -> data_file (saved b) = Json (snapshot (saved b)).
Proof. intros H. rewrite snapshot_saved. unfold saved. now rewrite H. Qed.

(** An operation leaves the object as it was, or leaves it saved. *)
Lemma step_saved (o : Op) (b : Bank) :
  step o b = b \/ exists b0, step o b = saved b0 /\ writable b0 = writable b.
Proof.
  unfold step. destruct o; cbn [run_op].
  - now left.
  - rewrite account_create_eq. right. eexists. split; [reflexivity|reflexivity].
  - destruct (deposit_outcome account_full amount_str b)
      as [[e ->] | (n & account & amount & bal & r & _ & _ & _ & _ & ->)];
      [now left | right; eexists; split; reflexivity].
  - destruct (withdrawal_outcome account_full amount_str b)
      as [[e ->] | (n & account & amount & bal & r & _ & _ & _ & _ & _ & ->)];
      [now left | right; eexists; split; reflexivity].
  - left. apply balance_state.
Qed.

Lemma writable_step (o : Op) (b : Bank) : writable (step o b) = writable b.
Proof.
  destruct (step_saved o b) as [-> | (b0 & -> & H)]; [reflexivity|].
  now rewrite writable_saved.
Qed.

(** Loading the record written for a well-formed ledger. *)
Lemma init_snapshot (b : Bank) (ip : string) (w : bool) :
  well_formed (accounts b) ->
  accounts (snd (Bank_init ip (Json (snapshot b)) w)) = accounts b /\
  next_account_number (snd (Bank_init ip (Json (snapshot b)) w))
  = next_account_number b.
Proof.
  intros [[Hk Hn] Hr].
  destruct (init_json ip (snapshot b) (next_account_number b) w eq_refl)
    as [E1 E2].
  split; [|exact E1]. rewrite E2. cbn [doc_accounts snapshot].
  pose proof (load_saved_accounts (accounts b) [] (blank ip Absent w) Hk Hr Hn)
    as L.
  pose proof (load_accounts_state (map to_dict (dict_values (accounts b)))
                (set_accounts [] (blank ip Absent w))) as S.
  rewrite L in S. cbn [snd accounts set_accounts app] in S.
  injection S as S. symmetry. exact S.
Qed.

Lemma on_disk_step (o : Op) (b : Bank) :
  writable b = true -> on_disk b -> on_disk (step o b).
Proof.
  intros Hw Hd. destruct (step_saved o b) as [-> | (b0 & -> & H)];
    [exact Hd|].
  left. apply saved_on_disk. congruence.
Qed.

(** X1 ([Account.to_dict], [Account.from_dict]). Reading back the record
    written for an account gives the account again, number and balance
    digit for digit, whatever decimal the balance is. *)
Theorem account_record_round_trip (a : Account) (b : Bank) :
  Dec.representable (balance a) = true ->
  from_dict (to_dict a) b = (inr a, b) /\
  account_of_record (to_dict a) = Some a.
Proof.
  intros H. pose proof (from_dict_to_dict a b H) as E. split; [exact E|].
  pose proof (from_dict_cases (to_dict a) b) as C.
  destruct (account_of_record (to_dict a)) as [a'|].
  - rewrite E in C. now injection C as <-.
  - destruct C as [e C]. rewrite E in C. discriminate C.
Qed.

Lemma account_record_round_trip_witness :
  let a := {| number := 10001; balance := Dec.Fin false 12345 (-2) |} in
  Dec.representable (balance a) = true /\
  to_dict a = {| rec_number := Some 10001; rec_balance := Some "123.45" |} /\
  from_dict (to_dict a) sample_ledger = (inr a, sample_ledger).
Proof.
  cbv zeta. split; [reflexivity|]. split; [reflexivity|].
  exact (proj1 (account_record_round_trip
                  {| number := 10001; balance := Dec.Fin false 12345 (-2) |}
                  sample_ledger eq_refl)).
Defined.

(** X2 ([execute_command], [_save_state]). Whenever handling a command
    changes anything of the object, and the state file can be written, the
    file holds the record of the ledger as the command left it: no change
    of the ledger is answered before it is written. *)
Theorem changes_are_saved (command : string) (b : Bank) :
  writable b = true ->
  snd (execute_command command b) <> b ->
  data_file (snd (execute_command command b))
  = Json (snapshot (snd (execute_command command b))).
Proof.
  intros Hw Hne. destruct (execute_step command b) as [o Ho].
  rewrite Ho in *.
  destruct (step_saved o b) as [E | (b0 & -> & H)]; [congruence|].
  apply saved_on_disk. congruence.
Qed.

Lemma changes_are_saved_witness :
  data_file (snd (execute_command "AW 10001/127.0.0.1 40" sample_ledger))
  = Json {| doc_next_account_number := Some 10002;
            doc_accounts :=
              Some [ {| rec_number := Some 10001; rec_balance := Some "60" |} ] |}.
Proof.
  assert (Hne : snd (execute_command "AW 10001/127.0.0.1 40" sample_ledger)
                <> sample_ledger)
    by (vm_compute; discriminate).
  rewrite (changes_are_saved "AW 10001/127.0.0.1 40" sample_ledger eq_refl Hne).
  vm_compute. reflexivity.
Defined.

(** X3 ([Bank.__init__], [_load_state], [_save_state], [execute_command]).
    A bank whose state file holds its ledger, and can be written, may be
    stopped after any session of commands: a new bank built on the file
    has the same accounts, in the same order, and the same counter. *)
Theorem restart_recovers (commands : list string) (b : Bank) (ip : string)
    (w : bool) :
  writable b = true ->
  well_formed (accounts b) ->
  on_disk b ->
  let b' := snd (run_commands commands b) in
  accounts (snd (Bank_init ip (data_file b') w)) = accounts b' /\
  next_account_number (snd (Bank_init ip (data_file b') w))
  = next_account_number b'.
Proof.
  intros Hw Hf Hd. cbv zeta.
  assert (I : let b' := snd (run_commands commands b) in
              writable b' = true /\ well_formed (accounts b') /\ on_disk b').
  { apply (run_commands_inv
             (fun x => writable x = true /\ well_formed (accounts x) /\ on_disk x));
      [|split; [|split]; assumption].
    intros o x (H1 & H2 & H3). split; [|split].
    - now rewrite writable_step.
    - now apply well_formed_step.
    - now apply on_disk_step. }
  cbv zeta in I. destruct I as (_ & Hf' & [E | (E & Ha & Hn)]).
  - rewrite E. now apply init_snapshot.
  - rewrite E, Ha, Hn. split; reflexivity.
Qed.

Lemma restart_recovers_witness :
  let b := snd (Bank_init "127.0.0.1" Absent true) in
  let b' := snd (run_commands ["AC"; "AD 10001/127.0.0.1 2.50"; "AC"] b) in
  accounts b'
  = [(10001, {| number := 10001; balance := Dec.Fin false 250 (-2) |});
     (10002, {| number := 10002; balance := Dec.Fin false 0 0 |})] /\
  accounts (snd (Bank_init "10.0.0.7" (data_file b') false)) = accounts b' /\
  next_account_number (snd (Bank_init "10.0.0.7" (data_file b') false))
  = next_account_number b'.
Proof.
  cbv zeta. split; [vm_compute; reflexivity|].
  apply (restart_recovers ["AC"; "AD 10001/127.0.0.1 2.50"; "AC"]
           (snd (Bank_init "127.0.0.1" Absent true)) "10.0.0.7" false).
  - reflexivity.
  - apply well_formed_init.
  - right. repeat split.
Defined.





(* ================================================================== *)
(** ** The answers do not depend on the state file *)
(* ================================================================== *)

Lemma same_ledger_saved (b1 b2 : Bank) :
  same_ledger b1 b2 -> same_ledger (saved b1) (saved b2).
Proof.
  unfold same_ledger. now rewrite !accounts_saved, !next_saved, !ip_address_saved.
Qed.

Lemma same_ledger_set (b1 b2 : Bank) (d : dict Account) :
  same_ledger b1 b2 ->
  same_ledger (saved (set_accounts d b1)) (saved (set_accounts d b2)).
Proof.
  intros (Ha & Hn & Hi). apply same_ledger_saved.
  unfold same_ledger. cbn [accounts next_account_number ip_address set_accounts].
  now rewrite Hn, Hi.
Qed.

Ltac same_done H :=
  split; [reflexivity | exact H].

Lemma deposit_same (a m : string) (b1 b2 : Bank) :
  same_ledger b1 b2 ->
  fst (account_deposit a m b1) = fst (account_deposit a m b2) /\
  same_ledger (snd (account_deposit a m b1)) (snd (account_deposit a m b2)).
Proof.
  intros H. pose proof H as (Ha & Hn & Hi).
  unfold account_deposit, try_except, deposit_body, bind, get, ret, raise,
    unpack2, int, Decimal_of_str, expect, trap, set_balance, modify, reraise.
  destruct (PyStr.contains "/" a); cbn; [|same_done H].
  destruct (PyStr.split_on "/" a) as [|x [|y [|z l]]]; cbn; try same_done H.
  destruct (PyStr.py_int x) as [n|]; cbn; [|same_done H].
  destruct (Dec.of_string m) as [amount|]; cbn; [|same_done H].
  rewrite Hi.
  destruct (String.eqb y (ip_address b2)); cbn; [|same_done H].
  destruct (Dec.le_zero amount) as [sg|[|]]; cbn; try same_done H.
  rewrite Ha.
  destruct (dict_get n (accounts b2)) as [account|]; cbn; [|same_done H].
  destruct (Dec.add (balance account) amount) as [sg|bal]; cbn;
    [same_done H|].
  rewrite !save_state_eq. cbn [fst snd]. split; [reflexivity|].
  rewrite ?Ha. now apply same_ledger_set.
Qed.

Lemma withdrawal_same (a m : string) (b1 b2 : Bank) :
  same_ledger b1 b2 ->
  fst (account_withdrawal a m b1) = fst (account_withdrawal a m b2) /\
  same_ledger (snd (account_withdrawal a m b1))
              (snd (account_withdrawal a m b2)).
Proof.
  intros H. pose proof H as (Ha & Hn & Hi).
  unfold account_withdrawal, try_except, withdrawal_body, bind, get, ret, raise,
    unpack2, int, Decimal_of_str, expect, trap, set_balance, modify, reraise.
  destruct (PyStr.contains "/" a); cbn; [|same_done H].
  destruct (PyStr.split_on "/" a) as [|x [|y [|z l]]]; cbn; try same_done H.
  destruct (PyStr.py_int x) as [n|]; cbn; [|same_done H].
  destruct (Dec.of_string m) as [amount|]; cbn; [|same_done H].
  rewrite Hi.
  destruct (String.eqb y (ip_address b2)); cbn; [|same_done H].
  destruct (Dec.le_zero amount) as [sg|[|]]; cbn; try same_done H.
  rewrite Ha.
  destruct (dict_get n (accounts b2)) as [account|]; cbn; [|same_done H].
  destruct (Dec.lt (balance account) amount) as [sg|[|]]; cbn;
    try same_done H.
  destruct (Dec.sub (balance account) amount) as [sg|bal]; cbn;
    [same_done H|].
  rewrite !save_state_eq. cbn [fst snd]. split; [reflexivity|].
  rewrite ?Ha. now apply same_ledger_set.
Qed.

Lemma balance_same (a : string) (b1 b2 : Bank) :
  same_ledger b1 b2 ->
  fst (account_balance a b1) = fst (account_balance a b2) /\
  same_ledger (snd (account_balance a b1)) (snd (account_balance a b2)).
Proof.
  intros H. pose proof H as (Ha & Hn & Hi).
  rewrite !balance_state. split; [|exact H].
  unfold account_balance, try_except, balance_body, bind, get, ret, raise,
    unpack2, int, expect, reraise.
  destruct (PyStr.contains "/" a); cbn; [|reflexivity].
  destruct (PyStr.split_on "/" a) as [|x [|y [|z l]]]; cbn; try reflexivity.
  destruct (PyStr.py_int x) as [n|]; cbn; [|reflexivity].
  rewrite Hi, Ha.
  destruct (String.eqb y (ip_address b2)); cbn; [|reflexivity].
  now destruct (dict_get n (accounts b2)).
Qed.

Lemma create_same (b1 b2 : Bank) :
  same_ledger b1 b2 ->
  fst (account_create b1) = fst (account_create b2) /\
  same_ledger (snd (account_create b1)) (snd (account_create b2)).
Proof.
  intros H. pose proof H as (Ha & Hn & Hi).
  rewrite !account_create_eq. cbn [fst snd]. split; [now rewrite Hn, Hi|].
  unfold created. apply same_ledger_saved. unfold same_ledger.
  cbn [accounts next_account_number ip_address set_accounts
       set_next_account_number].
  now rewrite Ha, Hn, Hi.
Qed.

Lemma dispatch_same (cmd : string) (parts : list string) (b1 b2 : Bank) :
  same_ledger b1 b2 ->
  fst (dispatch cmd parts b1) = fst (dispatch cmd parts b2) /\
  same_ledger (snd (dispatch cmd parts b1)) (snd (dispatch cmd parts b2)).
Proof.
  intros H. pose proof H as (Ha & Hn & Hi). unfold dispatch.
  destruct (String.eqb cmd "BC").
  { unfold bank_code, bind, get, ret. cbn. now rewrite Hi. }
  destruct (String.eqb cmd "AC"); [now apply create_same|].
  destruct (String.eqb cmd "AD").
  { destruct parts as [|p0 [|a [|m [|x l]]]]; try same_done H.
    now apply deposit_same. }
  destruct (String.eqb cmd "AW").
  { destruct parts as [|p0 [|a [|m [|x l]]]]; try same_done H.
    now apply withdrawal_same. }
  destruct (String.eqb cmd "AB"); [|same_done H].
  destruct parts as [|p0 [|a [|x l]]]; try same_done H.
  now apply balance_same.
Qed.

Lemma execute_same (command : string) (b1 b2 : Bank) :
  same_ledger b1 b2 ->
  fst (execute_command command b1) = fst (execute_command command b2) /\
  same_ledger (snd (execute_command command b1))
              (snd (execute_command command b2)).
Proof.
  intros H. unfold execute_command. cbv zeta.
  destruct (PyStr.split (PyStr.strip command)) as [|p0 rest]; [same_done H|].
  unfold try_except.
  destruct (dispatch_same (PyStr.upper p0) (p0 :: rest) b1 b2 H) as [E S].
  destruct (dispatch (PyStr.upper p0) (p0 :: rest) b1) as [[e1|r1] x1];
    destruct (dispatch (PyStr.upper p0) (p0 :: rest) b2) as [[e2|r2] x2];
    cbn [fst snd] in *; try discriminate E; injection E as <-;
    split; [reflexivity | exact S | reflexivity | exact S].
Qed.

(** X5 ([execute_command], [_save_state]). The answers to a session of
    commands depend on the ledger alone: not on what the state file holds,
    nor on whether it can be written. A save that fails is not reported:
    every command is answered as if it had been saved. *)
Theorem answers_ignore_state_file (commands : list string) (b1 b2 : Bank) :
  same_ledger b1 b2 ->
  fst (run_commands commands b1) = fst (run_commands commands b2) /\
  same_ledger (snd (run_commands commands b1)) (snd (run_commands commands b2)).
Proof.
  revert b1 b2. induction commands as [|c l IH]; intros b1 b2 H; [same_done H|].
  cbn [run_commands]. unfold bind, ret.
  destruct (execute_same c b1 b2 H) as [E S].
  destruct (execute_command c b1) as [[e1|r1] x1];
    destruct (execute_command c b2) as [[e2|r2] x2];
    cbn [fst snd] in *; try discriminate E; injection E as <-;
    [split; [reflexivity | exact S]|].
  destruct (IH x1 x2 S) as [E' S'].
  destruct (run_commands l x1) as [[e1|rs1] y1];
    destruct (run_commands l x2) as [[e2|rs2] y2];
    cbn [fst snd] in *; try discriminate E'; injection E' as <-;
    split; [reflexivity | exact S' | reflexivity | exact S'].
Qed.

Lemma answers_ignore_state_file_witness :
  let read_only := snd (Bank_init "127.0.0.1" Unreadable false) in
  let session := ["AC"; "AD 10001/127.0.0.1 100"; "AB 10001/127.0.0.1"] in
  same_ledger (snd (Bank_init "127.0.0.1" Absent true)) read_only /\
  fst (run_commands session read_only)
  = inr ["10001/127.0.0.1";
         "OK: Vloženo 100 Kč na účet 10001/127.0.0.1, nový zůstatek: 100 Kč";
         "100"] /\
  data_file (snd (run_commands session read_only)) = Unreadable.
Proof.
  cbv zeta.
  assert (S : same_ledger (snd (Bank_init "127.0.0.1" Absent true))
                (snd (Bank_init "127.0.0.1" Unreadable false)))
    by (repeat split).
  split; [exact S|]. split; [|vm_compute; reflexivity].
  rewrite <- (proj1 (answers_ignore_state_file
                       ["AC"; "AD 10001/127.0.0.1 100"; "AB 10001/127.0.0.1"]
                       _ _ S)).
  vm_compute. reflexivity.
Defined.

(* ================================================================== *)
(** ** The connection handler and the shutdown *)
(* ================================================================== *)

Lemma client_loop_sends (chunks : list Recv) : forall b,
  exists sent b',
    client_loop chunks b = (inr sent, b') /\
    (List.length sent <= List.length chunks)%nat /\
    Forall (fun m => exists r, m = r ++ newline) sent.
Proof.
  induction chunks as [|c rest IH]; intros b; cbn [client_loop].
  - exists [], b. destruct (running b); cbn; repeat split; auto.
  - destruct (running b); cbn [negb];
      [|exists [], b; cbn; repeat split; [lia | constructor]].
    destruct c as [raw|];
      [|exists [], b; cbn; repeat split; [lia | constructor]].
    destruct (PyStr.strip raw) as [|x s] eqn:Es;
      [exists [], b; cbn; repeat split; [lia | constructor]|].
    destruct (execute_command_answers (String x s) b) as (r & b1 & E).
    rewrite E. destruct (IH b1) as (sent & b' & E1 & L & F). rewrite E1.
    exists ((r ++ newline) :: sent), b'. split; [reflexivity|]. split.
    + cbn. lia.
    + constructor; [now exists r | exact F].
Qed.

(** X6 ([handle_client]). The handler never raises, whatever the socket
    gives. It sends the greeting first, then at most one message for each
    read, and each of these messages ends with a line feed. *)
Theorem handle_client_sends (chunks : list Recv) (b : Bank) :
  exists sent,
    fst (handle_client chunks b) = inr (welcome (ip_address b) :: sent) /\
    (List.length sent <= List.length chunks)%nat /\
    Forall (fun m => exists r, m = r ++ newline) sent.
Proof.
  destruct (client_loop_sends chunks b) as (sent & b' & E & L & F).
  exists sent. unfold handle_client, bind, get, ret. rewrite E.
  now repeat split.
Qed.

Lemma client_loop_ends (pre : list Recv) (c : Recv) (post : list Recv) :
  ends_session c = true ->
  forall b, client_loop (pre ++ c :: post) b = client_loop pre b.
Proof.
  intros Hc. induction pre as [|x pre IH]; intros b.
  - cbn [app client_loop]. destruct (negb (running b)); [reflexivity|].
    destruct c as [raw|]; [|reflexivity]. cbn [ends_session] in Hc.
    apply String.eqb_eq in Hc. now rewrite Hc.
  - cbn [app client_loop]. destruct (negb (running b)); [reflexivity|].
    destruct x as [raw|]; [|reflexivity].
    destruct (PyStr.strip raw); [reflexivity|].
    destruct (execute_command _ b) as [[e|r] b1]; [reflexivity|].
    now rewrite IH.
Qed.

(** X7 ([handle_client]). The handler leaves at the first read that raises
    or gives a text that is empty once stripped (the end of the stream, a
    blank line): whatever the client sends after it is not read and not
    executed, and the ledger is as the commands before it left it. *)
Theorem handle_client_ends (pre : list Recv) (c : Recv) (post : list Recv)
    (b : Bank) :
  ends_session c = true ->
  handle_client (pre ++ c :: post) b = handle_client pre b.
Proof.
  intros Hc. unfold handle_client, bind, get.
  now rewrite (client_loop_ends pre c post Hc).
Qed.

Lemma handle_client_ends_witness :
  ends_session (Data ("  " ++ newline)) = true /\
  handle_client [Data "BC"; Data ("  " ++ newline); Data "AC"] sample_ledger
  = handle_client [Data "BC"] sample_ledger /\
  handle_client [Data "BC"] sample_ledger
  = (inr [welcome "127.0.0.1"; "127.0.0.1" ++ newline], sample_ledger).
Proof.
  split; [reflexivity|]. split; [|vm_compute; reflexivity].
  exact (handle_client_ends [Data "BC"] (Data ("  " ++ newline)) [Data "AC"]
           sample_ledger eq_refl).
Defined.


(* ================================================================== *)
(** ** The command line *)
(* ================================================================== *)

(** The first word of the line is only used for its upper-case form. *)
Lemma dispatch_head (cmd p q : string) (rest : list string) :
  dispatch cmd (p :: rest) = dispatch cmd (q :: rest).
Proof.
  unfold dispatch.
  destruct (String.eqb cmd "BC"); [reflexivity|].
  destruct (String.eqb cmd "AC"); [reflexivity|].
  destruct (String.eqb cmd "AD");
    [now destruct rest as [|a [|m [|x l]]]|].
  destruct (String.eqb cmd "AW");
    [now destruct rest as [|a [|m [|x l]]]|].
  destruct (String.eqb cmd "AB"); [|reflexivity].
  now destruct rest as [|a [|x l]].
Qed.

(** X9 ([execute_command]). The operation code is read without regard to
    case, and the blanks around and between the words of a line do not
    count: two lines with the same words after the first, and first words
    that agree once in upper case, are handled alike. *)
Theorem opcode_case_and_blanks (c1 c2 p1 p2 : string) (rest : list string)
    (b : Bank) :
  PyStr.split (PyStr.strip c1) = p1 :: rest ->
  PyStr.split (PyStr.strip c2) = p2 :: rest ->
  PyStr.upper p1 = PyStr.upper p2 ->
  execute_command c1 b = execute_command c2 b.
Proof.
  intros H1 H2 Hu.
  rewrite (execute_parts _ _ _ _ H1), (execute_parts _ _ _ _ H2), Hu.
  unfold try_except. now rewrite (dispatch_head _ p1 p2).
Qed.

Lemma opcode_case_and_blanks_witness :
  execute_command ("  ad" ++ newline ++ "10001/127.0.0.1   5 ") sample_ledger
  = execute_command "AD 10001/127.0.0.1 5" sample_ledger.
Proof.
  apply (opcode_case_and_blanks _ _ "ad" "AD" ["10001/127.0.0.1"; "5"]);
    reflexivity.
Defined.

(** X10 ([execute_command]). AD and AW take exactly two arguments and AB
    exactly one: with any other number the line is answered by the usage
    of the command. BC and AC take none and ignore any that are given. A
    first word that is none of the five codes is answered by an error that
    quotes it in upper case. None of these errors touches the object. *)
Theorem command_arity (command p0 : string) (rest : list string) (b : Bank) :
  PyStr.split (PyStr.strip command) = p0 :: rest ->
  let cmd := PyStr.upper p0 in
  let answer (r : string) := execute_command command b = (inr r, b) in
  (cmd = "BC" -> answer (ip_address b)) /\
  (cmd = "AC" ->
   execute_command command b
   = (inr (PyStr.str_of_Z (next_account_number b) ++ "/" ++ ip_address b),
      snd (account_create b))) /\
  (cmd = "AD" -> List.length rest <> 2%nat ->
   answer "ERROR: Použití: AD číslo/IP částka") /\
  (cmd = "AW" -> List.length rest <> 2%nat ->
   answer "ERROR: Použití: AW číslo/IP částka") /\
  (cmd = "AB" -> List.length rest <> 1%nat ->
   answer "ERROR: Použití: AB číslo/IP") /\
  (~ In cmd ["BC"; "AC"; "AD"; "AW"; "AB"] ->
   answer ("ERROR: Neznámý příkaz '" ++ cmd ++ "'")).
Proof.
  intros Hp. cbv zeta. rewrite (execute_parts _ _ _ _ Hp).
  unfold try_except, dispatch.
  split; [|split; [|split; [|split; [|split]]]].
  - intros ->. reflexivity.
  - intros ->. cbn [String.eqb Ascii.eqb Bool.eqb].
    rewrite account_create_eq. reflexivity.
  - intros -> Hl. cbn [String.eqb Ascii.eqb Bool.eqb].
    destruct rest as [|a [|m [|x l]]]; try reflexivity. now elim Hl.
  - intros -> Hl. cbn [String.eqb Ascii.eqb Bool.eqb].
    destruct rest as [|a [|m [|x l]]]; try reflexivity. now elim Hl.
  - intros -> Hl. cbn [String.eqb Ascii.eqb Bool.eqb].
    destruct rest as [|a [|x l]]; try reflexivity. now elim Hl.
  - intros Hn. cbn [In] in Hn.
    destruct (String.eqb_spec (PyStr.upper p0) "BC") as [E|_]; [symmetry in E; tauto|].
    destruct (String.eqb_spec (PyStr.upper p0) "AC") as [E|_]; [symmetry in E; tauto|].
    destruct (String.eqb_spec (PyStr.upper p0) "AD") as [E|_]; [symmetry in E; tauto|].
    destruct (String.eqb_spec (PyStr.upper p0) "AW") as [E|_]; [symmetry in E; tauto|].
    destruct (String.eqb_spec (PyStr.upper p0) "AB") as [E|_]; [symmetry in E; tauto|].
    reflexivity.
Qed.

Lemma command_arity_witness :
  execute_command "ac now please" sample_ledger
  = (inr "10002/127.0.0.1", snd (account_create sample_ledger)) /\
  execute_command "ab 10001/127.0.0.1 now" sample_ledger
  = (inr "ERROR: Použití: AB číslo/IP", sample_ledger) /\
  execute_command "hello there" sample_ledger
  = (inr "ERROR: Neznámý příkaz 'HELLO'", sample_ledger).
Proof.
  split; [|split].
  - exact (proj1 (proj2 (command_arity "ac now please" "ac" ["now"; "please"]
                           sample_ledger eq_refl)) eq_refl).
  - refine (proj1 (proj2 (proj2 (proj2 (proj2
              (command_arity "ab 10001/127.0.0.1 now" "ab"
                 ["10001/127.0.0.1"; "now"] sample_ledger eq_refl)))))
              eq_refl _).
    cbn. discriminate.
  - refine (proj2 (proj2 (proj2 (proj2 (proj2
              (command_arity "hello there" "hello" ["there"]
                 sample_ledger eq_refl))))) _).
    cbn. intros [H|[H|[H|[H|[H|[]]]]]]; discriminate H.
Defined.

(* ================================================================== *)
(** ** The balance enquiry *)
(* ================================================================== *)

(** X11 ([account_balance]). The enquiry reads and never writes: whether
    it answers or fails, the object and the state file are as before. It
    answers exactly for the identifiers [number/IP] whose second field is
    the address of this bank and whose number is that of an account, and
    the answer is the balance as [str] prints it. *)
Theorem balance_enquiry (account_full : string) (b : Bank) :
  snd (account_balance account_full b) = b /\
  forall r,
    fst (account_balance account_full b) = inr r <->
    exists n account,
      names b account_full n /\
      dict_get n (accounts b) = Some account /\
      r = Dec.to_string (balance account).
Proof.
  split; [apply balance_state|]. intros r. split.
  - unfold account_balance, try_except, balance_body, bind, get, ret, raise,
      unpack2, int, expect, reraise, names.
    destruct (PyStr.contains "/" account_full); cbn; [|discriminate].
    destruct (PyStr.split_on "/" account_full) as [|x [|y [|z l]]]; cbn;
      try discriminate.
    destruct (PyStr.py_int x) as [n|] eqn:Ex; cbn; [|discriminate].
    destruct (String.eqb y (ip_address b)) eqn:Ey; cbn; [|discriminate].
    destruct (dict_get n (accounts b)) as [account|] eqn:Eg; cbn;
      [|discriminate].
    intros [= <-]. exists n, account. split; [|now split].
    split; [reflexivity|]. exists x, y. now repeat split.
  - intros (n & account & (Hc & x & y & Hs & Hi & Hy) & Hg & ->).
    now rewrite (balance_ok b account_full x y n Hc Hs Hi Hy account Hg).
Qed.

(* ================================================================== *)
(** ** Every answer is one line *)
(* ================================================================== *)

Lemma single_line_app (a b : string) :
  single_line (a ++ b) = single_line a && single_line b.
Proof.
  unfold single_line. rewrite DecText.contains_app. now rewrite negb_orb.
Qed.

Lemma no_space_single_line (s : string) :
  no_space s = true -> single_line s = true.
Proof.
  unfold single_line. induction s as [|c s IH]; [reflexivity|].
  cbn [no_space PyStr.contains]. intros H. apply andb_prop in H as [Hc Hs].
  rewrite negb_orb. rewrite (IH Hs), andb_true_r.
  destruct (Ascii.eqb_spec c "010") as [->|_]; [discriminate Hc | reflexivity].
Qed.

Lemma split_from_no_space (s : string) : forall cur,
  no_space cur = true ->
  Forall (fun t => no_space t = true) (PyStr.split_from cur s).
Proof.
  induction s as [|c s IH]; intros cur H; cbn [PyStr.split_from].
  - destruct cur; [constructor | now repeat constructor].
  - destruct (PyStr.is_space c) eqn:Ec.
    + destruct cur; [now apply IH|].
      constructor; [exact H | now apply IH].
    + apply IH. rewrite PyStrFacts.no_space_app, H. cbn. now rewrite Ec.
Qed.

Lemma upper_char_space (c : ascii) :
  PyStr.is_space (PyStr.upper_char c) = PyStr.is_space c.
Proof. destruct c as [[] [] [] [] [] [] [] []]; reflexivity. Qed.

Lemma upper_no_space (s : string) : no_space (PyStr.upper s) = no_space s.
Proof.
  induction s as [|c s IH]; [reflexivity|].
  cbn [PyStr.upper no_space]. now rewrite upper_char_space, IH.
Qed.

Lemma str_of_Z_no_space (z : Z) : no_space (PyStr.str_of_Z z) = true.
Proof.
  destruct z as [|p|p]; cbn [PyStr.str_of_Z];
    try (apply PyStrFacts.all_digits_no_space, PyStrFacts.all_digits_str_of_N).
  change (no_space (String "-" (PyStr.str_of_N (N.pos p))))
    with (no_space (PyStr.str_of_N (N.pos p))).
  apply PyStrFacts.all_digits_no_space, PyStrFacts.all_digits_str_of_N.
Qed.

(** [str(d)] has no blank in it. *)
Lemma to_string_no_space (d : Dec.Decimal) : no_space (Dec.to_string d) = true.
Proof.
  destruct d as [s c e|s|s sig p].
  - destruct (DecText.to_string_fin s c e)
      as (ip & fp & dot & ex & -> & Hi & _ & Hf & _).
    destruct (DecText.numeral_clean ip fp dot ex Hi Hf) as [N1 N2].
    exact (proj1 (DecText.sign_clean s _ N1 N2)).
  - now destruct s.
  - unfold Dec.to_string. rewrite !PyStrFacts.no_space_app.
    assert (P : no_space (if (p =? 0)%N then "" else PyStr.str_of_N p) = true).
    { destruct (p =? 0)%N; [reflexivity|].
      apply PyStrFacts.all_digits_no_space, PyStrFacts.all_digits_str_of_N. }
    rewrite P. now destruct s, sig.
Qed.

Lemma signal_str_line (sg : Dec.signal) :
  single_line (Dec.signal_str sg) = true.
Proof. now destruct sg. Qed.

Lemma msg_not_local_line (ip : string) :
  single_line ip = true -> single_line (msg_not_local ip) = true.
Proof.
  intros H. unfold msg_not_local. now rewrite !single_line_app, H.
Qed.

Lemma msg_insufficient_line (bal : Dec.Decimal) :
  single_line (msg_insufficient bal) = true.
Proof.
  unfold msg_insufficient.
  now rewrite !single_line_app, (no_space_single_line _ (to_string_no_space bal)).
Qed.

Ltac line_ok_done :=
  lazymatch goal with
  | |- single_line (Dec.signal_str _) = true => apply signal_str_line
  | |- single_line (msg_not_local _) = true =>
      apply msg_not_local_line; assumption
  | |- single_line (msg_insufficient _) = true => apply msg_insufficient_line
  | |- single_line _ = true => reflexivity
  end.

Lemma ok_line (verb : string) (amount bal : Dec.Decimal) (mid a : string) :
  single_line verb = true -> single_line mid = true -> single_line a = true ->
  single_line (verb ++ Dec.to_string amount ++ mid ++ a
                 ++ ", nový zůstatek: " ++ Dec.to_string bal ++ " Kč") = true.
Proof.
  intros H1 H2 H3.
  now rewrite !single_line_app, H1, H2, H3,
    !(no_space_single_line _ (to_string_no_space _)).
Qed.

Lemma deposit_line (a m : string) (b : Bank) :
  single_line (ip_address b) = true -> single_line a = true ->
  line_ok (fst (account_deposit a m b)).
Proof.
  intros Hip Ha.
  unfold account_deposit, deposit_body, unpack2, int, Decimal_of_str, expect,
    trap, set_balance, reraise, line_ok.
  unfold try_except, bind, get, ret, raise, modify.
  destruct (PyStr.contains "/" a); cbn [negb fst exn_str]; [|line_ok_done].
  destruct (PyStr.split_on "/" a) as [|x [|y [|z l]]]; cbn [negb fst exn_str];
    [line_ok_done | line_ok_done | | line_ok_done].
  destruct (PyStr.py_int x) as [n|]; cbn [negb fst exn_str]; [|line_ok_done].
  destruct (Dec.of_string m) as [amount|]; cbn [negb fst exn_str]; [|line_ok_done].
  destruct (String.eqb y (ip_address b)); cbn [negb fst exn_str]; [|line_ok_done].
  destruct (Dec.le_zero amount) as [sg|[|]]; cbn [negb fst exn_str];
    [line_ok_done | line_ok_done |].
  destruct (dict_get n (accounts b)) as [account|]; cbn [negb fst exn_str];
    [|line_ok_done].
  destruct (Dec.add (balance account) amount) as [sg|bal]; cbn [negb fst exn_str];
    [line_ok_done|].
  rewrite save_state_eq. cbn [negb fst exn_str]. now apply ok_line.
Qed.

Lemma withdrawal_line (a m : string) (b : Bank) :
  single_line (ip_address b) = true -> single_line a = true ->
  line_ok (fst (account_withdrawal a m b)).
Proof.
  intros Hip Ha.
  unfold account_withdrawal, withdrawal_body, unpack2, int, Decimal_of_str,
    expect, trap, set_balance, reraise, line_ok.
  unfold try_except, bind, get, ret, raise, modify.
  destruct (PyStr.contains "/" a); cbn [negb fst exn_str]; [|line_ok_done].
  destruct (PyStr.split_on "/" a) as [|x [|y [|z l]]]; cbn [negb fst exn_str];
    [line_ok_done | line_ok_done | | line_ok_done].
  destruct (PyStr.py_int x) as [n|]; cbn [negb fst exn_str]; [|line_ok_done].
  destruct (Dec.of_string m) as [amount|]; cbn [negb fst exn_str]; [|line_ok_done].
  destruct (String.eqb y (ip_address b)); cbn [negb fst exn_str]; [|line_ok_done].
  destruct (Dec.le_zero amount) as [sg|[|]]; cbn [negb fst exn_str];
    [line_ok_done | line_ok_done |].
  destruct (dict_get n (accounts b)) as [account|]; cbn [negb fst exn_str];
    [|line_ok_done].
  destruct (Dec.lt (balance account) amount) as [sg|[|]]; cbn [negb fst exn_str];
    [line_ok_done | line_ok_done |].
  destruct (Dec.sub (balance account) amount) as [sg|bal]; cbn [negb fst exn_str];
    [line_ok_done|].
  rewrite save_state_eq. cbn [negb fst exn_str]. now apply ok_line.
Qed.

Lemma balance_line (a : string) (b : Bank) :
  single_line (ip_address b) = true ->
  line_ok (fst (account_balance a b)).
Proof.
  intros Hip.
  unfold account_balance, balance_body, unpack2, int, expect, reraise, line_ok.
  unfold try_except, bind, get, ret, raise.
  destruct (PyStr.contains "/" a); cbn [negb fst exn_str]; [|line_ok_done].
  destruct (PyStr.split_on "/" a) as [|x [|y [|z l]]]; cbn [negb fst exn_str];
    [line_ok_done | line_ok_done | | line_ok_done].
  destruct (PyStr.py_int x) as [n|]; cbn [negb fst exn_str]; [|line_ok_done].
  destruct (String.eqb y (ip_address b)); cbn [negb fst exn_str]; [|line_ok_done].
  destruct (dict_get n (accounts b)) as [account|]; cbn [negb fst exn_str];
    [|line_ok_done].
  apply no_space_single_line, to_string_no_space.
Qed.

Lemma dispatch_line (p0 : string) (rest : list string) (b : Bank) :
  single_line (ip_address b) = true ->
  Forall (fun t => no_space t = true) (p0 :: rest) ->
  line_ok (fst (dispatch (PyStr.upper p0) (p0 :: rest) b)).
Proof.
  intros Hip Hf. inversion Hf as [|? ? H0 Hr]; subst. unfold dispatch.
  destruct (String.eqb (PyStr.upper p0) "BC"); [exact Hip|].
  destruct (String.eqb (PyStr.upper p0) "AC").
  { rewrite account_create_eq. cbn [fst line_ok].
    now rewrite !single_line_app, Hip,
      (no_space_single_line _ (str_of_Z_no_space _)). }
  destruct (String.eqb (PyStr.upper p0) "AD").
  { destruct rest as [|a [|m [|x l]]]; try reflexivity.
    inversion Hr; subst. now apply deposit_line, no_space_single_line. }
  destruct (String.eqb (PyStr.upper p0) "AW").
  { destruct rest as [|a [|m [|x l]]]; try reflexivity.
    inversion Hr; subst. now apply withdrawal_line, no_space_single_line. }
  destruct (String.eqb (PyStr.upper p0) "AB").
  { destruct rest as [|a [|x l]]; try reflexivity. now apply balance_line. }
  cbn [fst raise line_ok]. unfold raise. cbn [fst].
  rewrite !single_line_app.
  now rewrite (no_space_single_line (PyStr.upper p0))
    by (now rewrite upper_no_space).
Qed.

(** X12 ([execute_command], [handle_client]). When the address of the bank
    has no line feed in it (an IP address has none), the response to a
    line, whatever the line, has no line feed in it: what the handler
    sends for it is exactly one line. *)
Theorem response_is_one_line (command : string) (b : Bank) :
  single_line (ip_address b) = true ->
  exists response b',
    execute_command command b = (inr response, b') /\
    single_line response = true.
Proof.
  intros Hip. unfold execute_command. cbv zeta.
  pose proof (split_from_no_space (PyStr.strip command) "" eq_refl) as Hf.
  change (PyStr.split_from "" (PyStr.strip command))
    with (PyStr.split (PyStr.strip command)) in Hf.
  destruct (PyStr.split (PyStr.strip command)) as [|p0 rest];
    [eexists _, _; split; reflexivity|].
  pose proof (dispatch_line p0 rest b Hip Hf) as L.
  unfold try_except.
  destruct (dispatch (PyStr.upper p0) (p0 :: rest) b) as [[e|r] b'];
    cbn [fst line_ok] in L.
  - destruct e; try contradiction. eexists _, _. split; [reflexivity|].
    cbn [exn_str]. now rewrite single_line_app, L.
  - eexists _, _. split; [reflexivity | exact L].
Qed.

Lemma response_is_one_line_witness :
  single_line (ip_address sample_ledger) = true /\
  exists response b',
    execute_command ("AW 10001/127.0.0.1 500" ++ newline ++ "BC") sample_ledger
    = (inr response, b') /\
    single_line response = true.
Proof.
  split; [reflexivity|].
  exact (response_is_one_line
           ("AW 10001/127.0.0.1 500" ++ newline ++ "BC") sample_ledger eq_refl).
Defined.

(* ================================================================== *)
(** ** What a deposit and a withdrawal do *)
(* ================================================================== *)

Lemma ip_address_credited (b : Bank) n account bal :
  ip_address (credited n account bal b) = ip_address b.
Proof. unfold credited. now rewrite ip_address_saved. Qed.

Lemma credited_get_other (b : Bank) n account bal k :
  k <> n ->
  dict_get k (accounts (credited n account bal b)) = dict_get k (accounts b).
Proof.
  intros H. unfold credited. rewrite accounts_saved. cbn [accounts set_accounts].
  apply dict_get_set_other. congruence.
Qed.

Lemma credited_keys (b : Bank) n account bal :
  dict_get n (accounts b) = Some account ->
  dict_keys (accounts (credited n account bal b)) = dict_keys (accounts b).
Proof.
  intros H. unfold credited. rewrite accounts_saved. cbn [accounts set_accounts].
  now apply dict_keys_set_present with (v' := account).
Qed.

(** A deposit that returns has passed every check. *)
Lemma deposit_returns (a m : string) (b b' : Bank) (r : string) :
  account_deposit a m b = (inr r, b') ->
  exists x y n amount account bal,
    PyStr.contains "/" a = true /\
    PyStr.split_on "/" a = [x; y] /\
    PyStr.py_int x = Some n /\
    Dec.of_string m = Some amount /\
    String.eqb y (ip_address b) = true /\
    Dec.le_zero amount = inr false /\
    dict_get n (accounts b) = Some account /\
    Dec.add (balance account) amount = inr bal.
Proof.
  unfold account_deposit, deposit_body, unpack2, int, Decimal_of_str, expect,
    trap, set_balance, reraise.
  unfold try_except, bind, get, ret, raise, modify.
  destruct (PyStr.contains "/" a) eqn:Hc; cbn [negb]; [|discriminate].
  destruct (PyStr.split_on "/" a) as [|x [|y [|z l]]] eqn:Hs;
    [discriminate | discriminate | | discriminate].
  destruct (PyStr.py_int x) as [n|] eqn:Hn; [|discriminate].
  destruct (Dec.of_string m) as [amount|] eqn:Hm; [|discriminate].
  destruct (String.eqb y (ip_address b)) eqn:Hy; cbn [negb]; [|discriminate].
  destruct (Dec.le_zero amount) as [sg|[|]] eqn:Hz;
    [discriminate | discriminate |].
  destruct (dict_get n (accounts b)) as [account|] eqn:Hg; [|discriminate].
  destruct (Dec.add (balance account) amount) as [sg|bal] eqn:Ha;
    [discriminate|].
  intros _. exists x, y, n, amount, account, bal. now repeat split.
Qed.

Lemma withdrawal_returns (a m : string) (b b' : Bank) (r : string) :
  account_withdrawal a m b = (inr r, b') ->
  exists x y n amount account bal,
    PyStr.contains "/" a = true /\
    PyStr.split_on "/" a = [x; y] /\
    PyStr.py_int x = Some n /\
    Dec.of_string m = Some amount /\
    String.eqb y (ip_address b) = true /\
    Dec.le_zero amount = inr false /\
    dict_get n (accounts b) = Some account /\
    Dec.lt (balance account) amount = inr false /\
    Dec.sub (balance account) amount = inr bal.
Proof.
  unfold account_withdrawal, withdrawal_body, unpack2, int, Decimal_of_str,
    expect, trap, set_balance, reraise.
  unfold try_except, bind, get, ret, raise, modify.
  destruct (PyStr.contains "/" a) eqn:Hc; cbn [negb]; [|discriminate].
  destruct (PyStr.split_on "/" a) as [|x [|y [|z l]]] eqn:Hs;
    [discriminate | discriminate | | discriminate].
  destruct (PyStr.py_int x) as [n|] eqn:Hn; [|discriminate].
  destruct (Dec.of_string m) as [amount|] eqn:Hm; [|discriminate].
  destruct (String.eqb y (ip_address b)) eqn:Hy; cbn [negb]; [|discriminate].
  destruct (Dec.le_zero amount) as [sg|[|]] eqn:Hz;
    [discriminate | discriminate |].
  destruct (dict_get n (accounts b)) as [account|] eqn:Hg; [|discriminate].
  destruct (Dec.lt (balance account) amount) as [sg|[|]] eqn:Hl;
    [discriminate | discriminate |].
  destruct (Dec.sub (balance account) amount) as [sg|bal] eqn:Ha;
    [discriminate|].
  intros _. exists x, y, n, amount, account, bal. now repeat split.
Qed.

(** X13 ([account_deposit]). A deposit that returns was made on an account
    of this bank with an amount above zero. It returns the line that gives
    the amount and the new balance, which is the sum as [Decimal] computes
    it. Of the ledger it changes the balance of that account and nothing
    else: the other accounts, the order of the accounts and the counter
    are as before. An enquiry on the same identifier then gives the new
    balance of the line. *)
Theorem deposit_effect (account_full amount_str : string) (b b' : Bank)
    (r : string) :
  account_deposit account_full amount_str b = (inr r, b') ->
  exists n account amount bal,
    names b account_full n /\
    positive_amount amount_str amount /\
    dict_get n (accounts b) = Some account /\
    Dec.add (balance account) amount = inr bal /\
    r = "OK: Vloženo " ++ Dec.to_string amount ++ " Kč na účet "
          ++ account_full ++ ", nový zůstatek: " ++ Dec.to_string bal ++ " Kč" /\
    dict_get n (accounts b')
    = Some {| number := number account; balance := bal |} /\
    (forall k, k <> n -> dict_get k (accounts b') = dict_get k (accounts b)) /\
    dict_keys (accounts b') = dict_keys (accounts b) /\
    next_account_number b' = next_account_number b /\
    account_balance account_full b' = (inr (Dec.to_string bal), b').
Proof.
  intros H.
  destruct (deposit_returns _ _ _ _ _ H)
    as (x & y & n & amount & account & bal
        & Hc & Hs & Hn & Hm & Hy & Hz & Hg & Ha).
  rewrite (deposit_ok b account_full amount_str x y n amount
             Hc Hs Hn Hm Hy Hz account bal Hg Ha) in H.
  injection H as <- <-.
  exists n, account, amount, bal.
  split; [split; [exact Hc | exists x, y; now repeat split]|].
  split; [now split|]. split; [exact Hg|]. split; [exact Ha|].
  split; [reflexivity|]. split; [apply credited_get|].
  split; [intros k Hk; now apply credited_get_other|].
  split; [now apply credited_keys|]. split; [apply next_credited|].
  refine (balance_ok (credited n account bal b) account_full x y n
            Hc Hs Hn _ {| number := number account; balance := bal |} _).
  - now rewrite ip_address_credited.
  - apply credited_get.
Qed.

Lemma deposit_effect_witness :
  account_deposit "10001/127.0.0.1" "0.50" sample_ledger
  = (inr "OK: Vloženo 0.50 Kč na účet 10001/127.0.0.1, nový zůstatek: 100.50 Kč",
     snd (account_deposit "10001/127.0.0.1" "0.50" sample_ledger)) /\
  exists bal,
    Dec.add (Dec.Fin false 100 0) (Dec.Fin false 50 (-2)) = inr bal /\
    account_balance "10001/127.0.0.1"
      (snd (account_deposit "10001/127.0.0.1" "0.50" sample_ledger))
    = (inr (Dec.to_string bal),
       snd (account_deposit "10001/127.0.0.1" "0.50" sample_ledger)).
Proof.
  assert (E : account_deposit "10001/127.0.0.1" "0.50" sample_ledger
              = (inr "OK: Vloženo 0.50 Kč na účet 10001/127.0.0.1, nový zůstatek: 100.50 Kč",
                 snd (account_deposit "10001/127.0.0.1" "0.50" sample_ledger)))
    by (vm_compute; reflexivity).
  split; [exact E|].
  destruct (deposit_effect _ _ _ _ _ E)
    as (n & account & amount & bal & Hn & Hp & Hg & Ha & _ & _ & _ & _ & _ & Hb).
  exists bal. split; [|exact Hb].
  destruct Hn as (_ & x & y & Hs & Hx & _). injection Hs as <- <-.
  injection Hx as <-. injection Hg as <-.
  destruct Hp as [Hp _]. injection Hp as <-. exact Ha.
Defined.

(** X14 ([account_withdrawal]). A withdrawal that returns was made on an
    account of this bank with an amount above zero and not above the
    balance. It returns the line that gives the amount and the new
    balance, which is the difference as [Decimal] computes it, and changes
    that balance and nothing else of the ledger. An enquiry on the same
    identifier then gives the new balance of the line. *)
Theorem withdrawal_effect (account_full amount_str : string) (b b' : Bank)
    (r : string) :
  account_withdrawal account_full amount_str b = (inr r, b') ->
  exists n account amount bal,
    names b account_full n /\
    positive_amount amount_str amount /\
    dict_get n (accounts b) = Some account /\
    Dec.lt (balance account) amount = inr false /\
    Dec.sub (balance account) amount = inr bal /\
    r = "OK: Vybráno " ++ Dec.to_string amount ++ " Kč z účtu "
          ++ account_full ++ ", nový zůstatek: " ++ Dec.to_string bal ++ " Kč" /\
    dict_get n (accounts b')
    = Some {| number := number account; balance := bal |} /\
    (forall k, k <> n -> dict_get k (accounts b') = dict_get k (accounts b)) /\
    dict_keys (accounts b') = dict_keys (accounts b) /\
    next_account_number b' = next_account_number b /\
    account_balance account_full b' = (inr (Dec.to_string bal), b').
Proof.
  intros H.
  destruct (withdrawal_returns _ _ _ _ _ H)
    as (x & y & n & amount & account & bal
        & Hc & Hs & Hn & Hm & Hy & Hz & Hg & Hl & Ha).
  rewrite (withdrawal_ok b account_full amount_str x y n amount
             Hc Hs Hn Hm Hy Hz account bal Hg Hl Ha) in H.
  injection H as <- <-.
  exists n, account, amount, bal.
  split; [split; [exact Hc | exists x, y; now repeat split]|].
  split; [now split|]. split; [exact Hg|]. split; [exact Hl|].
  split; [exact Ha|].
  split; [reflexivity|]. split; [apply credited_get|].
  split; [intros k Hk; now apply credited_get_other|].
  split; [now apply credited_keys|]. split; [apply next_credited|].
  refine (balance_ok (credited n account bal b) account_full x y n
            Hc Hs Hn _ {| number := number account; balance := bal |} _).
  - now rewrite ip_address_credited.
  - apply credited_get.
Qed.

Lemma withdrawal_effect_witness :
  account_withdrawal "10001/127.0.0.1" "99.99" sample_ledger
  = (inr "OK: Vybráno 99.99 Kč z účtu 10001/127.0.0.1, nový zůstatek: 0.01 Kč",
     snd (account_withdrawal "10001/127.0.0.1" "99.99" sample_ledger)) /\
  exists bal,
    Dec.sub (Dec.Fin false 100 0) (Dec.Fin false 9999 (-2)) = inr bal /\
    account_balance "10001/127.0.0.1"
      (snd (account_withdrawal "10001/127.0.0.1" "99.99" sample_ledger))
    = (inr (Dec.to_string bal),
       snd (account_withdrawal "10001/127.0.0.1" "99.99" sample_ledger)).
Proof.
  assert (E : account_withdrawal "10001/127.0.0.1" "99.99" sample_ledger
              = (inr "OK: Vybráno 99.99 Kč z účtu 10001/127.0.0.1, nový zůstatek: 0.01 Kč",
                 snd (account_withdrawal "10001/127.0.0.1" "99.99" sample_ledger)))
    by (vm_compute; reflexivity).
  split; [exact E|].
  destruct (withdrawal_effect _ _ _ _ _ E)
    as (n & account & amount & bal & Hn & Hp & Hg & _ & Ha
        & _ & _ & _ & _ & _ & Hb).
  exists bal. split; [|exact Hb].
  destruct Hn as (_ & x & y & Hs & Hx & _). injection Hs as <- <-.
  injection Hx as <-. injection Hg as <-.
  destruct Hp as [Hp _]. injection Hp as <-. exact Ha.
Defined.

(** X15 ([account_deposit], [account_withdrawal]). The two methods check
    their arguments alike: whenever one of them fails before it looks at
    the balance, for the identifier, the amount, the address or an account
    that is not there, the other fails with the same error; otherwise the
    identifier names an account of this bank and the amount is above zero. *)
Theorem deposit_withdrawal_same_checks (account_full amount_str : string)
    (b : Bank) :
  (exists e,
     account_deposit account_full amount_str b = (inl e, b) /\
     account_withdrawal account_full amount_str b = (inl e, b)) \/
  (exists n account amount,
     names b account_full n /\
     positive_amount amount_str amount /\
     dict_get n (accounts b) = Some account).
Proof.
  unfold account_deposit, deposit_body, account_withdrawal, withdrawal_body,
    unpack2, int, Decimal_of_str, expect, trap, set_balance, reraise, names,
    positive_amount.
  unfold try_except, bind, get, ret, raise, modify.
  destruct (PyStr.contains "/" account_full) eqn:Hc; cbn [negb];
    [|left; eexists; split; reflexivity].
  destruct (PyStr.split_on "/" account_full) as [|x [|y [|z l]]] eqn:Hs;
    [left; eexists; split; reflexivity | left; eexists; split; reflexivity |
    | left; eexists; split; reflexivity].
  destruct (PyStr.py_int x) as [n|] eqn:Hn;
    [|left; eexists; split; reflexivity].
  destruct (Dec.of_string amount_str) as [amount|] eqn:Hm;
    [|left; eexists; split; reflexivity].
  destruct (String.eqb y (ip_address b)) eqn:Hy; cbn [negb];
    [|left; eexists; split; reflexivity].
  destruct (Dec.le_zero amount) as [sg|[|]] eqn:Hz;
    [left; eexists; split; reflexivity | left; eexists; split; reflexivity |].
  destruct (dict_get n (accounts b)) as [account|] eqn:Hg;
    [|left; eexists; split; reflexivity].
  right. exists n, account, amount.
  split; [split; [reflexivity | exists x, y; now repeat split]|].
  now repeat split.
Qed.

(* ================================================================== *)
(** ** Account identifiers *)
(* ================================================================== *)

Lemma two_fields_slash (a x y : string) :
  PyStr.split_on "/" a = [x; y] -> PyStr.contains "/" a = true.
Proof.
  intros H. destruct (PyStr.contains "/" a) eqn:E; [reflexivity|].
  unfold PyStr.split_on in H.
  rewrite (PyStrFacts.split_on_from_no_sep "/" a "" E) in H. discriminate H.
Qed.

(** X16 ([account_balance], [account_deposit], [account_withdrawal]). An
    account is known by the number [int] reads in the first field of its
    identifier, not by the text of the field: two identifiers with the
    same address whose first fields [int] reads alike (a sign, zeros in
    front, underscores between digits) are answered alike by the enquiry,
    and leave the same ledger when used in a deposit or a withdrawal. *)
Theorem account_number_aliases (a1 a2 x1 x2 ip amount_str : string) (b : Bank) :
  PyStr.split_on "/" a1 = [x1; ip] ->
  PyStr.split_on "/" a2 = [x2; ip] ->
  PyStr.py_int x1 = PyStr.py_int x2 ->
  account_balance a1 b = account_balance a2 b /\
  snd (account_deposit a1 amount_str b) = snd (account_deposit a2 amount_str b) /\
  snd (account_withdrawal a1 amount_str b)
  = snd (account_withdrawal a2 amount_str b).
Proof.
  intros H1 H2 Hx.
  pose proof (two_fields_slash _ _ _ H1) as C1.
  pose proof (two_fields_slash _ _ _ H2) as C2.
  split; [|split].
  - unfold account_balance, balance_body, unpack2, int, expect, reraise.
    unfold try_except, bind, get, ret, raise.
    rewrite C1, C2, H1, H2, <- Hx. cbn [negb].
    destruct (PyStr.py_int x1) as [n|]; [|reflexivity].
    destruct (String.eqb ip (ip_address b)); cbn [negb]; [|reflexivity].
    now destruct (dict_get n (accounts b)).
  - unfold account_deposit, deposit_body, unpack2, int, Decimal_of_str, expect,
      trap, set_balance, reraise.
    unfold try_except, bind, get, ret, raise, modify.
    rewrite C1, C2, H1, H2, <- Hx. cbn [negb].
    destruct (PyStr.py_int x1) as [n|]; [|reflexivity].
    destruct (Dec.of_string amount_str) as [amount|]; [|reflexivity].
    destruct (String.eqb ip (ip_address b)); cbn [negb]; [|reflexivity].
    destruct (Dec.le_zero amount) as [sg|[|]]; try reflexivity.
    destruct (dict_get n (accounts b)) as [account|]; [|reflexivity].
    destruct (Dec.add (balance account) amount) as [sg|bal]; [reflexivity|].
    now rewrite !save_state_eq.
  - unfold account_withdrawal, withdrawal_body, unpack2, int, Decimal_of_str,
      expect, trap, set_balance, reraise.
    unfold try_except, bind, get, ret, raise, modify.
    rewrite C1, C2, H1, H2, <- Hx. cbn [negb].
    destruct (PyStr.py_int x1) as [n|]; [|reflexivity].
    destruct (Dec.of_string amount_str) as [amount|]; [|reflexivity].
    destruct (String.eqb ip (ip_address b)); cbn [negb]; [|reflexivity].
    destruct (Dec.le_zero amount) as [sg|[|]]; try reflexivity.
    destruct (dict_get n (accounts b)) as [account|]; [|reflexivity].
    destruct (Dec.lt (balance account) amount) as [sg|[|]]; try reflexivity.
    destruct (Dec.sub (balance account) amount) as [sg|bal]; [reflexivity|].
    now rewrite !save_state_eq.
Qed.

Lemma account_number_aliases_witness :
  PyStr.py_int "+01_0001" = PyStr.py_int "10001" /\
  account_balance "+01_0001/127.0.0.1" sample_ledger
  = account_balance "10001/127.0.0.1" sample_ledger /\
  account_balance "10001/127.0.0.1" sample_ledger
  = (inr "100", sample_ledger).
Proof.
  split; [reflexivity|]. split; [|vm_compute; reflexivity].
  exact (proj1 (account_number_aliases "+01_0001/127.0.0.1" "10001/127.0.0.1"
                  "+01_0001" "10001" "127.0.0.1" "1" sample_ledger
                  eq_refl eq_refl eq_refl)).
Defined.

(* ================================================================== *)
(** ** New accounts *)
(* ================================================================== *)

Lemma created_get (b : Bank) :
  dict_get (next_account_number b) (accounts (created b))
  = Some (Account_init (next_account_number b)).
Proof.
  unfold created. rewrite accounts_saved.
  cbn [accounts set_accounts set_next_account_number].
  apply dict_get_set_same.
Qed.

Lemma split_on_id (z : Z) (ip : string) :
  PyStr.contains "/" ip = false ->
  PyStr.split_on "/" (PyStr.str_of_Z z ++ "/" ++ ip) = [PyStr.str_of_Z z; ip].
Proof.
  intros H. unfold PyStr.split_on.
  change (PyStr.str_of_Z z ++ "/" ++ ip)
    with (PyStr.str_of_Z z ++ String "/" ip).
  rewrite PyStrFacts.split_on_from_field by apply PyStrFacts.contains_str_of_Z.
  now rewrite (PyStrFacts.split_on_from_no_sep "/" ip "" H).
Qed.

(** X17 ([account_create], [account_balance]). The identifier a creation
    returns is one the bank reads back: an enquiry on it, right after,
    answers with the balance 0, whatever ledger the creation was made on
    (the address of the bank has no [/] in it, as an IP address has none). *)
Theorem new_account_is_empty (b b' : Bank) (id : string) :
  PyStr.contains "/" (ip_address b) = false ->
  account_create b = (inr id, b') ->
  account_number_of id = Some (next_account_number b) /\
  account_balance id b' = (inr "0", b').
Proof.
  intros Hip H. rewrite account_create_eq in H. injection H as <- <-.
  split; [apply account_number_of_id|].
  pose proof (split_on_id (next_account_number b) _ Hip) as Hs.
  exact (balance_ok (created b) _ _ _ (next_account_number b)
           (two_fields_slash _ _ _ Hs) Hs (PyStrFacts.py_int_str_of_Z _)
           (eq_trans (f_equal (String.eqb (ip_address b)) (ip_address_created b))
              (String.eqb_refl _))
           _ (created_get b)).
Qed.

Lemma new_account_is_empty_witness :
  account_create sample_ledger
  = (inr "10002/127.0.0.1", snd (account_create sample_ledger)) /\
  account_balance "10002/127.0.0.1" (snd (account_create sample_ledger))
  = (inr "0", snd (account_create sample_ledger)).
Proof.
  assert (E : account_create sample_ledger
              = (inr "10002/127.0.0.1", snd (account_create sample_ledger)))
    by (vm_compute; reflexivity).
  split; [exact E|].
  exact (proj2 (new_account_is_empty sample_ledger _ _ eq_refl E)).
Defined.

(** X18 ([account_create], [_load_state]). A creation does not look
    whether the number is free. When an account is already filed under the
    value of the counter, which a state file can bring about since the
    loader takes the counter and the accounts as it finds them, the
    creation puts an empty account in its place: the number of accounts
    stays and the old balance is gone. *)
Theorem create_replaces_account (b : Bank) (account : Account) :
  dict_get (next_account_number b) (accounts b) = Some account ->
  let b' := snd (account_create b) in
  dict_get (next_account_number b) (accounts b')
  = Some (Account_init (next_account_number b)) /\
  dict_keys (accounts b') = dict_keys (accounts b) /\
  forall k, k <> next_account_number b ->
            dict_get k (accounts b') = dict_get k (accounts b).
Proof.
  intros H. cbv zeta. rewrite account_create_eq. cbn [snd].
  split; [apply created_get|]. unfold created. rewrite accounts_saved.
  cbn [accounts set_accounts set_next_account_number]. split.
  - now apply dict_keys_set_present with (v' := account).
  - intros k Hk. apply dict_get_set_other. congruence.
Qed.

Lemma create_replaces_account_witness :
  let file :=
    Json {| doc_next_account_number := Some 7;
            doc_accounts :=
              Some [ {| rec_number := Some 7; rec_balance := Some "250" |} ] |} in
  let b := snd (Bank_init "127.0.0.1" file true) in
  dict_get 7 (accounts b)
  = Some {| number := 7; balance := Dec.Fin false 250 0 |} /\
  dict_get 7 (accounts (snd (account_create b)))
  = Some {| number := 7; balance := Dec.Fin false 0 0 |}.
Proof.
  cbv zeta. split; [reflexivity|].
  exact (proj1 (create_replaces_account
                  (snd (Bank_init "127.0.0.1"
                          (Json {| doc_next_account_number := Some 7;
                                   doc_accounts :=
                                     Some [ {| rec_number := Some 7;
                                               rec_balance := Some "250" |} ] |})
                          true))
                  {| number := 7; balance := Dec.Fin false 250 0 |} eq_refl)).
Defined.

(* ================================================================== *)
(** ** The ledger only grows *)
(* ================================================================== *)

Lemma dict_keys_set {V} (k : Z) (v : V) (d : dict V) :
  exists new, dict_keys (dict_set k v d) = (dict_keys d ++ new)%list.
Proof.
  destruct (dict_get k d) as [v'|] eqn:E.
  - exists []. rewrite (dict_keys_set_present _ _ _ _ E). now rewrite app_nil_r.
  - exists [k]. rewrite (dict_set_absent _ _ _ E). unfold dict_keys.
    now rewrite map_app.
Qed.

(** X19 ([execute_command]). No session of commands removes an account,
    moves one, or takes the counter back: the accounts present before the
    session are in the ledger after it, in the same places, new accounts
    come after them, and the counter has not gone down. *)
Theorem ledger_only_grows (commands : list string) (b : Bank) :
  let b' := snd (run_commands commands b) in
  (exists new, dict_keys (accounts b') = (dict_keys (accounts b) ++ new)%list) /\
  next_account_number b <= next_account_number b' /\
  ip_address b' = ip_address b.
Proof.
  cbv zeta.
  apply (run_commands_inv
           (fun x =>
              (exists new,
                  dict_keys (accounts x) = (dict_keys (accounts b) ++ new)%list) /\
              next_account_number b <= next_account_number x /\
              ip_address x = ip_address b)).
  - apply (step_preserves
             (fun x =>
                (exists new,
                    dict_keys (accounts x)
                    = (dict_keys (accounts b) ++ new)%list) /\
                next_account_number b <= next_account_number x /\
                ip_address x = ip_address b)).
    + intros x ([new Hk] & Hn & Hi). split; [|split].
      * unfold created. rewrite accounts_saved.
        cbn [accounts set_accounts set_next_account_number].
        destruct (dict_keys_set (next_account_number x)
                    (Account_init (next_account_number x)) (accounts x))
          as [new' ->].
        exists (new ++ new')%list. now rewrite Hk, <- app_assoc.
      * rewrite next_created. lia.
      * now rewrite ip_address_created.
    + intros x n account amount bal ([new Hk] & Hn & Hi) Hg _ _.
      split; [|split].
      * exists new. now rewrite (credited_keys _ _ _ _ Hg).
      * now rewrite next_credited.
      * now rewrite ip_address_credited.
    + intros x n account amount bal ([new Hk] & Hn & Hi) Hg _ _ _.
      split; [|split].
      * exists new. now rewrite (credited_keys _ _ _ _ Hg).
      * now rewrite next_credited.
      * now rewrite ip_address_credited.
  - split; [exists []; now rewrite app_nil_r | split; [lia | reflexivity]].
Qed.

Lemma numbers_from_S (z : Z) (n : nat) :
  numbers_from z (S n) = (numbers_from z n ++ [z + Z.of_nat n])%list.
Proof. unfold numbers_from. now rewrite seq_S, map_app. Qed.

Lemma numbers_from_below (z k : Z) (n : nat) :
  In k (numbers_from z n) -> k < z + Z.of_nat n.
Proof.
  unfold numbers_from. intros H. apply in_map_iff in H as (i & <- & Hi).
  apply in_seq in Hi. lia.
Qed.

(** X20 ([account_create]). In a bank started without a state file the
    accounts are, in the order of the ledger, the numbers 10001, 10002,
    ... up to the counter, without a gap: every number below the counter
    is that of an account, and the number of accounts is the counter less
    10001. *)
Theorem numbers_are_consecutive (ip : string) (b : Bank) :
  reachable ip b ->
  10001 <= next_account_number b /\
  dict_keys (accounts b)
  = numbers_from 10001 (Z.to_nat (next_account_number b - 10001)).
Proof.
  apply (reachable_ind_inv
           (fun b => 10001 <= next_account_number b /\
                     dict_keys (accounts b)
                     = numbers_from 10001
                         (Z.to_nat (next_account_number b - 10001)))).
  - intros w. split; [cbn; lia | reflexivity].
  - apply step_preserves.
    + intros x [Hn Hk]. rewrite next_created. split; [lia|].
      unfold created. rewrite accounts_saved.
      cbn [accounts set_accounts set_next_account_number].
      assert (Hfresh : dict_get (next_account_number x) (accounts x) = None).
      { apply dict_get_absent. rewrite Hk. intros Hin.
        apply numbers_from_below in Hin. lia. }
      rewrite (dict_set_absent _ _ _ Hfresh). unfold dict_keys in *.
      rewrite map_app, Hk. cbn [map fst].
      replace (Z.to_nat (next_account_number x + 1 - 10001))
        with (S (Z.to_nat (next_account_number x - 10001))) by lia.
      rewrite numbers_from_S. do 2 f_equal. lia.
    + intros x n account amount bal [Hn Hk] Hg _ _.
      now rewrite next_credited, (credited_keys _ _ _ _ Hg).
    + intros x n account amount bal [Hn Hk] Hg _ _ _.
      now rewrite next_credited, (credited_keys _ _ _ _ Hg).
Qed.

Lemma numbers_are_consecutive_witness :
  let b := step OpCreate
             (step (OpDeposit "10002/127.0.0.1" "5")
                (step OpCreate
                   (step OpCreate (snd (Bank_init "127.0.0.1" Absent true))))) in
  reachable "127.0.0.1" b /\
  dict_keys (accounts b) = [10001; 10002; 10003] /\
  next_account_number b = 10004.
Proof.
  cbv zeta.
  assert (R : reachable "127.0.0.1"
                (step OpCreate
                   (step (OpDeposit "10002/127.0.0.1" "5")
                      (step OpCreate
                         (step OpCreate
                            (snd (Bank_init "127.0.0.1" Absent true)))))))
    by (repeat apply reach_step; apply reach_init).
  split; [exact R|].
  destruct (numbers_are_consecutive _ _ R) as [_ H].
  split; [rewrite H; vm_compute; reflexivity | vm_compute; reflexivity].
Defined.

(* ================================================================== *)
(** ** Records of the state file that share a number *)
(* ================================================================== *)

Lemma find_last {A} (f : A -> bool) (l : list A) (a : A) :
  find f (l ++ [a])
  = match find f l with
    | Some x => Some x
    | None => if f a then Some a else None
    end.
Proof.
  induction l as [|x l IH]; cbn; [reflexivity|].
  destruct (f x); [reflexivity | exact IH].
Qed.

Lemma loaded_get (l : list AccRecord) : forall (accs : list Account) acc0 n,
  map account_of_record l = map Some accs ->
  dict_get n (loaded l acc0)
  = match last_numbered n accs with
    | Some a => Some a
    | None => dict_get n acc0
    end.
Proof.
  unfold last_numbered.
  induction l as [|r l IH]; intros accs acc0 n H.
  - destruct accs; [reflexivity | discriminate H].
  - destruct accs as [|a accs]; [discriminate H|].
    cbn [map] in H. injection H as Hr Hl.
    cbn [loaded]. rewrite Hr. rewrite (IH accs _ n Hl).
    cbn [rev]. rewrite find_last.
    destruct (find (fun a0 => number a0 =? n) (rev accs)); [reflexivity|].
    destruct (Z.eqb_spec (number a) n) as [<-|Hne].
    + apply dict_get_set_same.
    + now apply dict_get_set_other.
Qed.

(** X21 ([_load_state]). The loader files each account of the state file
    under its number, one after the other: when all records can be read
    and two of them have the same number, the ledger holds the later one,
    and an enquiry by number finds the last record with that number. *)
Theorem load_keeps_last_record (ip : string) (d : Doc) (w : bool) (c : Z)
    (l : list AccRecord) (accs : list Account) (n : Z) :
  doc_next_account_number d = Some c ->
  doc_accounts d = Some l ->
  map account_of_record l = map Some accs ->
  dict_get n (accounts (snd (Bank_init ip (Json d) w))) = last_numbered n accs.
Proof.
  intros Hc Hl Ha. destruct (init_json ip d c w Hc) as [_ ->].
  rewrite Hl, (loaded_get l accs [] n Ha).
  now destruct (last_numbered n accs).
Qed.

Lemma load_keeps_last_record_witness :
  let file :=
    Json {| doc_next_account_number := Some 10003;
            doc_accounts :=
              Some [ {| rec_number := Some 10001; rec_balance := Some "5" |};
                     {| rec_number := Some 10002; rec_balance := Some "7" |};
                     {| rec_number := Some 10001; rec_balance := Some "9" |} ] |} in
  accounts (snd (Bank_init "127.0.0.1" file true))
  = [(10001, {| number := 10001; balance := Dec.Fin false 9 0 |});
     (10002, {| number := 10002; balance := Dec.Fin false 7 0 |})] /\
  dict_get 10001 (accounts (snd (Bank_init "127.0.0.1" file true)))
  = Some {| number := 10001; balance := Dec.Fin false 9 0 |}.
Proof.
  cbv zeta. split; [vm_compute; reflexivity|].
  exact (load_keeps_last_record "127.0.0.1"
           {| doc_next_account_number := Some 10003;
              doc_accounts :=
                Some [ {| rec_number := Some 10001; rec_balance := Some "5" |};
                       {| rec_number := Some 10002; rec_balance := Some "7" |};
                       {| rec_number := Some 10001; rec_balance := Some "9" |} ] |}
           true 10003 _
           [ {| number := 10001; balance := Dec.Fin false 5 0 |};
             {| number := 10002; balance := Dec.Fin false 7 0 |};
             {| number := 10001; balance := Dec.Fin false 9 0 |} ] 10001
           eq_refl eq_refl eq_refl).
Defined.

(* ================================================================== *)
(** ** An infinite balance *)
(* ================================================================== *)

(** X22 ([account_deposit], [account_withdrawal]). The amount of a deposit
    may be [Infinity], which [Decimal] reads and which is above zero. Once
    the balance of an account is infinite it stays so: every further
    deposit is accepted and leaves it infinite, and every withdrawal of a
    finite amount is granted and leaves it infinite. *)
Theorem infinite_balance_stays (b : Bank) (account_full amount_str : string)
    (n : Z) (account : Account) (amount : Dec.Decimal) :
  names b account_full n ->
  positive_amount amount_str amount ->
  dict_get n (accounts b) = Some account ->
  balance account = Dec.Inf false ->
  (exists r,
     account_deposit account_full amount_str b
     = (inr r, credited n account (Dec.Inf false) b)) /\
  (amount <> Dec.Inf false ->
   exists r,
     account_withdrawal account_full amount_str b
     = (inr r, credited n account (Dec.Inf false) b)) /\
  dict_get n (accounts (credited n account (Dec.Inf false) b))
  = Some {| number := number account; balance := Dec.Inf false |}.
Proof.
  intros (Hc & x & y & Hs & Hx & Hy) (Hm & Hz) Hg Hb.
  split; [|split; [|apply credited_get]].
  - eexists. eapply deposit_ok; eauto. rewrite Hb.
    destruct (DecFacts.positive_inv _ Hz) as [(c & e & -> & _) | ->];
      reflexivity.
  - intros Hne.
    destruct (DecFacts.positive_inv _ Hz) as [(c & e & -> & _) | ->];
      [|congruence].
    eexists. eapply withdrawal_ok; eauto; rewrite Hb; reflexivity.
Qed.

Lemma infinite_balance_stays_witness :
  dict_get 10001 (accounts infinite_ledger)
  = Some {| number := 10001; balance := Dec.Inf false |} /\
  exists r,
    account_withdrawal "10001/127.0.0.1" "1000000" infinite_ledger
    = (inr r,
       credited 10001 {| number := 10001; balance := Dec.Inf false |}
         (Dec.Inf false) infinite_ledger).
Proof.
  split; [reflexivity|].
  refine (proj1 (proj2 (infinite_balance_stays infinite_ledger
                          "10001/127.0.0.1" "1000000" 10001
                          {| number := 10001; balance := Dec.Inf false |}
                          (Dec.Fin false 1000000 0) _ _ eq_refl eq_refl)) _).
  - split; [reflexivity|]. exists "10001", "127.0.0.1". now repeat split.
  - split; reflexivity.
  - discriminate.
Defined.

(* ================================================================== *)
(** ** Sums and differences that need no rounding *)
(* ================================================================== *)

Module DecExact.
Import Dec DecFacts.

Lemma ndigits_prec (c : N) : (c < pow10 prec)%N -> ndigits c <= prec.
Proof.
  intros H. destruct (N.eq_dec c 0) as [->|Hc].
  - rewrite ndigits_0. unfold prec. lia.
  - apply ndigits_le; [assumption | unfold prec; lia | assumption].
Qed.

(** [_fix] leaves alone a number that is within the precision and whose
    exponent is within the range. *)
Lemma fix_exact (s : bool) (c : N) (e : Z) :
  (c < pow10 prec)%N -> Etiny <= e <= Etop -> fix_ s c e = inr (Fin s c e).
Proof.
  intros Hc He. pose proof (ndigits_prec c Hc) as Hn. unfold fix_.
  destruct (N.eqb_spec c 0) as [->|Hz].
  - do 2 f_equal. unfold Etiny, Etop, Emax, Emin, prec in *. lia.
  - destruct (Z.ltb_spec Etop (ndigits c + e - prec)) as [H|_]; [lia|].
    destruct (Z.ltb_spec e (Z.max (ndigits c + e - prec) Etiny)) as [H|_];
      [lia | reflexivity].
Qed.

Lemma at_exponent_same (c : N) (e : Z) : at_exponent c e e = c.
Proof.
  unfold at_exponent. rewrite Z.sub_diag. change (pow10 0) with 1%N. lia.
Qed.

Lemma at_exponent_digits (c : N) (e ex : Z) :
  c <> 0%N -> ex <= e -> (at_exponent c e ex < pow10 prec)%N ->
  ndigits c + e - ex <= prec.
Proof.
  intros Hc He H. apply ndigits_prec in H. unfold at_exponent in H.
  rewrite ndigits_shift in H by (assumption || lia). lia.
Qed.

(** The operand with the larger exponent is brought to the smaller one,
    and the other is kept, when both fit the precision there. *)
Lemma norm_pair_exact (tc : N) (te : Z) (oc : N) (oe : Z) :
  tc <> 0%N -> oe <= te -> (at_exponent tc te oe < pow10 prec)%N ->
  norm_pair tc te oc oe = (at_exponent tc te oe, oc, oe).
Proof.
  intros Ht He H. pose proof (at_exponent_digits _ _ _ Ht He H) as Hd.
  pose proof (ndigits_pos oc) as Ho.
  unfold norm_pair.
  destruct (Z.ltb_spec (ndigits oc + oe - 1)
              (te + Z.min (-1) (ndigits tc - prec - 2))) as [L|_];
    [unfold prec in *; lia | reflexivity].
Qed.

Lemma normalize_exact (c1 : N) (e1 : Z) (c2 : N) (e2 : Z) :
  c1 <> 0%N -> c2 <> 0%N ->
  (at_exponent c1 e1 (Z.min e1 e2) < pow10 prec)%N ->
  (at_exponent c2 e2 (Z.min e1 e2) < pow10 prec)%N ->
  normalize c1 e1 c2 e2
  = (at_exponent c1 e1 (Z.min e1 e2), at_exponent c2 e2 (Z.min e1 e2),
     Z.min e1 e2).
Proof.
  intros H1 H2 L1 L2. unfold normalize.
  destruct (Z.ltb_spec e1 e2) as [Hlt|Hge].
  - rewrite Z.min_l in * by lia.
    rewrite norm_pair_exact by (assumption || lia).
    now rewrite at_exponent_same.
  - rewrite Z.min_r in * by lia.
    rewrite norm_pair_exact by (assumption || lia).
    now rewrite at_exponent_same.
Qed.

Lemma at_exponent_nonzero (c : N) (e ex : Z) :
  c <> 0%N -> at_exponent c e ex <> 0%N.
Proof. intros H. unfold at_exponent. now apply mul_pow10_nonzero. Qed.

Lemma at_exponent_zero (e ex : Z) : at_exponent 0 e ex = 0%N.
Proof. reflexivity. Qed.

(** The sum of two numbers that are not negative is exact when, written
    with the smaller of the two exponents, it has no more digits than
    the precision. *)
Lemma add_exact (c1 : N) (e1 : Z) (c2 : N) (e2 : Z) :
  c2 <> 0%N ->
  (at_exponent c1 e1 (Z.min e1 e2) + at_exponent c2 e2 (Z.min e1 e2)
   < pow10 prec)%N ->
  Etiny <= Z.min e1 e2 <= Etop ->
  add (Fin false c1 e1) (Fin false c2 e2)
  = inr (Fin false (at_exponent c1 e1 (Z.min e1 e2)
                    + at_exponent c2 e2 (Z.min e1 e2)) (Z.min e1 e2)).
Proof.
  intros H2 Ht He. cbn [add check_nans]. unfold add_fin.
  destruct (N.eqb_spec c2 0) as [E|_]; [contradiction|].
  rewrite andb_false_r.
  destruct (N.eqb_spec c1 0) as [->|H1].
  - rewrite at_exponent_zero, N.add_0_l in *.
    pose proof (at_exponent_digits c2 e2 (Z.min e1 e2) H2 ltac:(lia) Ht) as Hd.
    pose proof (ndigits_pos c2) as Hp.
    replace (Z.max (Z.min e1 e2) (e2 - prec - 1)) with (Z.min e1 e2)
      by (unfold prec in *; lia).
    unfold rescale.
    destruct (N.eqb_spec c2 0) as [E|_]; [contradiction|].
    destruct (Z.leb_spec (Z.min e1 e2) e2) as [_|L]; [|lia].
    cbn [fix_dec]. now apply fix_exact.
  - rewrite normalize_exact by (assumption || lia). cbn [xorb].
    now apply fix_exact.
Qed.

(** The difference of two numbers that are not negative, the second not
    above the first, is exact when the first, written with the smaller of
    the two exponents, has no more digits than the precision. *)
Lemma sub_exact (c1 : N) (e1 : Z) (c2 : N) (e2 : Z) :
  c2 <> 0%N ->
  (at_exponent c2 e2 (Z.min e1 e2) <= at_exponent c1 e1 (Z.min e1 e2))%N ->
  (at_exponent c1 e1 (Z.min e1 e2) < pow10 prec)%N ->
  Etiny <= Z.min e1 e2 <= Etop ->
  lt (Fin false c1 e1) (Fin false c2 e2) = inr false /\
  sub (Fin false c1 e1) (Fin false c2 e2)
  = inr (Fin false (at_exponent c1 e1 (Z.min e1 e2)
                    - at_exponent c2 e2 (Z.min e1 e2)) (Z.min e1 e2)).
Proof.
  intros H2 Hle Ht He.
  pose proof (at_exponent_nonzero c2 e2 (Z.min e1 e2) H2) as N2.
  assert (H1 : c1 <> 0%N).
  { intros ->. rewrite at_exponent_zero in Hle. lia. }
  pose proof (normalize_exact c1 e1 c2 e2 H1 H2 Ht ltac:(lia)) as Hn.
  split.
  - pose proof (normalize_order _ _ _ _ _ _ _ H1 H2 Hn) as Ho.
    unfold lt. cbn [cmp]. rewrite <- Ho.
    destruct (N.compare_spec (at_exponent c1 e1 (Z.min e1 e2))
                (at_exponent c2 e2 (Z.min e1 e2))); [reflexivity | lia | reflexivity].
  - cbn [sub check_nans copy_negate add]. unfold add_fin.
    destruct (N.eqb_spec c2 0) as [E|_]; [contradiction|].
    rewrite andb_false_r.
    destruct (N.eqb_spec c1 0) as [E|_]; [contradiction|].
    rewrite Hn. cbn [xorb].
    destruct (N.eqb_spec (at_exponent c1 e1 (Z.min e1 e2))
                (at_exponent c2 e2 (Z.min e1 e2))) as [E|Hne].
    + rewrite E, N.sub_diag. apply fix_exact; [apply pow10_pos | assumption].
    + destruct (N.ltb_spec (at_exponent c1 e1 (Z.min e1 e2))
                  (at_exponent c2 e2 (Z.min e1 e2))) as [L|_]; [lia|].
      apply fix_exact; [lia | assumption].
Qed.

End DecExact.


(** A deposit and a withdrawal that need no rounding. *)
Lemma deposit_is_exact_at (b : Bank) (account_full amount_str : string)
    (n : Z) (account : Account) (c1 : N) (e1 : Z) (c2 : N) (e2 : Z) :
  names b account_full n ->
  dict_get n (accounts b) = Some account ->
  balance account = Dec.Fin false c1 e1 ->
  Dec.of_string amount_str = Some (Dec.Fin false c2 e2) ->
  c2 <> 0%N ->
  (at_exponent c1 e1 (Z.min e1 e2) + at_exponent c2 e2 (Z.min e1 e2)
   < Dec.pow10 Dec.prec)%N ->
  Dec.Etiny <= Z.min e1 e2 <= Dec.Etop ->
  exists r,
    account_deposit account_full amount_str b
    = (inr r,
       credited n account
         (Dec.Fin false (at_exponent c1 e1 (Z.min e1 e2)
                         + at_exponent c2 e2 (Z.min e1 e2)) (Z.min e1 e2)) b).
Proof.
  intros (Hc & x & y & Hs & Hx & Hy) Hg Hb Hm H2 Ht He.
  eexists. eapply deposit_ok; eauto.
  - rewrite DecFacts.le_zero_fin. cbn [orb].
    now destruct (N.eqb_spec c2 0).
  - rewrite Hb. now apply DecExact.add_exact.
Qed.

Lemma withdrawal_is_exact_at (b : Bank) (account_full amount_str : string)
    (n : Z) (account : Account) (c1 : N) (e1 : Z) (c2 : N) (e2 : Z) :
  names b account_full n ->
  dict_get n (accounts b) = Some account ->
  balance account = Dec.Fin false c1 e1 ->
  Dec.of_string amount_str = Some (Dec.Fin false c2 e2) ->
  c2 <> 0%N ->
  (at_exponent c2 e2 (Z.min e1 e2) <= at_exponent c1 e1 (Z.min e1 e2))%N ->
  (at_exponent c1 e1 (Z.min e1 e2) < Dec.pow10 Dec.prec)%N ->
  Dec.Etiny <= Z.min e1 e2 <= Dec.Etop ->
  exists r,
    account_withdrawal account_full amount_str b
    = (inr r,
       credited n account
         (Dec.Fin false (at_exponent c1 e1 (Z.min e1 e2)
                         - at_exponent c2 e2 (Z.min e1 e2)) (Z.min e1 e2)) b).
Proof.
  intros (Hc & x & y & Hs & Hx & Hy) Hg Hb Hm H2 Hle Ht He.
  destruct (DecExact.sub_exact c1 e1 c2 e2 H2 Hle Ht He) as [Hl Hsub].
  eexists. eapply withdrawal_ok; eauto.
  - rewrite DecFacts.le_zero_fin. cbn [orb].
    now destruct (N.eqb_spec c2 0).
  - now rewrite Hb.
  - now rewrite Hb.
Qed.

(** X23 ([account_deposit]). A deposit adds the amount without rounding
    when the new balance, written with the smaller of the exponents of the
    old balance and of the amount, has no more than 28 digits: it is then
    exactly the sum, at that exponent. (For amounts in crowns and hellers
    this is every balance below 10^26 crowns.) *)
Theorem deposit_is_exact (b : Bank) (account_full amount_str : string)
    (n : Z) (account : Account) (c1 : N) (e1 : Z) (c2 : N) (e2 : Z) :
  names b account_full n ->
  dict_get n (accounts b) = Some account ->
  balance account = Dec.Fin false c1 e1 ->
  Dec.of_string amount_str = Some (Dec.Fin false c2 e2) ->
  c2 <> 0%N ->
  let e := Z.min e1 e2 in
  let total := (at_exponent c1 e1 e + at_exponent c2 e2 e)%N in
  (total < Dec.pow10 Dec.prec)%N ->
  Dec.Etiny <= e <= Dec.Etop ->
  exists r,
    account_deposit account_full amount_str b
    = (inr r, credited n account (Dec.Fin false total e) b) /\
    dict_get n (accounts (credited n account (Dec.Fin false total e) b))
    = Some {| number := number account; balance := Dec.Fin false total e |}.
Proof.
  intros Hn Hg Hb Hm H2. cbv zeta. intros Ht He.
  destruct (deposit_is_exact_at b account_full amount_str n account c1 e1 c2 e2
              Hn Hg Hb Hm H2 Ht He) as [r E].
  exists r. split; [exact E | apply credited_get].
Qed.

Lemma deposit_is_exact_witness :
  exists r,
    account_deposit "10001/127.0.0.1" "0.25" sample_ledger
    = (inr r,
       credited 10001 {| number := 10001; balance := Dec.Fin false 100 0 |}
         (Dec.Fin false 10025 (-2)) sample_ledger) /\
    dict_get 10001
      (accounts
         (credited 10001 {| number := 10001; balance := Dec.Fin false 100 0 |}
            (Dec.Fin false 10025 (-2)) sample_ledger))
    = Some {| number := 10001; balance := Dec.Fin false 10025 (-2) |}.
Proof.
  refine (deposit_is_exact sample_ledger "10001/127.0.0.1" "0.25" 10001
            {| number := 10001; balance := Dec.Fin false 100 0 |}
            100 0 25 (-2) _ eq_refl eq_refl eq_refl _ _ _).
  - split; [reflexivity|]. exists "10001", "127.0.0.1". now repeat split.
  - discriminate.
  - vm_compute. reflexivity.
  - vm_compute. split; discriminate.
Defined.

(** X24 ([account_withdrawal]). A withdrawal of an amount not above the
    balance is granted and takes the amount off without rounding when the
    old balance, written with the smaller of the exponents of the balance
    and of the amount, has no more than 28 digits: the new balance is then
    exactly the difference, at that exponent. *)
Theorem withdrawal_is_exact (b : Bank) (account_full amount_str : string)
    (n : Z) (account : Account) (c1 : N) (e1 : Z) (c2 : N) (e2 : Z) :
  names b account_full n ->
  dict_get n (accounts b) = Some account ->
  balance account = Dec.Fin false c1 e1 ->
  Dec.of_string amount_str = Some (Dec.Fin false c2 e2) ->
  c2 <> 0%N ->
  let e := Z.min e1 e2 in
  (at_exponent c2 e2 e <= at_exponent c1 e1 e)%N ->
  (at_exponent c1 e1 e < Dec.pow10 Dec.prec)%N ->
  Dec.Etiny <= e <= Dec.Etop ->
  let rest := (at_exponent c1 e1 e - at_exponent c2 e2 e)%N in
  exists r,
    account_withdrawal account_full amount_str b
    = (inr r, credited n account (Dec.Fin false rest e) b) /\
    dict_get n (accounts (credited n account (Dec.Fin false rest e) b))
    = Some {| number := number account; balance := Dec.Fin false rest e |}.
Proof.
  intros Hn Hg Hb Hm H2. cbv zeta. intros Hle Ht He.
  destruct (withdrawal_is_exact_at b account_full amount_str n account
              c1 e1 c2 e2 Hn Hg Hb Hm H2 Hle Ht He) as [r E].
  exists r. split; [exact E | apply credited_get].
Qed.

Lemma withdrawal_is_exact_witness :
  exists r,
    account_withdrawal "10001/127.0.0.1" "0.25" sample_ledger
    = (inr r,
       credited 10001 {| number := 10001; balance := Dec.Fin false 100 0 |}
         (Dec.Fin false 9975 (-2)) sample_ledger) /\
    dict_get 10001
      (accounts
         (credited 10001 {| number := 10001; balance := Dec.Fin false 100 0 |}
            (Dec.Fin false 9975 (-2)) sample_ledger))
    = Some {| number := 10001; balance := Dec.Fin false 9975 (-2) |}.
Proof.
  refine (withdrawal_is_exact sample_ledger "10001/127.0.0.1" "0.25" 10001
            {| number := 10001; balance := Dec.Fin false 100 0 |}
            100 0 25 (-2) _ eq_refl eq_refl eq_refl _ _ _ _).
  - split; [reflexivity|]. exists "10001", "127.0.0.1". now repeat split.
  - discriminate.
  - vm_compute. discriminate.
  - vm_compute. reflexivity.
  - vm_compute. split; discriminate.
Defined.


(** X25 ([account_deposit], [account_withdrawal]). A deposit that needs no
    rounding is undone by the withdrawal of the same amount: the balance
    is again the number it was, written with the smaller of the two
    exponents (so 100 is 100.00 after 0.25 went in and out). *)
Theorem deposit_then_withdrawal (b : Bank) (account_full amount_str : string)
    (n : Z) (account : Account) (c1 : N) (e1 : Z) (c2 : N) (e2 : Z) :
  names b account_full n ->
  dict_get n (accounts b) = Some account ->
  balance account = Dec.Fin false c1 e1 ->
  Dec.of_string amount_str = Some (Dec.Fin false c2 e2) ->
  c2 <> 0%N ->
  let e := Z.min e1 e2 in
  (at_exponent c1 e1 e + at_exponent c2 e2 e < Dec.pow10 Dec.prec)%N ->
  Dec.Etiny <= e <= Dec.Etop ->
  exists r1 b1 r2 b2,
    account_deposit account_full amount_str b = (inr r1, b1) /\
    account_withdrawal account_full amount_str b1 = (inr r2, b2) /\
    dict_get n (accounts b2)
    = Some {| number := number account;
              balance := Dec.Fin false (at_exponent c1 e1 e) e |}.
Proof.
  intros Hn Hg Hb Hm H2. cbv zeta. intros Ht He.
  destruct (deposit_is_exact_at b account_full amount_str n account c1 e1 c2 e2
              Hn Hg Hb Hm H2 Ht He) as [r1 E1].
  set (e := Z.min e1 e2) in *.
  set (total := (at_exponent c1 e1 e + at_exponent c2 e2 e)%N) in *.
  set (b1 := credited n account (Dec.Fin false total e) b) in *.
  assert (Hn1 : names b1 account_full n).
  { destruct Hn as (Hc & x & y & Hs & Hx & Hy). split; [exact Hc|].
    exists x, y. split; [exact Hs|]. split; [exact Hx|].
    unfold b1. now rewrite ip_address_credited. }
  assert (Hmin : Z.min e e2 = e) by (unfold e; lia).
  assert (Hsame : at_exponent total e e = total)
    by apply DecExact.at_exponent_same.
  destruct (withdrawal_is_exact_at b1 account_full amount_str n
              {| number := number account; balance := Dec.Fin false total e |}
              total e c2 e2 Hn1 (credited_get b n account _) eq_refl Hm H2)
    as [r2 E2].
  - rewrite Hmin, Hsame. unfold total. lia.
  - rewrite Hmin, Hsame. exact Ht.
  - now rewrite Hmin.
  - rewrite Hmin, Hsame in E2.
    exists r1, b1, r2. eexists. split; [exact E1|]. split; [exact E2|].
    rewrite credited_get. cbn [number]. do 3 f_equal. unfold total. lia.
Qed.

Lemma deposit_then_withdrawal_witness :
  exists r1 b1 r2 b2,
    account_deposit "10001/127.0.0.1" "0.25" sample_ledger = (inr r1, b1) /\
    account_withdrawal "10001/127.0.0.1" "0.25" b1 = (inr r2, b2) /\
    dict_get 10001 (accounts b2)
    = Some {| number := 10001; balance := Dec.Fin false 10000 (-2) |}.
Proof.
  refine (deposit_then_withdrawal sample_ledger "10001/127.0.0.1" "0.25" 10001
            {| number := 10001; balance := Dec.Fin false 100 0 |}
            100 0 25 (-2) _ eq_refl eq_refl eq_refl _ _ _).
  - split; [reflexivity|]. exists "10001", "127.0.0.1". now repeat split.
  - discriminate.
  - vm_compute. reflexivity.
  - vm_compute. split; discriminate.
Defined.
